(** * Shopify-Domains-Scraper: the three scripts and their specification

    A shallow embedding of [main.py] (directory crawl), [main2.py] (widget
    probe) and [script.py] (locale probe), and the properties of the
    specification settled on it.

    Conventions.
    - A Python [str] is the [string] of the bytes of its UTF-8 encoding.
      Searching for a piece, testing a prefix or a suffix, splitting and
      joining are the same on the characters and on these bytes.
      [str.strip] removes the 29 whitespace characters of Unicode.
      [str.lower] is followed on the letters A-Z: the scripts only look
      for ASCII text in what it returns. [str.upper] is a parameter.
    - Python integers are [Z].
    - The network, the clock, the HTML parser, the regular-expression
      engine and the JSON and CSV readers are parameters of the sections:
      every theorem holds for whatever they answer, an exception
      included where the code lets one through.
    - A file is the list of rows written to it; the file system is a finite
      map from names to files.
    - A coroutine run by [asyncio.gather] is a unit; the order in which the
      units of a group begin and return is chosen by the event loop and is an
      explicit schedule. *)

From stdpp Require Import base option list strings gmap.
From Stdlib Require Import Ascii ZArith Lia.
From Stdlib Require Import Numbers.DecimalString.
From Stdlib Require DecimalZ.

Local Open Scope Z_scope.

(** ** Python built-ins *)

Module Py.

Definition ord (c : ascii) : nat := nat_of_ascii c.

Definition is_upper (c : ascii) : bool :=
  (65 <=? ord c)%nat && (ord c <=? 90)%nat.

Definition lower_char (c : ascii) : ascii :=
  if is_upper c then ascii_of_nat (ord c + 32) else c.

(** [s.lower()], up to the characters outside ASCII it holds: A-Z become
    a-z and every other byte stays. Python also lowers the letters outside
    ASCII; the lower case of two of them holds an ASCII letter (U+0130
    gives [i] and a combining dot, U+212A gives [k]), and none of the
    strings the scripts look for in lowered text has a [k], or an [i] that
    is its last character. *)
Fixpoint lower (s : string) : string :=
  match s with
  | EmptyString => EmptyString
  | String c s' => String (lower_char c) (lower s')
  end.

(** [s.startswith(p)] *)
Fixpoint startswith (s p : string) {struct p} : bool :=
  match p, s with
  | EmptyString, _ => true
  | String a p', String b s' => Ascii.eqb a b && startswith s' p'
  | String _ _, EmptyString => false
  end.

(** [s.endswith(p)]: some tail of [s] is [p]. *)
Fixpoint endswith (s p : string) : bool :=
  String.eqb s p ||
  match s with
  | EmptyString => false
  | String _ s' => endswith s' p
  end.

(** [p in s] *)
Fixpoint contains (s p : string) : bool :=
  startswith s p ||
  match s with
  | EmptyString => false
  | String _ s' => contains s' p
  end.

(** The UTF-8 encoding of a code point. *)
Definition chr (c : N) : string :=
  let byte n := ascii_of_N n in
  if (c <? 128)%N then String (byte c) EmptyString
  else if (c <? 2048)%N then
    String (byte (192 + c / 64)%N) (String (byte (128 + c mod 64)%N) EmptyString)
  else if (c <? 65536)%N then
    String (byte (224 + c / 4096)%N)
      (String (byte (128 + (c / 64) mod 64)%N)
         (String (byte (128 + c mod 64)%N) EmptyString))
  else
    String (byte (240 + c / 262144)%N)
      (String (byte (128 + (c / 4096) mod 64)%N)
         (String (byte (128 + (c / 64) mod 64)%N)
            (String (byte (128 + c mod 64)%N) EmptyString))).

(** The characters [c] with [c.isspace()], which are those [str.strip]
    removes: U+0009 to U+000D, U+001C to U+0020, U+0085, U+00A0, U+1680,
    U+2000 to U+200A, U+2028, U+2029, U+202F, U+205F and U+3000. *)
Definition whitespace : list string :=
  map chr [9; 10; 11; 12; 13; 28; 29; 30; 31; 32; 133; 160; 5760;
           8192; 8193; 8194; 8195; 8196; 8197; 8198; 8199; 8200; 8201; 8202;
           8232; 8233; 8239; 8287; 12288]%N.

(** A byte that is not the first of its character. *)
Definition is_continuation (c : ascii) : bool :=
  (128 <=? ord c)%nat && (ord c <? 192)%nat.

(** The number of bytes of the whitespace character [s] begins with. *)
Definition space_prefix (s : string) : option nat :=
  String.length <$> find (startswith s) whitespace.

(** [s.lstrip()]: [skip] counts the bytes of a whitespace character still
    to be dropped. *)
Fixpoint lstrip_from (skip : nat) (s : string) : string :=
  match s with
  | EmptyString => EmptyString
  | String _ s' =>
      match skip with
      | S k => lstrip_from k s'
      | O =>
          match space_prefix s with
          | Some n => lstrip_from (n - 1) s'
          | None => s
          end
      end
  end.

Definition lstrip (s : string) : string := lstrip_from 0 s.

(** [s] is made of whitespace characters. *)
Fixpoint all_space_from (skip : nat) (s : string) : bool :=
  match s with
  | EmptyString => true
  | String _ s' =>
      match skip with
      | S k => all_space_from k s'
      | O =>
          match space_prefix s with
          | Some n => all_space_from (n - 1) s'
          | None => false
          end
      end
  end.

(** [s.rstrip()]: [s] up to where only whitespace follows. *)
Fixpoint rstrip (s : string) : string :=
  match s with
  | EmptyString => EmptyString
  | String c s' =>
      if all_space_from 0 s then EmptyString else String c (rstrip s')
  end.

(** [s.strip()] *)
Definition strip (s : string) : string := rstrip (lstrip s).

(** [str(n)] for an integer. *)
Definition str (n : Z) : string := NilZero.string_of_int (Z.to_int n).

(** [list(range(lo, hi))] *)
Definition range (lo hi : Z) : list Z :=
  map (fun k => lo + Z.of_nat k) (seq 0 (Z.to_nat (hi - lo))).

(** [list(range(0, stop, step))] for a positive step: the multiples of
    [step] below [stop], [ceil(stop / step)] of them. *)
Definition range_step (stop step : nat) : list nat :=
  map (fun k => (k * step)%nat) (seq 0 ((stop + step - 1) / step)%nat).

(** [l[i:j]] for [0 <= i <= j]. *)
Definition slice {A} (l : list A) (i j : nat) : list A :=
  take (j - i) (drop i l).

(** [sep.join(l)] *)
Fixpoint join (sep : string) (l : list string) : string :=
  match l with
  | [] => EmptyString
  | [x] => x
  | x :: rest => x +:+ sep +:+ join sep rest
  end.

(** [s.split(sep)] for a non-empty separator: the pieces between the
    occurrences of [sep], found left to right without overlap. [skip]
    counts the characters of a matched separator still to be dropped and
    [cur] is the piece being read. *)
Fixpoint split_from (sep s : string) (skip : nat) (cur : string)
  : list string :=
  match s with
  | EmptyString => [cur]
  | String c s' =>
      match skip with
      | S k => split_from sep s' k cur
      | O =>
          if startswith s sep
          then cur :: split_from sep s' (String.length sep - 1) EmptyString
          else split_from sep s' O (cur +:+ String c EmptyString)
      end
  end.

Definition split (s sep : string) : list string :=
  split_from sep s O EmptyString.

End Py.

(** ** The words of the specification

    The same text in any character case, and a trimmed text, said without
    [str.lower] and [str.strip]: what the code does is compared with
    these. *)

Module Spec.

(** [a] is [b] up to the case of a letter A-Z. *)
Definition same_letter (a b : ascii) : bool :=
  Ascii.eqb a b
  || (Py.is_upper a && Ascii.eqb b (ascii_of_nat (Py.ord a + 32)))
  || (Py.is_upper b && Ascii.eqb a (ascii_of_nat (Py.ord b + 32))).

(** [s] is [t] up to the case of its letters A-Z. *)
Fixpoint same_text (s t : string) : bool :=
  match s, t with
  | EmptyString, EmptyString => true
  | String a s', String b t' => same_letter a b && same_text s' t'
  | _, _ => false
  end.

(** [body] holds [marker] in some character case. *)
Definition holds_in_any_case (body marker : string) : Prop :=
  exists pre piece post,
    body = pre +:+ piece +:+ post /\ same_text piece marker = true.

(** [s] is a run of whitespace characters. *)
Inductive blank : string -> Prop :=
  | blank_nil : blank EmptyString
  | blank_cons (w s : string) :
      w ∈ Py.whitespace -> blank s -> blank (w +:+ s).

(** [core] is [text] without the whitespace around it: what is left when
    a run of whitespace is taken from each end, and begins and ends with
    no whitespace character. *)
Definition trimmed (text core : string) : Prop :=
  exists l r,
    text = l +:+ core +:+ r /\ blank l /\ blank r /\
    forall w, w ∈ Py.whitespace ->
      Py.startswith core w = false /\ Py.endswith core w = false.

End Spec.

(** ** Files

    A cell is a value handed to [csv.writer.writerow]; a file is the list of
    rows written to it. [open(name, 'w')] replaces the file, [open(name, 'a')]
    creates it when missing and keeps what it holds. *)

Module Files.

Inductive cell :=
  | Str (s : string)
  | Int (n : Z)
  | Bool (b : bool)
  | NoneCell.

#[global] Instance cell_eq_dec : EqDecision cell.
Proof. solve_decision. Defined.

Definition of_opt_str (o : option string) : cell :=
  match o with Some s => Str s | None => NoneCell end.

Definition of_opt_int (o : option Z) : cell :=
  match o with Some n => Int n | None => NoneCell end.

Abbreviation row := (list cell).
Abbreviation file := (list (list cell)).
Abbreviation fs := (gmap string (list (list cell))).

(** [with open(name, 'w') as f: writer.writerows(rows)] *)
Definition write (name : string) (rows : file) (d : fs) : fs :=
  <[name := rows]> d.

(** [with open(name, 'a') as f: writer.writerows(rows)] *)
Definition append (name : string) (rows : file) (d : fs) : fs :=
  <[name := default [] (d !! name) ++ rows]> d.

(** [e] does nothing but append [rows] to the file [name], which exists. *)
Definition appends_to (name : string) (e : fs -> fs) (rows : file) : Prop :=
  forall d old, d !! name = Some old ->
    e d !! name = Some (old ++ rows) /\
    forall other, other <> name -> e d !! other = d !! other.

(** The rows [e] adds to the file [name], read off the empty file. *)
Definition appended (name : string) (e : fs -> fs) : file :=
  default [] (e {[name := []]} !! name).

End Files.

(** ** The event loop

    [asyncio.gather] over the coroutines [tasks]. Every unit is a task of the
    loop: the tasks begin in the order of their creation, each returns at
    some later turn of the loop, and [gather] returns when all of them have.
    A schedule is the sequence of these events. A unit appends to its file
    without suspending, after its request is answered and before it
    returns; a unit is therefore its returned value and its effect on the
    shared state, and the effects are applied in the order of the
    [Returned] events. Every order of the units is the order of return of
    some schedule, so the schedules cover every order of the appends. *)

Module Asyncio.

Inductive event (U : Type) :=
  | Began (u : U)
  | Returned (u : U).
Arguments Began {U} u.
Arguments Returned {U} u.

Section Gather.
Context {U R S : Type} `{EqDecision U}.
Variable body : U -> R * (S -> S).

(** Removes the first occurrence of [u]. *)
Fixpoint take_out (u : U) (l : list U) : option (list U) :=
  match l with
  | [] => None
  | v :: l' => if decide (u = v) then Some l' else cons v <$> take_out u l'
  end.

(** [accepts todo inflight sched]: [sched] is a complete run of a group
    whose tasks [todo] have not begun and whose tasks [inflight] are
    suspended. *)
Fixpoint accepts (todo inflight : list U) (sched : list (event U)) : bool :=
  match sched with
  | [] =>
      match todo, inflight with
      | [], [] => true
      | _, _ => false
      end
  | Began u :: rest =>
      match todo with
      | v :: todo' =>
          bool_decide (u = v) && accepts todo' (inflight ++ [u]) rest
      | [] => false
      end
  | Returned u :: rest =>
      match take_out u inflight with
      | Some inflight' => accepts todo inflight' rest
      | None => false
      end
  end.

(** The units in the order they returned. *)
Fixpoint returned (sched : list (event U)) : list U :=
  match sched with
  | [] => []
  | Began _ :: rest => returned rest
  | Returned u :: rest => u :: returned rest
  end.

(** The units in the order they began. *)
Fixpoint began (sched : list (event U)) : list U :=
  match sched with
  | [] => []
  | Began u :: rest => u :: began rest
  | Returned _ :: rest => began rest
  end.

(** [await asyncio.gather] of [tasks]: the values in the order of the tasks,
    the effects in the order of return. [None]: [sched] is not a run of
    this group. *)
Definition gather (tasks : list U) (sched : list (event U)) (s : S)
  : option (list R * S) :=
  if accepts tasks [] sched
  then Some (map (fun u => fst (body u)) tasks,
             foldl (fun s u => snd (body u) s) s (returned sched))
  else None.

End Gather.

(** The schedule in which every unit returns before the next begins. *)
Definition in_turn {U} (tasks : list U) : list (event U) :=
  flat_map (fun u => [Began u; Returned u]) tasks.

End Asyncio.

(** ** main.py: the directory crawl *)

Module Main.
Import Files.

(** What [session.get] and [res.text()] give for a listing page.
    [ClientError]: the coroutine of the page raises before it has a list,
    in the request, in the reading of the body or in the parser. *)
Inductive response :=
  | ClientError
  | Response (status : Z) (text : string).

(** What the parser finds in the landing page of a zone: it raises, there
    is no element of class [pagination], or the texts of its [li]
    elements. *)
Inductive pagination :=
  | ParserFails
  | NoPagination
  | Pagination (lis : list string).

(** What a [scrape] task hands to [gather(return_exceptions=True)]: the
    exception it raised, [None] (a status other than 200) or the list. *)
Inductive result :=
  | Exception
  | ReturnsNone
  | Returns (page_domains : list string).

Inductive error :=
  | InvalidDomainZone
  | LastPageNegative
  | ValueError
  | IndexError
  | TypeError
  | RequestException
  | ParserRejectedMarkup.

Inductive outcome :=
  | Raised (e : error)
  | Completed (all_domains : list string).

Definition header : row := [Str "Page"; Str "Domain"; Str "Timestamp"].

Section Crawl.
(** [time.strftime] at import. *)
Variable timestamp : string.
(** [datetime.now()] as [save_to_csv] formats it for a page. *)
Variable now : Z -> string.
(** The listing site, by URL. *)
Variable session_get : string -> response.
(** [link.text] for the elements of class [col-lg-4 col-md-4 col-sm-12] of
    the parsed text, in document order. *)
Variable find_all : string -> list string.
(** [requests.get] for the landing page of a zone: [None] when it raises,
    else the status and what the parser finds in the text. *)
Variable landing : string -> option (Z * pagination).
(** [int(s)]; [None] when it raises. *)
Variable int : string -> option Z.

Definition output_filename : string :=
  "shopify_domains_" +:+ timestamp +:+ ".csv".

(** The statements run at import: the output file and its header. *)
Definition module_load (d : fs) : fs :=
  write output_filename [header] d.

Definition save_to_csv (domains : list string) (page_num : Z) (d : fs) : fs :=
  append output_filename
    (map (fun domain => [Int page_num; Str domain; Str (now page_num)]) domains)
    d.

(** The loop of [scrape] over the candidate elements. *)
Fixpoint keep_links (DOMAIN_ZONE : string) (links page_domains : list string)
  : list string :=
  match links with
  | [] => page_domains
  | link :: rest =>
      if Py.endswith (Py.strip link) ("." +:+ DOMAIN_ZONE)
      then keep_links DOMAIN_ZONE rest (page_domains ++ [Py.strip link])
      else keep_links DOMAIN_ZONE rest page_domains
  end.

Definition page_url (DOMAIN_ZONE : string) (page_num : Z) : string :=
  "https://onshopify.com/domain-zone/" +:+ DOMAIN_ZONE +:+ "/"
    +:+ Py.str page_num.

Definition scrape (DOMAIN_ZONE : string) (page_num : Z)
  : result * (fs -> fs) :=
  match session_get (page_url DOMAIN_ZONE page_num) with
  | ClientError => (Exception, id)
  | Response status text =>
      if status =? 200 then
        let page_domains := keep_links DOMAIN_ZONE (find_all text) [] in
        (Returns page_domains,
         match page_domains with
         | [] => id
         | _ :: _ => save_to_csv page_domains page_num
         end)
      else (ReturnsNone, id)
  end.

(** The page numbers [fetch] creates a task for. *)
Definition tasks (last_page : Z) : list Z := Py.range 1 last_page.

(** The loop of [fetch] over the gathered results. *)
Fixpoint extend_lists (results : list result) (all_domains : list string)
  : list string :=
  match results with
  | [] => all_domains
  | Returns domains :: rest => extend_lists rest (all_domains ++ domains)
  | _ :: rest => extend_lists rest all_domains
  end.

Definition fetch (DOMAIN_ZONE : string) (last_page : Z)
    (sched : list (Asyncio.event Z)) (d : fs) : option (list string * fs) :=
  '(results, d') ← Asyncio.gather (scrape DOMAIN_ZONE) (tasks last_page) sched d;
  Some (extend_lists results [], d').

(** [last_page_finder()]: [inr e] raises, [inl None] is the implicit return
    on a status other than 200. *)
Definition last_page_finder (DOMAIN_ZONE : string) : option Z + error :=
  match landing DOMAIN_ZONE with
  | None => inr RequestException
  | Some (status_code, soup) =>
      if status_code =? 200 then
        match soup with
        | ParserFails => inr ParserRejectedMarkup
        | Pagination lis =>
            match last lis with
            | Some text =>
                match int text with
                | Some n => inl (Some n)
                | None => inr ValueError
                end
            | None => inr IndexError
            end
        | NoPagination => inr InvalidDomainZone
        end
      else inl None
  end.

(** The [__main__] block. [None]: [sched] is not a run of the tasks. *)
Definition main (argv : list string) (sched : list (Asyncio.event Z)) (d : fs)
  : option (outcome * fs) :=
  let DOMAIN_ZONE := default "com" (argv !! 1%nat) in
  let crawl last_page :=
    '(all_domains, d') ← fetch DOMAIN_ZONE last_page sched d;
    Some (Completed all_domains, d') in
  match argv !! 2%nat with
  | Some arg =>
      match int arg with
      | Some last_page =>
          if last_page <? 0 then Some (Raised LastPageNegative, d)
          else crawl last_page
      | None => Some (Raised ValueError, d)
      end
  | None =>
      match last_page_finder DOMAIN_ZONE with
      | inl (Some last_page) => crawl last_page
      | inl None => Some (Raised TypeError, d)
      | inr e => Some (Raised e, d)
      end
  end.

Definition program (argv : list string) (sched : list (Asyncio.event Z))
    (d : fs) : option (outcome * fs) :=
  main argv sched (module_load d).

End Crawl.
End Main.

(** ** What the probing scripts share

    [session.get(domain, timeout=...)] followed by [response.text()], as the
    [try] of [check_domain] sees it. *)

Module Probe.

(** What the request of a unit and the reading of its body give:
    [asyncio.TimeoutError], another exception with its [str(e)], or the
    status and the text of the response. *)
Inductive fetched :=
  | Timeout
  | OtherError (description : string)
  | Response (status : Z) (html_content : string).

(** How a run of a script ends. *)
Inductive outcome :=
  | Exit (status : Z) (message : string)
  | Uncaught
  | Finished.

(** A unit of a probing script: a [Domain] cell of the input and its
    position there, which tells two units for the same string apart. The
    cell is [None] in a row that ends before the [Domain] column. *)
Abbreviation unit := (nat * option string)%type.

Definition enumerate (domains : list (option string)) : list unit :=
  imap pair domains.

(** [str(e)] for the [AttributeError] of [None.startswith]. *)
Definition no_startswith : string :=
  "'NoneType' object has no attribute 'startswith'".

Definition usage : string :=
  "Please provide the CSV file path as an argument".

(** The batches the loop of [main] takes, in order: [l[i:i + size]] for
    [i] in [range(0, len(l), size)]. *)
Definition batches {A} (l : list A) (size : nat) : list (list A) :=
  map (fun i => Py.slice l i (i + size)) (Py.range_step (length l) size).

(** The domains of a run are processed in batches that follow one
    another. The batches are the slices of width 50 of the input, none of
    them empty. The trace is made of one segment for every batch, in the
    order of the batches; in the segment of a batch its units begin, each
    once and in the order of the input, and its units return. So whenever
    a unit of a batch begins in [trace], every unit of the batch before it
    has returned. *)
Definition sequenced (domains : list (option string))
    (trace : list (Asyncio.event unit)) : Prop :=
  let groups := batches (enumerate domains) 50 in
  (forall b, b ∈ groups -> (1 <= length b <= 50)%nat) /\
  concat groups = enumerate domains /\
  (forall (n : nat) b, groups !! n = Some b ->
     b = take 50 (drop (n * 50) (enumerate domains))) /\
  (exists segments,
     trace = concat segments /\
     Forall2 (fun group segment =>
                Asyncio.began segment = group /\
                Asyncio.returned segment ≡ₚ group) groups segments) /\
  forall (n : nat) b b' u v pre post,
    groups !! n = Some b -> groups !! S n = Some b' -> u ∈ b -> v ∈ b' ->
    trace = pre ++ Asyncio.Began v :: post ->
    Asyncio.Returned u ∈ pre.


End Probe.

(** ** main2.py: the widget probe *)

Module Main2.
Import Files Probe.

(** The dict [check_domain] returns. *)
Record result := {
  domain : option string;
  valid : bool;
  status : option Z;
  verifypass : bool;
  error : option string
}.

Definition verifypass_indicators : list string :=
  ["verifypass.com"; "verifypass.js"; "verifypass-shopify"; "data-verifypass"].

(** [any(indicator in html_content.lower() for indicator in ...)] *)
Definition has_verifypass (html_content : string) : bool :=
  existsb (fun indicator => Py.contains (Py.lower html_content) indicator)
    verifypass_indicators.

(** The first statement of [check_domain]. *)
Definition ensure_https (domain : string) : string :=
  if negb (Py.startswith domain "http") then "https://" +:+ domain
  else domain.

Definition verifypass_header : row :=
  [Str "Domain"; Str "Timestamp"; Str "Status"].

Definition results_header : row :=
  [Str "Domain"; Str "Valid"; Str "Status"; Str "VerifyPass"; Str "Error"].

Definition result_row (r : result) : row :=
  [of_opt_str (domain r); Bool (valid r); of_opt_int (status r);
   Bool (verifypass r); of_opt_str (error r)].

Definition batch_size : nat := 50.

Section Widget.
(** [datetime.now()] as formatted at import. *)
Variable TIMESTAMP : string.
(** [datetime.now()] as [save_verifypass_domain] formats it for a unit. *)
Variable now : nat -> string.
(** [datetime.now()] as [save_results] formats it. *)
Variable save_time : string.
(** The request of a unit for a URL. *)
Variable session_get : nat -> string -> fetched.
(** [csv.DictReader] over the named file: its rows as dicts, with the
    value [None] under the columns a row ends before; [None] when the
    file cannot be read. *)
Variable DictReader : string -> option (list (gmap string (option string))).

Definition VERIFYPASS_FILE : string :=
  "verifypass_domains_" +:+ TIMESTAMP +:+ ".csv".

(** The statements run at import. *)
Definition module_load (d : fs) : fs :=
  write VERIFYPASS_FILE [verifypass_header] d.

Definition save_verifypass_domain (i : nat) (domain : string) (status : Z)
    (d : fs) : fs :=
  append VERIFYPASS_FILE [[Str domain; Str (now i); Int status]] d.

(** [domain.startswith] raises on a cell that is [None]: the handler
    for [Exception] returns the record, and nothing has been requested. *)
Definition check_domain (u : unit) : result * (fs -> fs) :=
  let '(i, domain) := u in
  match domain with
  | None =>
      ({| domain := None; valid := false; status := None;
          verifypass := false; error := Some no_startswith |}, id)
  | Some domain =>
      let domain := ensure_https domain in
      match session_get i domain with
      | Response status html_content =>
          if negb (status =? 200) then
            ({| domain := Some domain; valid := false; status := Some status;
                verifypass := false;
                error := Some ("Invalid status code: " +:+ Py.str status) |},
             id)
          else
            let has_verifypass := has_verifypass html_content in
            ({| domain := Some domain; valid := true; status := Some status;
                verifypass := has_verifypass; error := None |},
             if has_verifypass then save_verifypass_domain i domain status
             else id)
      | Timeout =>
          ({| domain := Some domain; valid := false; status := None;
              verifypass := false; error := Some "Timeout" |}, id)
      | OtherError e =>
          ({| domain := Some domain; valid := false; status := None;
              verifypass := false; error := Some e |}, id)
      end
  end.

Definition process_domains (domains : list unit)
    (sched : list (Asyncio.event unit)) (d : fs)
  : option (list result * fs) :=
  Asyncio.gather check_domain domains sched d.

(** [None]: the file cannot be read, or [row['Domain']] raises [KeyError]
    because the header has no [Domain] column. *)
Definition load_domains_from_csv (filename : string)
  : option (list (option string)) :=
  rows ← DictReader filename;
  mapM (fun row : gmap string (option string) => row !! "Domain") rows.

(** The name passed in is replaced before the file is opened. *)
Definition save_results (results : list result) (output_filename : string)
    (d : fs) : fs :=
  let timestamp := save_time in
  let output_filename := "domain_check_results_" +:+ timestamp +:+ ".csv" in
  write output_filename (results_header :: map result_row results) d.

(** The state of the loop of [main]: the results so far, the files and the
    events so far. *)
Record state := {
  results : list result;
  files : fs;
  trace : list (Asyncio.event unit)
}.

(** The loop [for i in range(0, total_domains, batch_size)], one schedule
    per batch. [None]: the schedules are not a run of the batches. *)
Fixpoint batch_loop (domains : list unit) (starts : list nat)
    (scheds : list (list (Asyncio.event unit))) (st : state) : option state :=
  match starts, scheds with
  | [], [] => Some st
  | i :: starts', sched :: scheds' =>
      let batch := Py.slice domains i (i + batch_size) in
      '(batch_results, d') ← process_domains batch sched (files st);
      batch_loop domains starts' scheds'
        {| results := results st ++ batch_results;
           files := d';
           trace := trace st ++ sched |}
  | _, _ => None
  end.

Definition main (argv : list string)
    (scheds : list (list (Asyncio.event unit))) (d : fs)
  : option (outcome * state) :=
  let start := {| results := []; files := d; trace := [] |} in
  match argv !! 1%nat with
  | None => Some (Exit 1 usage, start)
  | Some csv_file =>
      match load_domains_from_csv csv_file with
      | None => Some (Uncaught, start)
      | Some domains =>
          let total_domains := length domains in
          st ← batch_loop (enumerate domains)
                 (Py.range_step total_domains batch_size) scheds start;
          Some (Finished,
                {| results := results st;
                   files := save_results (results st)
                              "domain_check_results.csv" (files st);
                   trace := trace st |})
      end
  end.

Definition program (argv : list string)
    (scheds : list (list (Asyncio.event unit))) (d : fs)
  : option (outcome * state) :=
  main argv scheds (module_load d).

End Widget.
End Main2.

(** ** script.py: the locale probe *)

Module Script.
Import Files Probe.

(** The regular expressions of [extract_shopify_data]:
    [locale_pattern] is [Shopify\.locale\s*=\s*[QUOTE]([^QUOTE]+)[QUOTE]],
    [shop_pattern] is [Shopify\.shop\s*=\s*({[^}]+})], and the three
    currency patterns are [currency:\s*[QUOTE]INR[QUOTE]],
    [defaultCurrency:\s*[QUOTE]INR[QUOTE]] and
    [Shopify\.currency\.active\s*=\s*[QUOTE]INR[QUOTE]], where [QUOTE] is a
    single or a double quote. *)
Inductive pattern :=
  | locale_pattern
  | shop_pattern
  | currency_colon
  | currency_default
  | currency_active.

(** An element of the parsed document: its attributes and its [.string]. *)
Record tag := {
  attrs : gmap string string;
  tag_string : option string
}.

(** A value of a parsed JSON object, as far as [== 'IN'] can tell. *)
Inductive json :=
  | JString (s : string)
  | JOther.

#[global] Instance json_eq_dec : EqDecision json.
Proof. solve_decision. Defined.

(** What [json.loads] does with a text: the object it reads,
    [JSONDecodeError], or another exception. *)
Inductive loaded :=
  | Decoded (shop_data : gmap string json)
  | JSONDecodeError
  | Raises.

(** The dict [extract_shopify_data] fills in. *)
Record data := {
  country_code : option string;
  shop_id : option string;
  indicators : list string
}.

Definition set_country_code (c : string) (d : data) : data :=
  {| country_code := Some c; shop_id := shop_id d;
     indicators := indicators d |}.

Definition set_shop_id (s : string) (d : data) : data :=
  {| country_code := country_code d; shop_id := Some s;
     indicators := indicators d |}.

(** [data['indicators'].append(label)] *)
Definition append_indicator (label : string) (d : data) : data :=
  {| country_code := country_code d; shop_id := shop_id d;
     indicators := indicators d ++ [label] |}.

(** The body of the [try] of [extract_shopify_data], as far as it has
    run: to its end, or to a statement that raised. The dict is as the
    statements run so far left it. *)
Inductive flow :=
  | Done (d : data)
  | Raised (d : data).

Definition and_then (r : flow) (f : data -> flow) : flow :=
  match r with
  | Done d => f d
  | Raised d => Raised d
  end.

(** [except Exception] prints and the function returns the dict. *)
Definition data_of (r : flow) : data :=
  match r with
  | Done d => d
  | Raised d => d
  end.

Definition currency_patterns : list pattern :=
  [currency_colon; currency_default; currency_active].

Definition address_indicators : list string :=
  ["pin-code"; "pincode"; "postal-code-in"; "india-zip"; "india-post"].

Definition indian_header : row :=
  [Str "Domain"; Str "Confidence"; Str "Indicators"; Str "Country_Code";
   Str "Shop_ID"; Str "Timestamp"].

Definition batch_size : nat := 50.

(** The confidence as the specification words it: 25 for every distinct
    indicator that fired, capped at 100. *)
Definition spec_confidence (indicators : list string) : Z :=
  Z.min 100 (25 * Z.of_nat (length (remove_dups indicators))).

Section Locale.
(** [datetime.now()] as formatted at import. *)
Variable TIMESTAMP : string.
(** [datetime.now()] as [save_indian_domain] formats it for a unit. *)
Variable now : nat -> string.
(** The request of a unit for a URL. *)
Variable session_get : nat -> string -> fetched.
(** [csv.DictReader] over the named file, as in [main2.py]. *)
Variable DictReader : string -> option (list (gmap string (option string))).
(** [re.search(pattern, text)]: [None] without a match, else [group(1)]
    (the whole match for a pattern without a group). *)
Variable re_search : pattern -> string -> option string.
(** [BeautifulSoup(html, 'html.parser')]: [None] when the parser raises,
    else [soup.find_all]. *)
Variable BeautifulSoup : string -> option (string -> list tag).
(** [json.loads] *)
Variable json_loads : string -> loaded.
(** [str.upper] *)
Variable upper : string -> string.

Definition INDIAN_DOMAINS_FILE : string :=
  "indian_shopify_domains_" +:+ TIMESTAMP +:+ ".csv".

(** The statements run at import. *)
Definition module_load (d : fs) : fs :=
  write INDIAN_DOMAINS_FILE [indian_header] d.

(** Check 1: the [Shopify.locale] assignment. *)
Definition check_locale (html_content : string) (d : data) : data :=
  match re_search locale_pattern html_content with
  | Some group1 =>
      if Py.contains (upper group1) "IN"
      then append_indicator "Shopify locale: IN" (set_country_code "IN" d)
      else d
  | None => d
  end.

(** Checks 2 and 3: the body of the loop over the [meta] elements. *)
Definition meta_step (d : data) (meta : tag) : data :=
  let d :=
    if bool_decide (attrs meta !! "property" = Some "og:locale") then
      let locale := default "" (attrs meta !! "content") in
      if Py.contains (upper locale) "IN"
      then append_indicator "Meta locale: IN" (set_country_code "IN" d)
      else d
    else d in
  if bool_decide (attrs meta !! "name" = Some "shopify-digital-wallet") then
    let content := default "" (attrs meta !! "content") in
    if Py.contains content "/shop/" then
      let shop_id :=
        default "" (head (Py.split
          (default "" (last (Py.split content "/shop/"))) "/")) in
      set_shop_id shop_id d
    else d
  else d.

(** Check 4: the body of the loop over the [script] elements. The inner
    [try] catches [JSONDecodeError] only. *)
Definition script_step (d : data) (script : tag) : flow :=
  let script_text := default "" (tag_string script) in
  if Py.contains script_text "Shopify.shop" then
    match re_search shop_pattern script_text with
    | Some group1 =>
        match json_loads group1 with
        | Decoded shop_data =>
            if bool_decide (shop_data !! "country_code" = Some (JString "IN"))
            then Done (append_indicator "Shopify.shop country: IN"
                         (set_country_code "IN" d))
            else Done d
        | JSONDecodeError => Done d
        | Raises => Raised d
        end
    | None => Done d
    end
  else Done d.

(** The loop over the [script] elements. *)
Fixpoint scripts_loop (scripts : list tag) (d : data) : flow :=
  match scripts with
  | [] => Done d
  | script :: rest => and_then (script_step d script) (scripts_loop rest)
  end.

(** Check 5: the loop over the currency patterns, left at the first match. *)
Fixpoint check_currency (patterns : list pattern) (html_content : string)
    (d : data) : data :=
  match patterns with
  | [] => d
  | pattern :: rest =>
      match re_search pattern html_content with
      | Some _ => append_indicator "Currency: INR" d
      | None => check_currency rest html_content d
      end
  end.

(** Check 6: the body of the loop over the address substrings. *)
Definition address_step (html_content : string) (d : data)
    (indicator : string) : data :=
  if Py.contains (Py.lower html_content) indicator
  then append_indicator ("Indian address format: " +:+ indicator) d
  else d.

(** The body of the [try]. *)
Definition extract_body (html_content : string) (d : data) : flow :=
  let d := check_locale html_content d in
  match BeautifulSoup html_content with
  | None => Raised d
  | Some soup =>
      let d := foldl meta_step d (soup "meta") in
      and_then (scripts_loop (soup "script") d) (fun d =>
        let d := check_currency currency_patterns html_content d in
        Done (foldl (address_step html_content) d address_indicators))
  end.

Definition extract_shopify_data (html_content : string) : data :=
  data_of (extract_body html_content
             {| country_code := None; shop_id := None; indicators := [] |}).

(** [min(len(indicators) * 25, 100)] *)
Definition confidence (shopify_data : data) : Z :=
  Z.min (Z.of_nat (length (indicators shopify_data)) * 25) 100.

(** *** The indicator list, check by check

    When each check adds an entry, and the entries [extract_shopify_data]
    ends with: [fired] is what the theorems compare the code with. *)

Definition locale_fires (html_content : string) : bool :=
  match re_search locale_pattern html_content with
  | Some group1 => Py.contains (upper group1) "IN"
  | None => false
  end.

Definition og_locale_fires (meta : tag) : bool :=
  bool_decide (attrs meta !! "property" = Some "og:locale")
  && Py.contains (upper (default "" (attrs meta !! "content"))) "IN".

(** What [json.loads] is given for a [script] element, if anything. *)
Definition shop_object (script : tag) : option loaded :=
  let script_text := default "" (tag_string script) in
  if Py.contains script_text "Shopify.shop"
  then json_loads <$> re_search shop_pattern script_text
  else None.

Definition shop_country_fires (script : tag) : bool :=
  match shop_object script with
  | Some (Decoded shop_data) =>
      bool_decide (shop_data !! "country_code" = Some (JString "IN"))
  | _ => false
  end.

(** The function ends at this [script] element. *)
Definition script_raises (script : tag) : bool :=
  match shop_object script with
  | Some Raises => true
  | _ => false
  end.

(** The [script] elements the loop gets through: those before the first
    at which the function ends. *)
Fixpoint scripts_read (scripts : list tag) : list tag :=
  match scripts with
  | [] => []
  | script :: rest =>
      if script_raises script then [] else script :: scripts_read rest
  end.

Definition currency_fires (html_content : string) : bool :=
  existsb (fun pattern => bool_decide (is_Some (re_search pattern html_content)))
    currency_patterns.

Definition address_fires (html_content indicator : string) : bool :=
  Py.contains (Py.lower html_content) indicator.

(** The function runs to the end of its [try]. *)
Definition runs_through (html_content : string) : bool :=
  match BeautifulSoup html_content with
  | None => false
  | Some soup => negb (existsb script_raises (soup "script"))
  end.

Definition fired (html_content : string) : list string :=
  (if locale_fires html_content then ["Shopify locale: IN"] else [])
  ++ match BeautifulSoup html_content with
     | None => []
     | Some soup =>
         flat_map (fun meta => if og_locale_fires meta
                               then ["Meta locale: IN"] else [])
           (soup "meta")
         ++ flat_map (fun script => if shop_country_fires script
                                    then ["Shopify.shop country: IN"] else [])
              (scripts_read (soup "script"))
         ++ if existsb script_raises (soup "script") then []
            else
              (if currency_fires html_content then ["Currency: INR"] else [])
              ++ flat_map (fun indicator =>
                             if address_fires html_content indicator
                             then ["Indian address format: " +:+ indicator]
                             else [])
                   address_indicators
     end.

Definition save_indian_domain (i : nat) (domain : string) (confidence : Z)
    (indicators : string) (country_code shop_id : option string) (d : fs)
  : fs :=
  append INDIAN_DOMAINS_FILE
    [[Str domain; Int confidence; Str indicators; of_opt_str country_code;
      of_opt_str shop_id; Str (now i)]] d.

Definition ensure_https (domain : string) : string :=
  if negb (Py.startswith domain "http") then "https://" +:+ domain
  else domain.

(** [check_domain] returns [None] on every path; [except Exception]
    passes, also for a cell that is [None]. *)
Definition check_domain (u : unit) : () * (fs -> fs) :=
  let '(i, domain) := u in
  match domain with
  | None => ((), id)
  | Some domain =>
      let domain := ensure_https domain in
      match session_get i domain with
      | Response status html_content =>
          if negb (status =? 200) then ((), id)
          else
            let shopify_data := extract_shopify_data html_content in
            if bool_decide (country_code shopify_data = Some "IN")
               || negb (bool_decide (indicators shopify_data = []))
            then
              let confidence := confidence shopify_data in
              if 25 <=? confidence
              then ((), save_indian_domain i domain confidence
                          (Py.join ", " (indicators shopify_data))
                          (country_code shopify_data) (shop_id shopify_data))
              else ((), id)
            else ((), id)
      | Timeout => ((), id)
      | OtherError _ => ((), id)
      end
  end.

Definition process_domains (domains : list unit)
    (sched : list (Asyncio.event unit)) (d : fs) : option fs :=
  snd <$> Asyncio.gather check_domain domains sched d.

Definition load_domains_from_csv (filename : string)
  : option (list (option string)) :=
  rows ← DictReader filename;
  mapM (fun row : gmap string (option string) => row !! "Domain") rows.

Record state := {
  files : fs;
  trace : list (Asyncio.event unit)
}.

(** The loop [for i in range(0, total_domains, batch_size)], one schedule
    per batch. [None]: the schedules are not a run of the batches. *)
Fixpoint batch_loop (domains : list unit) (starts : list nat)
    (scheds : list (list (Asyncio.event unit))) (st : state) : option state :=
  match starts, scheds with
  | [], [] => Some st
  | i :: starts', sched :: scheds' =>
      let batch := Py.slice domains i (i + batch_size) in
      d' ← process_domains batch sched (files st);
      batch_loop domains starts' scheds'
        {| files := d'; trace := trace st ++ sched |}
  | _, _ => None
  end.

Definition main (argv : list string)
    (scheds : list (list (Asyncio.event unit))) (d : fs)
  : option (outcome * state) :=
  let start := {| files := d; trace := [] |} in
  match argv !! 1%nat with
  | None => Some (Exit 1 usage, start)
  | Some csv_file =>
      match load_domains_from_csv csv_file with
      | None => Some (Uncaught, start)
      | Some domains =>
          let total_domains := length domains in
          st ← batch_loop (enumerate domains)
                 (Py.range_step total_domains batch_size) scheds start;
          Some (Finished, st)
      end
  end.

Definition program (argv : list string)
    (scheds : list (list (Asyncio.event unit))) (d : fs)
  : option (outcome * state) :=
  main argv scheds (module_load d).

End Locale.
End Script.

(** ** Scenarios

    Concrete sites, clocks and inputs on which the scripts are run below. *)

Module Scenario.
Import Files Probe.

(** [str.upper] on the texts of the scenarios, which are ASCII: a-z
    become A-Z. *)
Definition upper_char (c : ascii) : ascii :=
  if (97 <=? Py.ord c)%nat && (Py.ord c <=? 122)%nat
  then ascii_of_nat (Py.ord c - 32) else c.

Fixpoint upper (s : string) : string :=
  match s with
  | EmptyString => EmptyString
  | String c s' => String (upper_char c) (upper s')
  end.

(** A CSV file with a [Domain] column holding [domains]. *)
Definition reader (domains : list string)
  : string -> option (list (gmap string (option string))) :=
  fun _ => Some (map (fun d => {["Domain" := Some d]}) domains).

Definition clock : nat -> string := fun _ => "2024-05-01 10:00:00".

(** [a.com] serves a page that loads the widget; every other request
    times out. *)
Definition widget_site : nat -> string -> fetched :=
  fun _ url =>
    if String.eqb url "https://a.com"
    then Response 200 "<script src='https://cdn.VerifyPass.com/w.js'></script>"
    else Timeout.

(** The two units of [a.com; b.com] begin, then the request of [b.com]
    times out, then [a.com] answers. *)
Definition timeout_first : list (Asyncio.event unit) :=
  [Asyncio.Began (0%nat, Some "a.com"); Asyncio.Began (1%nat, Some "b.com");
   Asyncio.Returned (1%nat, Some "b.com");
   Asyncio.Returned (0%nat, Some "a.com")].


(** Fifty-one domains: one full batch and one more unit. *)
Definition many_domains : list string := replicate 51 "a.com".

(** The schedule of [many_domains] in which every unit returns before the
    next begins. *)
Definition many_in_turn : list (list (Asyncio.event unit)) :=
  map Asyncio.in_turn (batches (enumerate (Some <$> many_domains)) 50).

(** A page with the same [og:locale] element twice. *)
Definition twice_locale : string :=
  "<meta property='og:locale' content='en_IN'><meta property='og:locale' content='en_IN'>".

Definition og_locale : Script.tag :=
  {| Script.attrs := {["property" := "og:locale"; "content" := "en_IN"]};
     Script.tag_string := None |}.

(** The [meta] element that names the shop. *)
Definition wallet : Script.tag :=
  {| Script.attrs :=
       {["name" := "shopify-digital-wallet";
         "content" := "/wallets/shop/12345/digital_wallets"]};
     Script.tag_string := None |}.

(** A page with that element, and what the parser finds in it. *)
Definition wallet_page : string :=
  "<meta name='shopify-digital-wallet' content='/wallets/shop/12345/digital_wallets'>".

Definition parse_wallet : string -> option (string -> list Script.tag) :=
  fun html => Some (fun name =>
    if String.eqb name "meta" && String.eqb html wallet_page
    then [wallet] else []).

Definition no_data : Script.data :=
  {| Script.country_code := None; Script.shop_id := None;
     Script.indicators := [] |}.

(** A page without elements that names two postal formats. *)
Definition two_pincodes : string := "Enter PINCODE (pin-code)".

Definition no_tags : string -> option (string -> list Script.tag) :=
  fun _ => Some (fun _ => []).

(** What the parser finds in [twice_locale]: two [meta] elements and no
    [script]. *)
Definition parse_twice_locale : string -> option (string -> list Script.tag) :=
  fun html => Some (fun name =>
    if String.eqb name "meta" && String.eqb html twice_locale
    then [og_locale; og_locale] else []).

(** No regular expression of the script matches [twice_locale]. *)
Definition no_match : Script.pattern -> string -> option string :=
  fun _ _ => None.

Definition no_json : string -> Script.loaded :=
  fun _ => Script.JSONDecodeError.

(** [s] between double quotes. *)
Definition quoted (s : string) : string := Py.chr 34 +:+ s +:+ Py.chr 34.

Definition brackets (n : nat) : string :=
  String.string_of_list_ascii (replicate n "["%char).

(** A JSON text that opens two thousand lists inside an object: it matches
    the shop pattern, and [json.loads] raises [RecursionError] on it. *)
Definition deep_object : string :=
  "{" +:+ quoted "a" +:+ ":" +:+ brackets 2000 +:+ "}".

(** The JSON text of an object whose [country_code] is [IN]. *)
Definition indian_object : string :=
  "{" +:+ quoted "country_code" +:+ ":" +:+ quoted "IN" +:+ "}".

(** A page with two [script] elements and a postal format: the object of
    the first is nested deeper than [json.loads] follows, the second names
    the country. *)
Definition two_shops : string :=
  "<script>Shopify.shop = " +:+ deep_object
  +:+ "</script><script>Shopify.shop = " +:+ indian_object
  +:+ "</script> pincode".

Definition deep_shop : Script.tag :=
  {| Script.attrs := ∅;
     Script.tag_string := Some ("Shopify.shop = " +:+ deep_object) |}.

Definition indian_shop : Script.tag :=
  {| Script.attrs := ∅;
     Script.tag_string := Some ("Shopify.shop = " +:+ indian_object) |}.

Definition parse_two_shops : string -> option (string -> list Script.tag) :=
  fun html => Some (fun name =>
    if String.eqb name "script" && String.eqb html two_shops
    then [deep_shop; indian_shop] else []).

(** The shop pattern matches the object of either element. *)
Definition match_shop : Script.pattern -> string -> option string :=
  fun pattern text =>
    match pattern with
    | Script.shop_pattern =>
        if String.eqb text ("Shopify.shop = " +:+ deep_object)
        then Some deep_object
        else if String.eqb text ("Shopify.shop = " +:+ indian_object)
        then Some indian_object
        else None
    | _ => None
    end.

(** [json.loads] raises [RecursionError] on the first object and reads
    the second. *)
Definition load_shops : string -> Script.loaded :=
  fun text =>
    if String.eqb text deep_object then Script.Raises
    else if String.eqb text indian_object
    then Script.Decoded {["country_code" := Script.JString "IN"]}
    else Script.JSONDecodeError.

(** The same page with the two elements in the other order. *)
Definition shops_reversed : string :=
  "<script>Shopify.shop = " +:+ indian_object
  +:+ "</script><script>Shopify.shop = " +:+ deep_object
  +:+ "</script> pincode".

Definition parse_shops_reversed
  : string -> option (string -> list Script.tag) :=
  fun html => Some (fun name =>
    if String.eqb name "script" && String.eqb html shops_reversed
    then [indian_shop; deep_shop] else []).

(** A parser that rejects every page. *)
Definition parser_raises : string -> option (string -> list Script.tag) :=
  fun _ => None.

(** Every request is answered with [twice_locale]. *)
Definition locale_site : nat -> string -> fetched :=
  fun _ _ => Response 200 twice_locale.

(** The directory: page 1 cannot be fetched, page 2 lists three elements,
    any other page is missing. *)
Definition directory : string -> Main.response :=
  fun url =>
    if String.eqb url "https://onshopify.com/domain-zone/com/1"
    then Main.ClientError
    else if String.eqb url "https://onshopify.com/domain-zone/com/2"
    then Main.Response 200 "page two"
    else Main.Response 404 "".

Definition links : string -> list string :=
  fun text =>
    if String.eqb text "page two"
    then [" widgetshop.com "; "shop.com.uk"; "shop.com"] else [].

Definition page_clock : Z -> string := fun _ => "2024-05-01 10:00:00".

(** The tasks of pages 1 and 2 begin, then page 1 fails, then page 2 is
    answered. *)
Definition failure_first : list (Asyncio.event Z) :=
  [Asyncio.Began 1; Asyncio.Began 2; Asyncio.Returned 1; Asyncio.Returned 2].

(** A directory whose pages 1 and 2 each list one domain. *)
Definition answered : string -> Main.response :=
  fun url =>
    if String.eqb url "https://onshopify.com/domain-zone/com/1"
    then Main.Response 200 "page one"
    else if String.eqb url "https://onshopify.com/domain-zone/com/2"
    then Main.Response 200 "page two"
    else Main.Response 404 "".

Definition answered_links : string -> list string :=
  fun text =>
    if String.eqb text "page one" then ["one.com"]
    else if String.eqb text "page two" then ["two.com"] else [].

(** The tasks of pages 1 and 2 begin, then page 2 is answered, then
    page 1. *)
Definition second_page_first : list (Asyncio.event Z) :=
  [Asyncio.Began 1; Asyncio.Began 2; Asyncio.Returned 2; Asyncio.Returned 1].

(** The landing pages: zone [com] has a pagination control that ends at 3,
    zone [xyz] has a page without one, any other zone is missing. *)
Definition landing_pages : string -> option (Z * Main.pagination) :=
  fun zone =>
    if String.eqb zone "com" then Some (200, Main.Pagination ["1"; "2"; "3"])
    else if String.eqb zone "xyz" then Some (200, Main.NoPagination)
    else Some (404, Main.NoPagination).


(** A listing whose elements have whitespace around their texts: spaces,
    a line feed, U+00A0 and U+2003. *)
Definition listing : string -> Main.response :=
  fun _ => Main.Response 200 "listing".

Definition listing_links : string -> list string :=
  fun _ =>
    [" widgetshop.com" +:+ Py.chr 10;
     Py.chr 160 +:+ "shop.com" +:+ Py.chr 8195;
     "shop.com.uk"; "Shop.COM"; "shop.com"].

(** [int] on the decimal numerals. *)
Definition int_of_numeral : string -> option Z :=
  fun s => Z.of_int <$> NilZero.int_of_string s.

(** A CSV file with the header [Name] only. *)
Definition reader_without_column
  : string -> option (list (gmap string (option string))) :=
  fun _ => Some [{["Name" := Some "a.com"]}; {["Name" := Some "b.com"]}].

(** A CSV file with the header [Name,Domain] whose second row ends after
    its first cell. *)
Definition reader_short_row
  : string -> option (list (gmap string (option string))) :=
  fun _ => Some [{["Name" := Some "one"; "Domain" := Some "a.com"]};
                 {["Name" := Some "two"; "Domain" := None]}].

(** The two units of [reader_short_row], one after the other. *)
Definition short_row_in_turn : list (Asyncio.event unit) :=
  [Asyncio.Began (0%nat, Some "a.com");
   Asyncio.Returned (0%nat, Some "a.com");
   Asyncio.Began (1%nat, None); Asyncio.Returned (1%nat, None)].

End Scenario.

(** * Properties *)

(** ** Strings *)

Example range_1_4 : Py.range 1 4 = [1; 2; 3].
Proof. reflexivity. Qed.

Example range_step_120 : Py.range_step 120 50 = [0; 50; 100]%nat.
Proof. reflexivity. Qed.

Example strip_spaces : Py.strip "  shop.com  " = "shop.com".
Proof. reflexivity. Qed.

Example split_shop :
  Py.split "a/shop/shop/b/c" "/shop/" = ["a"; "shop/b/c"].
Proof. reflexivity. Qed.

Example str_int : Py.str 404 = "404" /\ Py.str 0 = "0" /\ Py.str (-7) = "-7".
Proof. repeat split; reflexivity. Qed.

Lemma app_nil (t : string) : "" +:+ t = t.
Proof. reflexivity. Qed.

Lemma app_cons (c : ascii) (s t : string) :
  String c s +:+ t = String c (s +:+ t).
Proof. reflexivity. Qed.

Ltac sapp := rewrite ?app_cons, ?app_nil in *.

Lemma app_empty_r (s : string) : s +:+ "" = s.
Proof. induction s as [|c s IH]; sapp; [done | by rewrite IH]. Qed.

Lemma app_assoc_s (a b c : string) : (a +:+ b) +:+ c = a +:+ (b +:+ c).
Proof. induction a as [|x a IH]; sapp; [done | by rewrite IH]. Qed.

Lemma startswith_spec (s p : string) :
  Py.startswith s p = true <-> exists r, s = p +:+ r.
Proof.
  revert s. induction p as [|a p IH]; intros s; simpl.
  - split; [intros _; by exists s | done].
  - destruct s as [|b s]; simpl.
    + split; [done | intros [r Hr]; sapp; discriminate].
    + rewrite andb_true_iff, Ascii.eqb_eq, IH. split.
      * intros [-> [r ->]]. by exists r.
      * intros [r Hr]. sapp. injection Hr as -> ->. eauto.
Qed.

Lemma contains_spec (s p : string) :
  Py.contains s p = true <-> exists pre post, s = pre +:+ p +:+ post.
Proof.
  induction s as [|c s IH]; simpl; rewrite orb_true_iff, startswith_spec.
  - split.
    + intros [[r Hr] | ?]; [| done]. by exists "", r.
    + intros ([|x pre] & post & H); sapp; [left; by exists post | discriminate].
  - rewrite IH. split.
    + intros [[r Hr] | (pre & post & ->)].
      * by exists "", r.
      * by exists (String c pre), post.
    + intros ([|x pre] & post & H); sapp.
      * left. by exists post.
      * right. injection H as -> ->. eauto.
Qed.

Lemma endswith_unfold (s p : string) :
  Py.endswith s p =
  String.eqb s p ||
  match s with EmptyString => false | String _ s' => Py.endswith s' p end.
Proof. by destruct s. Qed.

Lemma endswith_spec (s p : string) :
  Py.endswith s p = true <-> exists pre, s = pre +:+ p.
Proof.
  induction s as [|c s IH]; rewrite endswith_unfold, orb_true_iff, String.eqb_eq.
  - split.
    + intros [<- | ?]; [by exists "" | done].
    + intros [[|x pre] H]; sapp; [by left | discriminate].
  - rewrite IH. split.
    + intros [<- | [pre ->]]; [by exists "" | by exists (String c pre)].
    + intros [[|x pre] H]; sapp; [by left |].
      right. injection H as -> ->. eauto.
Qed.

Lemma lower_app (a b : string) :
  Py.lower (a +:+ b) = Py.lower a +:+ Py.lower b.
Proof. induction a as [|x a IH]; sapp; simpl; sapp; [done | by rewrite IH]. Qed.

(** A split of the lowered text is the lowering of a split of the text. *)
Lemma lower_split (s p r : string) :
  Py.lower s = p +:+ r ->
  exists a b, s = a +:+ b /\ Py.lower a = p /\ Py.lower b = r.
Proof.
  revert s. induction p as [|x p IH]; intros s H; sapp.
  - by exists "", s.
  - destruct s as [|c s]; [discriminate |]. simpl in H.
    injection H as Hx H. destruct (IH _ H) as (a & b & -> & <- & <-).
    exists (String c a), b. by rewrite <- Hx.
Qed.

(** [m in s.lower()] holds exactly when [s] has a piece that lowers to [m]. *)
Lemma contains_lower (s m : string) :
  Py.contains (Py.lower s) m = true <->
  exists pre w post, s = pre +:+ w +:+ post /\ Py.lower w = m.
Proof.
  rewrite contains_spec. split.
  - intros (pre & post & H).
    destruct (lower_split _ _ _ H) as (a & b & -> & _ & Hb).
    destruct (lower_split _ _ _ Hb) as (w & c & -> & Hw & _).
    by exists a, w, c.
  - intros (pre & w & post & -> & <-).
    exists (Py.lower pre), (Py.lower post). by rewrite !lower_app.
Qed.

(** ** The event loop: what every schedule of a group satisfies *)

Section GatherFacts.
Context {U R S : Type} `{EqDecision U}.
Implicit Types (u v : U) (l todo inflight tasks : list U).
Implicit Types sched : list (Asyncio.event U).

Lemma take_out_perm u l l' :
  Asyncio.take_out u l = Some l' -> l ≡ₚ u :: l'.
Proof.
  revert l'. induction l as [|v l IH]; intros l' H; simpl in H; [done |].
  destruct (decide (u = v)) as [-> | Hne].
  - by injection H as ->.
  - destruct (Asyncio.take_out u l) as [l0|] eqn:E; [| done].
    injection H as <-. rewrite (IH l0 eq_refl). apply Permutation_swap.
Qed.

(** The units that return are those suspended and those still to begin. *)
Lemma accepts_returned sched : forall todo inflight,
  Asyncio.accepts todo inflight sched = true ->
  Asyncio.returned sched ≡ₚ inflight ++ todo.
Proof.
  induction sched as [|[u|u] rest IH]; intros todo inflight H; simpl in *.
  - by destruct todo, inflight.
  - destruct todo as [|v todo']; [done |].
    apply andb_true_iff in H as [Hu H]. apply bool_decide_eq_true in Hu as <-.
    rewrite (IH _ _ H), <- (assoc_L (++)). done.
  - destruct (Asyncio.take_out u inflight) as [inflight'|] eqn:E; [| done].
    rewrite (IH _ _ H). apply take_out_perm in E. by rewrite E.
Qed.

(** Only a unit of the group begins. *)
Lemma accepts_began sched : forall todo inflight v,
  Asyncio.accepts todo inflight sched = true ->
  Asyncio.Began v ∈ sched -> v ∈ todo.
Proof.
  induction sched as [|[u|u] rest IH]; intros todo inflight v H Hin;
    simpl in *.
  - by apply elem_of_nil in Hin.
  - destruct todo as [|w todo']; [done |].
    apply andb_true_iff in H as [Hu H]. apply bool_decide_eq_true in Hu as <-.
    apply elem_of_cons in Hin as [Heq | Hin].
    + injection Heq as ->. left.
    + right. by eapply IH.
  - destruct (Asyncio.take_out u inflight) as [inflight'|] eqn:E; [| done].
    apply elem_of_cons in Hin as [Heq | Hin]; [done |]. by eapply IH.
Qed.

Lemma returned_elem sched u :
  u ∈ Asyncio.returned sched <-> Asyncio.Returned u ∈ sched.
Proof.
  induction sched as [|[v|v] rest IH]; simpl.
  - by rewrite !elem_of_nil.
  - rewrite elem_of_cons, IH. split; [by right | by intros [? | ?]].
  - rewrite !elem_of_cons, IH. split.
    + intros [-> | ?]; [by left | by right].
    + intros [Heq | ?]; [left; by injection Heq | by right].
Qed.

(** Every unit of a group returns in every schedule of the group. *)
Lemma accepts_all_return sched tasks u :
  Asyncio.accepts tasks [] sched = true ->
  u ∈ tasks -> Asyncio.Returned u ∈ sched.
Proof.
  intros H Hu. apply returned_elem. by rewrite (accepts_returned _ _ _ H).
Qed.

(** A unit begins before it returns. *)
Lemma accepts_began_first sched : forall todo inflight u pre post,
  Asyncio.accepts todo inflight sched = true ->
  sched = pre ++ Asyncio.Returned u :: post ->
  u ∈ inflight \/ Asyncio.Began u ∈ pre.
Proof.
  induction sched as [|[w|w] rest IH]; intros todo inflight u pre post H Hs;
    simpl in *.
  - by destruct pre.
  - destruct todo as [|w' todo']; [done |].
    apply andb_true_iff in H as [Hw H]. apply bool_decide_eq_true in Hw as <-.
    destruct pre as [|e pre]; [done |]. injection Hs as <- Hs.
    destruct (IH _ _ _ _ _ H Hs) as [Hin | Hin].
    + apply elem_of_app in Hin as [Hin | Hin]; [by left |].
      apply list_elem_of_singleton in Hin as ->. right. left.
    + right. by right.
  - destruct (Asyncio.take_out w inflight) as [inflight'|] eqn:E; [| done].
    apply take_out_perm in E.
    destruct pre as [|e pre].
    + injection Hs as -> _. left. rewrite E. left.
    + injection Hs as <- Hs.
      destruct (IH _ _ _ _ _ H Hs) as [Hin | Hin].
      * left. rewrite E. by right.
      * right. by right.
Qed.

(** The schedule that runs the units one after the other is a run. *)
Lemma accepts_in_turn tasks :
  Asyncio.accepts tasks [] (Asyncio.in_turn tasks) = true.
Proof.
  induction tasks as [|u tasks IH]; simpl; [done |].
  rewrite bool_decide_eq_true_2 by done. simpl.
  by rewrite decide_True by done.
Qed.

Lemma returned_in_turn tasks :
  Asyncio.returned (Asyncio.in_turn tasks) = tasks.
Proof. induction tasks as [|u tasks IH]; simpl; [done | by rewrite IH]. Qed.

Lemma gather_Some (body : U -> R * (S -> S)) tasks sched s rs s' :
  Asyncio.gather body tasks sched s = Some (rs, s') <->
  Asyncio.accepts tasks [] sched = true /\
  rs = map (fun u => fst (body u)) tasks /\
  s' = foldl (fun s u => snd (body u) s) s (Asyncio.returned sched).
Proof.
  unfold Asyncio.gather.
  destruct (Asyncio.accepts tasks [] sched).
  - split; [by intros [= <- <-] | by intros (_ & -> & ->)].
  - split; [done | by intros [? _]].
Qed.

End GatherFacts.

(** ** Batches *)

Section BatchFacts.
Context {A : Type}.
Implicit Types (l b : list A) (s : nat).

Lemma slice_take_drop l i s : Py.slice l i (i + s) = take s (drop i l).
Proof. unfold Py.slice. f_equal. lia. Qed.

Lemma range_step_covers (n s : nat) :
  (0 < s)%nat -> (n <= (n + s - 1) / s * s)%nat.
Proof.
  intros Hs. pose proof (Nat.div_mod_eq (n + s - 1) s) as Hd.
  pose proof (Nat.mod_upper_bound (n + s - 1) s) as Hm. nia.
Qed.

(** The first [k] slices of width [s] make up the first [k * s] elements. *)
Lemma slices_take l s (k : nat) :
  concat (map (fun i => Py.slice l i (i + s))
            (map (fun j => (j * s)%nat) (seq 0 k)))
  = take (k * s) l.
Proof.
  induction k as [|k IH]; [done |].
  rewrite seq_S, !map_app, concat_app, IH. simpl.
  rewrite slice_take_drop, app_nil_r, take_take_drop. f_equal. lia.
Qed.

Lemma batches_concat l s : (0 < s)%nat -> concat (Probe.batches l s) = l.
Proof.
  intros Hs. unfold Probe.batches, Py.range_step.
  rewrite slices_take. apply take_ge. by apply range_step_covers.
Qed.

Lemma batches_length l s b : b ∈ Probe.batches l s -> (length b <= s)%nat.
Proof.
  unfold Probe.batches. intros Hb.
  apply list_elem_of_fmap in Hb as (i & -> & _).
  rewrite slice_take_drop, length_take. lia.
Qed.

(** The [n]-th batch is the slice at [n * s]. *)
Lemma batches_lookup l s (n : nat) b :
  Probe.batches l s !! n = Some b -> b = take s (drop (n * s) l).
Proof.
  unfold Probe.batches, Py.range_step. rewrite !list_lookup_fmap.
  destruct (seq 0 _ !! n) as [j|] eqn:E; [| done].
  apply lookup_seq in E as [-> _]. simpl. intros [= <-].
  apply slice_take_drop.
Qed.

End BatchFacts.

Lemma enumerate_fst (domains : list (option string)) :
  fst <$> Probe.enumerate domains = seq 0 (length domains).
Proof.
  unfold Probe.enumerate. rewrite fmap_imap.
  rewrite <- (list_fmap_id (seq 0 _)). by rewrite <- imap_seq_0.
Qed.

Lemma enumerate_snd (domains : list (option string)) :
  snd <$> Probe.enumerate domains = domains.
Proof.
  unfold Probe.enumerate. rewrite fmap_imap.
  rewrite <- (list_fmap_id domains) at 2. by rewrite <- imap_const.
Qed.

(** No two units of a run are the same. *)
Lemma enumerate_NoDup (domains : list (option string)) :
  NoDup (Probe.enumerate domains).
Proof.
  apply (NoDup_fmap_1 fst). rewrite enumerate_fst. apply NoDup_seq.
Qed.

(** ** Files *)

Section FileFacts.
Import Files.
Implicit Types (d : fs) (name : string) (rows : file).

Lemma write_lookup name rows d : write name rows d !! name = Some rows.
Proof. apply lookup_insert_eq. Qed.

Lemma write_lookup_ne name other rows d :
  other <> name -> write name rows d !! other = d !! other.
Proof. intros Hne. by apply lookup_insert_ne. Qed.

Lemma appends_id name : appends_to name id [].
Proof. intros d old Hd. split; [by rewrite app_nil_r | done]. Qed.

Lemma appends_append name rows : appends_to name (append name rows) rows.
Proof.
  intros d old Hd. unfold append. rewrite Hd. simpl. split.
  - apply lookup_insert_eq.
  - intros other Hne. by apply lookup_insert_ne.
Qed.

Lemma appends_compose name e1 e2 rows1 rows2 :
  appends_to name e1 rows1 -> appends_to name e2 rows2 ->
  appends_to name (fun d => e2 (e1 d)) (rows1 ++ rows2).
Proof.
  intros H1 H2 d old Hd. destruct (H1 d old Hd) as [Hn1 Ho1].
  destruct (H2 (e1 d) _ Hn1) as [Hn2 Ho2]. split.
  - by rewrite Hn2, (assoc_L (++)).
  - intros other Hne. by rewrite Ho2, Ho1.
Qed.

(** The effects of the units that returned, one after the other. *)
Lemma appends_foldl {U} name (e : U -> fs -> fs) (rows : U -> file) :
  (forall u, appends_to name (e u) (rows u)) ->
  forall l : list U,
    appends_to name (fun d => foldl (fun d u => e u d) d l) (flat_map rows l).
Proof.
  intros He l. induction l as [|u l IH] using rev_ind.
  - apply appends_id.
  - rewrite flat_map_app. simpl. rewrite app_nil_r.
    intros d old Hd. rewrite foldl_app. simpl.
    by apply (appends_compose name _ (e u) _ _ IH (He u)).
Qed.

(** An appending effect appends what [appended] reads off it. *)
Lemma appends_appended name e rows :
  appends_to name e rows -> appended name e = rows.
Proof.
  intros He. unfold appended.
  destruct (He {[name := []]} [] (lookup_singleton_eq _ _)) as [-> _]. done.
Qed.

End FileFacts.

(** ** Batches run one after the other *)

Section Sequencing.
Context {U : Type} `{EqDecision U}.
Implicit Types (batches : list (list U)).
Implicit Types (scheds : list (list (Asyncio.event U))).

Lemma elem_of_concat {E} (x : E) (ls : list (list E)) :
  x ∈ concat ls <-> exists l, l ∈ ls /\ x ∈ l.
Proof.
  induction ls as [|l0 ls IH]; simpl.
  - split; [by intros ?%elem_of_nil | by intros (l & ?%elem_of_nil & _)].
  - rewrite elem_of_app, IH. split.
    + intros [Hx | (l & Hl & Hx)]; [exists l0 | exists l]; split; try done.
      * left.
      * by right.
    + intros (l & Hl & Hx). apply elem_of_cons in Hl as [-> | Hl];
        [by left | right; by exists l].
Qed.

(** An event absent from the front part of a list lies behind it. *)
Lemma split_behind {E} (front rest pre post : list E) (e : E) :
  front ++ rest = pre ++ e :: post -> e ∉ front ->
  exists pre', pre = front ++ pre'.
Proof.
  revert pre. induction front as [|x front IH]; intros pre Heq Hnot.
  - by exists pre.
  - destruct pre as [|y pre]; simpl in Heq.
    + injection Heq as -> _. exfalso. apply Hnot. left.
    + injection Heq as -> Heq.
      destruct (IH pre Heq) as [pre' ->].
      * intros Hin. apply Hnot. by right.
      * by exists pre'.
Qed.

(** What begins in the first [n] schedules is a unit of the first [n]
    batches. *)
Lemma began_in_front batches scheds (n : nat) v :
  Forall2 (fun b s => Asyncio.accepts b [] s = true) batches scheds ->
  Asyncio.Began v ∈ concat (take n scheds) -> v ∈ concat (take n batches).
Proof.
  intros HF. revert n. induction HF as [|b s bs ss Hacc HF IH]; intros n Hin.
  - rewrite take_nil in Hin. by apply elem_of_nil in Hin.
  - destruct n as [|n]; [by apply elem_of_nil in Hin |]. simpl in *.
    apply elem_of_app in Hin as [Hin | Hin]; apply elem_of_app.
    + left. by eapply accepts_began.
    + right. by apply IH.
Qed.

(** What is in the [n]-th batch has returned in the first [n + 1]
    schedules. *)
Lemma returned_in_front batches scheds (n : nat) b u :
  Forall2 (fun b s => Asyncio.accepts b [] s = true) batches scheds ->
  batches !! n = Some b -> u ∈ b ->
  Asyncio.Returned u ∈ concat (take (S n) scheds).
Proof.
  intros HF. revert n. induction HF as [|b0 s bs ss Hacc HF IH]; intros n Hb Hu.
  - done.
  - simpl. apply elem_of_app. destruct n as [|n]; simpl in Hb.
    + injection Hb as ->. left. by eapply accepts_all_return.
    + right. by apply IH.
Qed.

(** A unit of a later batch is not in the batches before it. *)
Lemma later_not_in_front batches (n : nat) b v :
  NoDup (concat batches) -> batches !! n = Some b -> v ∈ b ->
  v ∉ concat (take n batches).
Proof.
  revert n. induction batches as [|b0 bs IH]; intros n Hnd Hb Hv; [done |].
  destruct n as [|n]; simpl in *; [by apply not_elem_of_nil |].
  apply NoDup_app in Hnd as (_ & Hdisj & Hnd).
  intros Hin. apply elem_of_app in Hin as [Hin | Hin].
  - apply (Hdisj v Hin). apply elem_of_concat. exists b.
    split; [by eapply list_elem_of_lookup_2 | done].
  - by apply (IH n Hnd Hb Hv).
Qed.

(** When a unit of batch [n + 1] begins, every unit of batch [n] has
    returned. *)
Lemma batches_in_sequence batches scheds (n : nat) b b' u v pre post :
  Forall2 (fun b s => Asyncio.accepts b [] s = true) batches scheds ->
  NoDup (concat batches) ->
  batches !! n = Some b -> batches !! S n = Some b' ->
  u ∈ b -> v ∈ b' ->
  concat scheds = pre ++ Asyncio.Began v :: post ->
  Asyncio.Returned u ∈ pre.
Proof.
  intros HF Hnd Hb Hb' Hu Hv Heq.
  rewrite <- (take_drop (S n) scheds), concat_app in Heq.
  apply split_behind in Heq as [pre' ->].
  - apply elem_of_app. left. by eapply returned_in_front.
  - intros Hin. apply (began_in_front _ _ _ _ HF) in Hin.
    by apply (later_not_in_front _ _ _ _ Hnd Hb' Hv).
Qed.

End Sequencing.

Lemma appends_self name e rows :
  Files.appends_to name e rows ->
  Files.appends_to name e (Files.appended name e).
Proof. intros He. by rewrite (appends_appended _ _ _ He). Qed.

(** The units that return over the batches are the units of the batches. *)
Lemma returned_groups {U} `{EqDecision U} (batches : list (list U))
    (scheds : list (list (Asyncio.event U))) :
  Forall2 (fun b s => Asyncio.accepts b [] s = true) batches scheds ->
  concat (map Asyncio.returned scheds) ≡ₚ concat batches.
Proof.
  induction 1 as [|b s bs ss Hacc HF IH]; simpl; [done |].
  by rewrite IH, (accepts_returned _ _ _ Hacc).
Qed.



(** ** Strings: whitespace *)

Lemma length_app_s (a b : string) :
  String.length (a +:+ b) = (String.length a + String.length b)%nat.
Proof. induction a as [|c a IH]; sapp; simpl; [done | by rewrite IH]. Qed.

Lemma whitespace_length (w : string) :
  w ∈ Py.whitespace -> (0 < String.length w)%nat.
Proof.
  revert w. apply Forall_forall. repeat constructor.
Qed.

(** Dropping a whitespace character at the front changes neither what
    [lstrip] returns nor whether all is whitespace. *)
Lemma lstrip_skip (w r : string) :
  w ∈ Py.whitespace -> Py.lstrip (w +:+ r) = Py.lstrip r.
Proof.
  revert w. apply Forall_forall. unfold Py.lstrip. repeat constructor.
Qed.

Lemma all_space_skip (w r : string) :
  w ∈ Py.whitespace ->
  Py.all_space_from 0 (w +:+ r) = Py.all_space_from 0 r.
Proof.
  revert w. apply Forall_forall. repeat constructor.
Qed.

Lemma space_prefix_Some (s : string) (n : nat) :
  Py.space_prefix s = Some n ->
  exists w r, w ∈ Py.whitespace /\ s = w +:+ r.
Proof.
  unfold Py.space_prefix.
  destruct (find _ _) as [w|] eqn:E; [| done]. intros _.
  apply find_some in E as [Hin Hs].
  apply startswith_spec in Hs as [r ->].
  exists w, r. split; [by apply list_elem_of_In | done].
Qed.

Lemma space_prefix_None (s : string) :
  Py.space_prefix s = None <->
  forall w, w ∈ Py.whitespace -> Py.startswith s w = false.
Proof.
  unfold Py.space_prefix. split.
  - destruct (find _ _) as [w|] eqn:E; [done |]. intros _ w Hw.
    by apply (find_none _ _ E), list_elem_of_In.
  - intros Hno. destruct (find _ _) as [w|] eqn:E; [| done].
    apply find_some in E as [Hin Hs].
    by rewrite (Hno w) in Hs by (by apply list_elem_of_In).
Qed.

Lemma lstrip_fixed (s : string) :
  Py.space_prefix s = None -> Py.lstrip s = s.
Proof.
  intros H. destruct s as [|c s]; [done |].
  unfold Py.lstrip. simpl Py.lstrip_from. by rewrite H.
Qed.

Lemma all_space_cons (c : ascii) (s : string) :
  Py.space_prefix (String c s) = None ->
  Py.all_space_from 0 (String c s) = false.
Proof. intros H. simpl Py.all_space_from. by rewrite H. Qed.

(** [lstrip] takes a run of whitespace from the front and leaves a text
    that begins with no whitespace character. *)
Lemma lstrip_split (s : string) :
  exists l, s = l +:+ Py.lstrip s /\ Spec.blank l /\
            Py.space_prefix (Py.lstrip s) = None.
Proof.
  remember (String.length s) as n eqn:Hn. revert s Hn.
  induction n as [n IH] using lt_wf_ind. intros s ->.
  destruct (Py.space_prefix s) as [k|] eqn:E.
  - apply space_prefix_Some in E as (w & r & Hw & ->).
    rewrite (lstrip_skip w r Hw).
    destruct (IH (String.length r)) with (s := r) as (l & Hl & Hb & Hc);
      [| done |].
    { rewrite length_app_s. pose proof (whitespace_length w Hw). lia. }
    exists (w +:+ l). rewrite app_assoc_s, <- Hl.
    split; [done |]. split; [by constructor | done].
  - exists "". rewrite lstrip_fixed by done.
    split; [done |]. split; [constructor | done].
Qed.

Lemma blank_app (a b : string) :
  Spec.blank a -> Spec.blank b -> Spec.blank (a +:+ b).
Proof.
  induction 1 as [|w s Hw Hs IH]; intros Hb; [done |].
  rewrite app_assoc_s. constructor; [done | by apply IH].
Qed.

(** [all_space_from 0] decides [Spec.blank]. *)
Lemma all_space_blank (s : string) :
  Py.all_space_from 0 s = true <-> Spec.blank s.
Proof.
  split.
  - remember (String.length s) as n eqn:Hn. revert s Hn.
    induction n as [n IH] using lt_wf_ind. intros s -> Hs.
    destruct s as [|c s]; [constructor |].
    destruct (Py.space_prefix (String c s)) as [k|] eqn:E.
    + apply space_prefix_Some in E as (w & r & Hw & E). rewrite E in *.
      rewrite (all_space_skip w r Hw) in Hs.
      constructor; [done |].
      apply (IH (String.length r)); [| done | done].
      rewrite length_app_s. pose proof (whitespace_length w Hw). lia.
    + by rewrite (all_space_cons c s E) in Hs.
  - induction 1 as [|w s Hw Hs IH]; [done |].
    by rewrite (all_space_skip w s Hw).
Qed.

Lemma rstrip_cons (c : ascii) (s : string) :
  Py.rstrip (String c s) =
  if Py.all_space_from 0 (String c s) then "" else String c (Py.rstrip s).
Proof. reflexivity. Qed.

(** [rstrip] takes a run of whitespace from the end. *)
Lemma rstrip_split (s : string) :
  exists r, s = Py.rstrip s +:+ r /\ Spec.blank r.
Proof.
  induction s as [|c s (r & Hr & Hb)]; [exists ""; by split; [| constructor] |].
  rewrite rstrip_cons.
  destruct (Py.all_space_from 0 (String c s)) eqn:E.
  - exists (String c s). split; [done | by apply all_space_blank].
  - exists r. sapp. by rewrite <- Hr.
Qed.

Lemma rstrip_blank (b : string) : Spec.blank b -> Py.rstrip b = "".
Proof.
  intros Hb. destruct b as [|c b]; [done |].
  rewrite rstrip_cons. apply all_space_blank in Hb. by rewrite Hb.
Qed.

(** What [rstrip] leaves of a text that ends with a run of whitespace
    lies before the run. *)
Lemma rstrip_blank_suffix (p b : string) :
  Spec.blank b ->
  (String.length (Py.rstrip (p +:+ b)) <= String.length p)%nat.
Proof.
  intros Hb. induction p as [|c p IH]; sapp.
  - by rewrite rstrip_blank.
  - rewrite rstrip_cons.
    destruct (Py.all_space_from 0 _); simpl; lia.
Qed.

(** What [rstrip] leaves ends with no whitespace character. *)
Lemma rstrip_clean (s w : string) :
  w ∈ Py.whitespace -> Py.endswith (Py.rstrip s) w = false.
Proof.
  intros Hw. destruct (Py.endswith (Py.rstrip s) w) eqn:E; [| done].
  apply endswith_spec in E as [p Hp].
  destruct (rstrip_split s) as (r & Hr & Hb).
  pose proof (rstrip_blank_suffix p (w +:+ r)) as Hlen.
  rewrite <- app_assoc_s, <- Hp, <- Hr, Hp, length_app_s in Hlen.
  pose proof (whitespace_length w Hw).
  assert (Spec.blank (w +:+ r)) as Hwr by (by constructor).
  specialize (Hlen Hwr). lia.
Qed.

(** [rstrip] adds no whitespace at the front. *)
Lemma rstrip_prefix_clean (s : string) :
  Py.space_prefix s = None -> Py.space_prefix (Py.rstrip s) = None.
Proof.
  rewrite !space_prefix_None. intros Hs w Hw.
  destruct (Py.startswith (Py.rstrip s) w) eqn:E; [| done].
  apply startswith_spec in E as [x Hx].
  destruct (rstrip_split s) as (r & Hr & _).
  rewrite <- (Hs w Hw). symmetry. apply startswith_spec.
  exists (x +:+ r). by rewrite Hr, Hx, app_assoc_s.
Qed.

Lemma rstrip_idemp (s : string) : Py.rstrip (Py.rstrip s) = Py.rstrip s.
Proof.
  induction s as [|c s IH]; [done |].
  rewrite rstrip_cons.
  destruct (Py.all_space_from 0 (String c s)) eqn:E; [done |].
  rewrite rstrip_cons, IH.
  destruct (Py.all_space_from 0 (String c (Py.rstrip s))) eqn:E'; [| done].
  apply all_space_blank in E'.
  destruct (rstrip_split s) as (r & Hr & Hb).
  assert (Spec.blank (String c s)) as Hcs.
  { rewrite Hr. rewrite <- app_cons. by apply blank_app. }
  apply all_space_blank in Hcs. by rewrite Hcs in E.
Qed.

(** [strip] leaves nothing to strip. *)
Lemma strip_idemp (s : string) : Py.strip (Py.strip s) = Py.strip s.
Proof.
  unfold Py.strip.
  destruct (lstrip_split s) as (l & _ & _ & Hclean).
  rewrite (lstrip_fixed _ (rstrip_prefix_clean _ Hclean)).
  apply rstrip_idemp.
Qed.

(** What [strip] returns is the text without the whitespace around it. *)
Lemma strip_trimmed (text : string) : Spec.trimmed text (Py.strip text).
Proof.
  unfold Py.strip.
  destruct (lstrip_split text) as (l & Hl & Hbl & Hclean).
  destruct (rstrip_split (Py.lstrip text)) as (r & Hr & Hbr).
  exists l, r. split; [by rewrite <- Hr |]. split; [done |]. split; [done |].
  intros w Hw. split; [| by apply rstrip_clean].
  by apply (proj1 (space_prefix_None _) (rstrip_prefix_clean _ Hclean)).
Qed.

Example strip_unicode :
  Py.strip (Py.chr 160 +:+ "shop.com" +:+ Py.chr 8195) = "shop.com" /\
  Py.strip (" widgetshop.com" +:+ Py.chr 10) = "widgetshop.com" /\
  Py.strip ("a" +:+ Py.chr 12288 +:+ "b ") = "a" +:+ Py.chr 12288 +:+ "b".
Proof. repeat split; reflexivity. Qed.

(** ** Strings: the trimmed text is one *)

Lemma app_eq_app_s (a b c d : string) :
  a +:+ b = c +:+ d ->
  (exists k, a = c +:+ k /\ d = k +:+ b) \/
  (exists k, c = a +:+ k /\ b = k +:+ d).
Proof.
  revert c. induction a as [|x a IH]; intros c H; sapp.
  - right. by exists c.
  - destruct c as [|y c]; sapp.
    + left. by exists (String x a).
    + injection H as -> H.
      destruct (IH c H) as [(k & -> & ->) | (k & -> & ->)];
        [left | right]; by exists k.
Qed.

(** A whitespace character begins with a byte that is the first of its
    character, and goes on with bytes that are not. *)
Lemma whitespace_head (w : string) :
  w ∈ Py.whitespace ->
  exists c t, w = String c t /\ Py.is_continuation c = false.
Proof.
  revert w. apply Forall_forall.
  repeat (apply List.Forall_cons; [by eexists _, _ |]). apply List.Forall_nil.
Qed.

Lemma whitespace_tail (w p z : string) :
  w ∈ Py.whitespace -> w = p +:+ z -> p <> "" ->
  z = "" \/ exists c t, z = String c t /\ Py.is_continuation c = true.
Proof.
  intros Hw. revert p z.
  refine (proj1 (Forall_forall
                   (fun w => forall p z, w = p +:+ z -> p <> "" ->
                      z = "" \/
                      exists c t, z = String c t /\
                                  Py.is_continuation c = true)
                   Py.whitespace) _ w Hw).
  let l := eval vm_compute in Py.whitespace in change Py.whitespace with l.
  repeat (apply List.Forall_cons;
    [intros p z H Hp;
     destruct p as [|a p]; [done |]; sapp; injection H as _ H;
     repeat (destruct p as [|? p]; sapp;
             [subst z; first [by left | right; by eexists _, _] |
              first [discriminate H | injection H as _ H]]) |]).
  apply List.Forall_nil.
Qed.

Lemma blank_head (b : string) :
  Spec.blank b ->
  b = "" \/ exists c t, b = String c t /\ Py.is_continuation c = false.
Proof.
  destruct 1 as [|w s Hw Hs]; [by left |]. right.
  destruct (whitespace_head w Hw) as (c & t & -> & Hc).
  exists c, (t +:+ s). by sapp.
Qed.

Lemma blank_last (s : string) :
  Spec.blank s -> s <> "" ->
  exists p w, w ∈ Py.whitespace /\ s = p +:+ w.
Proof.
  induction 1 as [|w s Hw Hs IH]; intros Hne; [done |].
  destruct s as [|c s].
  - exists "", w. by rewrite app_empty_r.
  - destruct IH as (p & v & Hv & ->); [done |].
    exists (w +:+ p), v. by rewrite app_assoc_s.
Qed.

(** A whitespace character cannot begin inside a character and end in a
    run of whitespace. *)
Lemma no_straddle (w p k rest : string) :
  w ∈ Py.whitespace -> w = p +:+ k -> p <> "" -> k <> "" ->
  Spec.blank (k +:+ rest) -> False.
Proof.
  intros Hw Hsplit Hp Hk Hb.
  destruct (whitespace_tail w p k Hw Hsplit Hp) as [-> | (c & t & -> & Hc)];
    [done |].
  apply blank_head in Hb as [Hb | (c' & t' & Hb & Hc')]; sapp;
    [discriminate |].
  injection Hb as <- _. by rewrite Hc in Hc'.
Qed.

Lemma blank_app_inv (p b : string) :
  Spec.blank (p +:+ b) -> Spec.blank b -> Spec.blank p.
Proof.
  remember (p +:+ b) as s eqn:Hs. intros H. revert p Hs.
  induction H as [|w s Hw Hbs IH]; intros p Hs Hb.
  - destruct p; [constructor | by sapp].
  - symmetry in Hs.
    apply app_eq_app_s in Hs as [(k & -> & ->) | (k & Hw' & ->)].
    + constructor; [done |]. by apply IH.
    + destruct p as [|x p]; [constructor |].
      destruct k as [|y k].
      * rewrite app_empty_r in Hw'. subst w.
        rewrite <- (app_empty_r (String x p)). constructor; [done | constructor].
      * by destruct (no_straddle w (String x p) (String y k) s Hw Hw').
Qed.

Lemma lstrip_blank_app (l x : string) :
  Spec.blank l -> Py.lstrip (l +:+ x) = Py.lstrip x.
Proof.
  induction 1 as [|w s Hw Hs IH]; [done |].
  by rewrite app_assoc_s, lstrip_skip.
Qed.

Lemma rstrip_app_blank (p b : string) :
  Spec.blank b -> Py.rstrip (p +:+ b) = Py.rstrip p.
Proof.
  intros Hb. induction p as [|c p IH]; sapp; [by apply rstrip_blank |].
  rewrite !rstrip_cons, IH.
  destruct (Py.all_space_from 0 (String c (p +:+ b))) eqn:E1,
           (Py.all_space_from 0 (String c p)) eqn:E2; try done.
  - apply all_space_blank in E1. rewrite <- app_cons in E1.
    apply (blank_app_inv (String c p) b) in E1; [| done].
    apply all_space_blank in E1. by rewrite E1 in E2.
  - apply all_space_blank in E2.
    pose proof (blank_app _ _ E2 Hb) as E. sapp.
    apply all_space_blank in E. by rewrite E in E1.
Qed.

Lemma rstrip_fixed (s : string) :
  (forall w, w ∈ Py.whitespace -> Py.endswith s w = false) ->
  Py.rstrip s = s.
Proof.
  induction s as [|c s IH]; intros Hclean; [done |].
  rewrite rstrip_cons.
  destruct (Py.all_space_from 0 (String c s)) eqn:E.
  - apply all_space_blank in E.
    destruct (blank_last _ E) as (p & w & Hw & Hp); [done |].
    assert (Py.endswith (String c s) w = true) as Hend
      by (apply endswith_spec; by exists p).
    by rewrite (Hclean w Hw) in Hend.
  - rewrite IH; [done |]. intros w Hw.
    specialize (Hclean w Hw). rewrite endswith_unfold in Hclean.
    by apply orb_false_iff in Hclean as [_ ?].
Qed.

(** A text has one trimmed text, the one [strip] returns. *)
Lemma trimmed_strip (text core : string) :
  Spec.trimmed text core <-> Py.strip text = core.
Proof.
  split; [| intros <-; apply strip_trimmed].
  intros (l & r & -> & Hl & Hr & Hclean). unfold Py.strip.
  rewrite (lstrip_blank_app l _ Hl).
  destruct core as [|c core].
  - sapp. rewrite <- (app_empty_r r), (lstrip_blank_app r "" Hr). done.
  - rewrite lstrip_fixed.
    + rewrite (rstrip_app_blank _ r Hr). apply rstrip_fixed.
      intros w Hw. by apply Hclean.
    + apply space_prefix_None. intros w Hw.
      destruct (Py.startswith (String c core +:+ r) w) eqn:E; [| done].
      apply startswith_spec in E as [y Hy].
      apply app_eq_app_s in Hy as [(k & Hk & _) | (k & Hk & Hr')].
      * assert (Py.startswith (String c core) w = true) as Hs
          by (apply startswith_spec; by exists k).
        by rewrite (proj1 (Hclean w Hw)) in Hs.
      * destruct k as [|x k].
        -- rewrite app_empty_r in Hk.
           assert (Py.startswith (String c core) w = true) as Hs
             by (apply startswith_spec; exists ""; by rewrite app_empty_r).
           by rewrite (proj1 (Hclean w Hw)) in Hs.
        -- rewrite Hr' in Hr.
           by destruct (no_straddle w (String c core) (String x k) y Hw Hk).
Qed.

(** ** Strings: the case of the letters *)

Lemma ascii_all (P : ascii -> bool) :
  forallb P (map ascii_of_nat (seq 0 256)) = true -> forall a, P a = true.
Proof.
  intros H a. rewrite forallb_forall in H. apply H.
  rewrite <- (ascii_nat_embedding a). apply in_map, in_seq.
  pose proof (nat_ascii_bounded a). lia.
Qed.

(** Two characters are the same up to the case of a letter A-Z exactly
    when [str.lower] gives the same for both. *)
Lemma same_letter_lower (a b : ascii) :
  Spec.same_letter a b = Ascii.eqb (Py.lower_char a) (Py.lower_char b).
Proof.
  apply Bool.eqb_prop. revert b.
  apply (ascii_all (fun b => Bool.eqb (Spec.same_letter a b)
                                (Ascii.eqb (Py.lower_char a)
                                   (Py.lower_char b)))).
  revert a.
  apply (ascii_all (fun a =>
           forallb (fun b => Bool.eqb (Spec.same_letter a b)
                               (Ascii.eqb (Py.lower_char a)
                                  (Py.lower_char b)))
             (map ascii_of_nat (seq 0 256)))).
  by vm_compute.
Qed.

Lemma same_text_lower (s t : string) :
  Spec.same_text s t = true <-> Py.lower s = Py.lower t.
Proof.
  revert t. induction s as [|a s IH]; intros [|b t]; simpl; try done.
  rewrite andb_true_iff, same_letter_lower, Ascii.eqb_eq, IH. split.
  - by intros [-> ->].
  - by intros [= -> ->].
Qed.

Lemma same_text_refl (s : string) : Spec.same_text s s = true.
Proof. by apply same_text_lower. Qed.

Lemma lower_lower_char (c : ascii) :
  Py.lower_char (Py.lower_char c) = Py.lower_char c.
Proof.
  apply Ascii.eqb_eq.
  apply (ascii_all (fun c => Ascii.eqb (Py.lower_char (Py.lower_char c))
                               (Py.lower_char c))).
  by vm_compute.
Qed.

Lemma lower_lower (s : string) : Py.lower (Py.lower s) = Py.lower s.
Proof.
  induction s as [|c s IH]; simpl; [done |].
  by rewrite lower_lower_char, IH.
Qed.

(** [m in s.lower()], for a text [m] without the letters A-Z, holds
    exactly when [s] holds [m] in some character case. *)
Lemma contains_any_case (s m : string) :
  Py.lower m = m ->
  (Py.contains (Py.lower s) m = true <-> Spec.holds_in_any_case s m).
Proof.
  intros Hm. rewrite contains_lower. unfold Spec.holds_in_any_case.
  split; intros (pre & w & post & -> & Hw); exists pre, w, post;
    (split; [done |]).
  - apply same_text_lower. by rewrite Hm.
  - apply same_text_lower in Hw. by rewrite Hw.
Qed.

(** ** The schedules of a run *)

Section ScheduleFacts.
Context {U : Type} `{EqDecision U}.

(** The units of a group begin in the order of the tasks. *)
Lemma accepts_began_order (sched : list (Asyncio.event U)) :
  forall todo inflight,
    Asyncio.accepts todo inflight sched = true ->
    Asyncio.began sched = todo.
Proof.
  induction sched as [|[u|u] sched IH]; intros todo inflight Hacc;
    simpl in *.
  - by destruct todo, inflight.
  - destruct todo as [|v todo]; [done |].
    apply andb_prop in Hacc as [Hu Hacc].
    apply bool_decide_eq_true in Hu as ->. f_equal. by eapply IH.
  - destruct (Asyncio.take_out u inflight); [| done]. by eapply IH.
Qed.






(** In the schedule of a group its units begin in the order of the tasks,
    and its units return. *)
Lemma segments_of_run (batches : list (list U))
    (scheds : list (list (Asyncio.event U))) :
  Forall2 (fun b s => Asyncio.accepts b [] s = true) batches scheds ->
  Forall2 (fun group segment =>
             Asyncio.began segment = group /\
             Asyncio.returned segment ≡ₚ group) batches scheds.
Proof.
  induction 1 as [|b s batches scheds Hacc _ IH]; constructor; [| done].
  split; [by eapply accepts_began_order |].
  by apply accepts_returned in Hacc.
Qed.

End ScheduleFacts.

Lemma range_step_50_length (n : nat) :
  length (Py.range_step n 50) = ((n + 49) / 50)%nat.
Proof.
  unfold Py.range_step. rewrite length_map, length_seq.
  by replace (n + 50 - 1)%nat with (n + 49)%nat by lia.
Qed.

(** The batches of width 50 of a list: none is empty, and all but the last
    are full. *)
Lemma batches_50_shape {A} (l : list A) (n : nat) (b : list A) :
  Probe.batches l 50 !! n = Some b ->
  (1 <= length b <= 50)%nat /\
  ((S n < length (Probe.batches l 50))%nat -> length b = 50%nat).
Proof.
  intros Hb.
  assert (n < length (Probe.batches l 50))%nat as Hn
    by (apply lookup_lt_is_Some; by exists b).
  apply batches_lookup in Hb as ->.
  unfold Probe.batches in *. rewrite length_map, range_step_50_length in *.
  rewrite length_take, length_drop.
  pose proof (Nat.div_mod_eq (length l + 49) 50) as E.
  pose proof (Nat.mod_upper_bound (length l + 49) 50) as M.
  lia.
Qed.


(** ** main2.py *)

Section Main2Facts.
Import Files Probe.
Context (TIMESTAMP : string) (now : nat -> string) (save_time : string).
Context (session_get : nat -> string -> fetched).
Context (DictReader : string -> option (list (gmap string (option string)))).

Local Abbreviation VERIFYPASS_FILE := (Main2.VERIFYPASS_FILE TIMESTAMP).
Local Abbreviation check_domain := (Main2.check_domain TIMESTAMP now session_get).
Local Abbreviation batch_loop := (Main2.batch_loop TIMESTAMP now session_get).
Local Abbreviation program :=
  (Main2.program TIMESTAMP now save_time session_get DictReader).
Local Abbreviation load_domains_from_csv :=
  (Main2.load_domains_from_csv DictReader).
Local Abbreviation accepts_batch :=
  (fun (b : list unit) s => Asyncio.accepts b [] s = true).

(** The rows a unit adds to [VERIFYPASS_FILE]. *)
Local Abbreviation saved u := (appended VERIFYPASS_FILE (snd (check_domain u))).

Lemma main2_check_domain_appends u :
  appends_to VERIFYPASS_FILE (snd (check_domain u)) (saved u).
Proof.
  destruct u as [i [dom|]]; unfold Main2.check_domain;
    [| eapply appends_self, appends_id].
  destruct (session_get i _) as [| e | status html].
  - eapply appends_self, appends_id.
  - eapply appends_self, appends_id.
  - destruct (negb (status =? 200)); [eapply appends_self, appends_id |].
    destruct (Main2.has_verifypass html).
    + eapply appends_self, appends_append.
    + eapply appends_self, appends_id.
Qed.


(** What the loop of [main] leaves, for any schedules that are a run. *)
Lemma main2_batch_loop_inv domains starts : forall scheds st st',
  batch_loop domains starts scheds st = Some st' ->
  let batches := map (fun i => Py.slice domains i (i + Main2.batch_size)) starts in
  Forall2 accepts_batch batches scheds /\
  Main2.trace st' = Main2.trace st ++ concat scheds /\
  Main2.results st' =
    Main2.results st ++ map (fun u => fst (check_domain u)) (concat batches) /\
  Main2.files st' =
    foldl (fun d u => snd (check_domain u) d) (Main2.files st)
      (concat (map Asyncio.returned scheds)).
Proof.
  induction starts as [|i starts IH]; intros scheds st st' H; simpl in H.
  - destruct scheds; [| done]. injection H as <-. simpl.
    by rewrite !app_nil_r.
  - destruct scheds as [|sched scheds]; [done |].
    unfold Main2.process_domains in H.
    destruct (Asyncio.gather _ _ sched _) as [[rs d']|] eqn:G; [| done].
    apply gather_Some in G as (Hacc & -> & ->). simpl in H.
    apply IH in H as (HF & Htr & Hres & Hfiles). simpl in *.
    split; [by constructor |].
    rewrite Htr, Hres, Hfiles, map_app, foldl_app, <- !(assoc_L (++)).
    done.
Qed.

(** The loop has a run whatever the batches are. *)
Lemma main2_batch_loop_runs domains starts st :
  is_Some (batch_loop domains starts
    (map (fun i => Asyncio.in_turn
                     (Py.slice domains i (i + Main2.batch_size))) starts) st).
Proof.
  revert st. induction starts as [|i starts IH]; intros st; simpl; [done |].
  unfold Main2.process_domains, Asyncio.gather.
  rewrite accepts_in_turn. simpl. apply IH.
Qed.


(** How a run of the script ends and what it leaves. [order] is the order
    in which the units returned. *)
Lemma main2_program_inv argv scheds d o st :
  program argv scheds d = Some (o, st) ->
  (argv !! 1%nat = None /\ o = Exit 1 usage /\
   st = {| Main2.results := []; Main2.files := Main2.module_load TIMESTAMP d;
           Main2.trace := [] |}) \/
  (exists csv_file, argv !! 1%nat = Some csv_file /\
     load_domains_from_csv csv_file = None /\ o = Uncaught /\
     st = {| Main2.results := []; Main2.files := Main2.module_load TIMESTAMP d;
             Main2.trace := [] |}) \/
  (exists csv_file domains order,
     argv !! 1%nat = Some csv_file /\
     load_domains_from_csv csv_file = Some domains /\ o = Finished /\
     Forall2 accepts_batch (batches (enumerate domains) Main2.batch_size)
       scheds /\
     order = concat (map Asyncio.returned scheds) /\
     order ≡ₚ enumerate domains /\
     Main2.trace st = concat scheds /\
     Main2.results st = map (fun u => fst (check_domain u)) (enumerate domains) /\
     Main2.files st =
       Main2.save_results save_time (Main2.results st)
         "domain_check_results.csv"
         (foldl (fun d u => snd (check_domain u) d)
            (Main2.module_load TIMESTAMP d) order)).
Proof.
  unfold Main2.program, Main2.main.
  destruct (argv !! 1%nat) as [csv_file|]; [| intros [= <- <-]; by left].
  destruct (load_domains_from_csv csv_file) as [domains|] eqn:L;
    [| intros [= <- <-]; right; left; by exists csv_file].
  destruct (batch_loop _ _ scheds _) as [st0|] eqn:B; [| done].
  simpl. intros [= <- <-]. right. right.
  apply main2_batch_loop_inv in B as (HF & Htr & Hres & Hfiles).
  simpl in *.
  assert (map (fun i => Py.slice (enumerate domains) i (i + Main2.batch_size))
            (Py.range_step (length domains) Main2.batch_size)
          = batches (enumerate domains) Main2.batch_size) as Hb.
  { unfold batches, enumerate. by rewrite length_imap. }
  rewrite Hb in *. clear Hb.
  assert (concat (batches (enumerate domains) Main2.batch_size)
          = enumerate domains) as Hcat.
  { apply batches_concat. unfold Main2.batch_size. lia. }
  rewrite Hcat in Hres.
  exists csv_file, domains, (concat (map Asyncio.returned scheds)).
  repeat split; try done.
  - rewrite <- Hcat. by apply returned_groups.
  - by rewrite Hres, Hfiles.
Qed.

(** A run that reads its input has schedules, and so an end. *)
Lemma main2_program_runs argv d csv_file domains :
  argv !! 1%nat = Some csv_file ->
  load_domains_from_csv csv_file = Some domains ->
  exists scheds st, program argv scheds d = Some (Finished, st).
Proof.
  intros Harg Hload.
  destruct (main2_batch_loop_runs (enumerate domains)
              (Py.range_step (length domains) Main2.batch_size)
              {| Main2.results := []; Main2.files := Main2.module_load TIMESTAMP d;
                 Main2.trace := [] |}) as [st Hst].
  eexists _, _. unfold Main2.program, Main2.main.
  rewrite Harg, Hload, Hst. done.
Qed.

(** The widget file after the units in [order] returned. *)
Lemma main2_sink d (order : list unit) :
  foldl (fun d u => snd (check_domain u) d) (Main2.module_load TIMESTAMP d)
    order !! VERIFYPASS_FILE
  = Some (Main2.verifypass_header :: flat_map (fun u => saved u) order).
Proof.
  destruct (appends_foldl VERIFYPASS_FILE (fun u => snd (check_domain u))
              (fun u => saved u) main2_check_domain_appends order
              (Main2.module_load TIMESTAMP d) [Main2.verifypass_header])
    as [Hsink _]; [apply write_lookup | done].
Qed.

End Main2Facts.

(** ** main.py *)

Section MainFacts.
Import Files.
Context (timestamp : string) (now : Z -> string).
Context (session_get : string -> Main.response).
Context (find_all : string -> list string).

Local Abbreviation output_filename := (Main.output_filename timestamp).
Local Abbreviation scrape := (Main.scrape timestamp now session_get find_all).
Local Abbreviation fetch := (Main.fetch timestamp now session_get find_all).
Local Abbreviation page_row page :=
  (fun domain : string => [Int page; Str domain; Str (now page)]).

Lemma tasks_elem (last_page p : Z) :
  p ∈ Main.tasks last_page <-> 1 <= p < last_page.
Proof.
  unfold Main.tasks, Py.range. rewrite list_elem_of_fmap. split.
  - intros (k & -> & Hk). apply elem_of_seq in Hk. lia.
  - intros Hp. exists (Z.to_nat (p - 1)). split; [lia |].
    apply elem_of_seq. lia.
Qed.

Lemma tasks_NoDup (last_page : Z) : NoDup (Main.tasks last_page).
Proof.
  unfold Main.tasks, Py.range. apply NoDup_fmap_2; [| apply NoDup_seq].
  intros j k Hjk. lia.
Qed.

(** The candidates the loop of [scrape] keeps. *)
Lemma keep_links_elem zone links : forall acc d,
  d ∈ Main.keep_links zone links acc <->
  d ∈ acc \/
  exists link, link ∈ links /\ d = Py.strip link /\
               Py.endswith d ("." +:+ zone) = true.
Proof.
  induction links as [|link links IH]; intros acc d; simpl.
  - split; [by left | intros [? | (? & ?%elem_of_nil & _)]; done].
  - destruct (Py.endswith (Py.strip link) _) eqn:E; rewrite IH.
    + rewrite elem_of_app, list_elem_of_singleton. split.
      * intros [[? | ->] | (l & Hl & ? & ?)].
        -- by left.
        -- right. exists link. split; [left | done].
        -- right. exists l. split; [by right | done].
      * intros [? | (l & Hl & Hd & He)]; [by left; left |].
        apply elem_of_cons in Hl as [-> | Hl].
        -- left. by right.
        -- right. by exists l.
    + split.
      * intros [? | (l & Hl & ? & ?)]; [by left |].
        right. exists l. split; [by right | done].
      * intros [? | (l & Hl & Hd & He)]; [by left |].
        apply elem_of_cons in Hl as [-> | Hl]; [congruence |].
        right. by exists l.
Qed.

(** What a page answered with 200 returns and saves. *)
Lemma scrape_ok zone page html :
  session_get (Main.page_url zone page) = Main.Response 200 html ->
  let page_domains := Main.keep_links zone (find_all html) [] in
  fst (scrape zone page) = Main.Returns page_domains /\
  appends_to output_filename (snd (scrape zone page))
    (map (page_row page) page_domains).
Proof.
  intros Hget. unfold Main.scrape. rewrite Hget. simpl. split; [done |].
  destruct (Main.keep_links zone (find_all html) []) as [|d ds].
  - apply appends_id.
  - apply appends_append.
Qed.

(** Whatever a page is answered, its task only appends to the output. *)
Lemma scrape_appends zone page :
  appends_to output_filename (snd (scrape zone page))
    (appended output_filename (snd (scrape zone page))).
Proof.
  unfold Main.scrape.
  destruct (session_get _) as [| status html];
    [eapply appends_self, appends_id |].
  destruct (status =? 200); [| eapply appends_self, appends_id].
  destruct (Main.keep_links zone (find_all html) []).
  - eapply appends_self, appends_id.
  - eapply appends_self, appends_append.
Qed.


End MainFacts.

(** ** The claims on main.py *)

(** C1 (the code departs from the claim). The claim has a task for every
    page from 1 to [last_page] inclusive. [fetch] creates its tasks from
    [range(1, last_page)]: for [last_page = 3] the pages are 1 and 2, and
    in general the pages [p] with [1 <= p < last_page], so the last page is
    never fetched. *)
Theorem fetch_skips_last_page :
  Main.tasks 3 = [1; 2] /\
  (forall last_page p, p ∈ Main.tasks last_page <-> 1 <= p < last_page) /\
  (forall last_page, last_page ∉ Main.tasks last_page).
Proof.
  split; [reflexivity |]. split; [apply tasks_elem |].
  intros last_page Hin. apply tasks_elem in Hin. lia.
Qed.

Example suffix_filter_com :
  Main.keep_links "com" ["shop.com"; "shop.com.uk"; " Shop.COM"] []
  = ["shop.com"].
Proof. reflexivity. Qed.

(** The list [scrape] builds: the stripped texts that end with the dot and
    the zone, in the order of the elements. *)
Lemma keep_links_filter (zone : string) (links : list string) : forall acc,
  Main.keep_links zone links acc =
  acc ++ filter (fun core => Py.endswith core ("." +:+ zone) = true)
           (map Py.strip links).
Proof.
  induction links as [|link links IH]; intros acc; simpl.
  - by rewrite app_nil_r.
  - rewrite filter_cons.
    destruct (Py.endswith (Py.strip link) ("." +:+ zone)) eqn:E.
    + rewrite decide_True by done. rewrite IH, <- (assoc_L (++)). done.
    + rewrite decide_False by (by intros ?). apply IH.
Qed.

(** C4. On a page answered with 200, [scrape] returns and saves, tagged
    with the page number, these texts and no others: for every candidate
    element, in the order of the document, its text without the
    whitespace around it, when that ends with a dot followed by the zone,
    compared character by character. The trimmed text of a candidate is
    among them exactly when it ends so. *)
Theorem discovery_suffix_filter
    (timestamp : string) (now : Z -> string)
    (session_get : string -> Main.response) (find_all : string -> list string)
    (zone : string) (page : Z) (html : string) :
  session_get (Main.page_url zone page) = Main.Response 200 html ->
  exists page_domains cores,
    fst (Main.scrape timestamp now session_get find_all zone page)
      = Main.Returns page_domains /\
    Files.appended (Main.output_filename timestamp)
      (snd (Main.scrape timestamp now session_get find_all zone page))
      = map (fun d => [Files.Int page; Files.Str d; Files.Str (now page)])
          page_domains /\
    Forall2 Spec.trimmed (find_all html) cores /\
    page_domains
      = filter (fun core => Py.endswith core ("." +:+ zone) = true) cores /\
    (forall core,
       Py.endswith core ("." +:+ zone) = true <->
       exists pre, core = pre +:+ ("." +:+ zone)) /\
    forall link core,
      link ∈ find_all html -> Spec.trimmed link core ->
      (core ∈ page_domains <-> exists pre, core = pre +:+ ("." +:+ zone)).
Proof.
  intros Hget.
  exists (Main.keep_links zone (find_all html) []),
         (map Py.strip (find_all html)).
  destruct (scrape_ok timestamp now session_get find_all zone page html Hget)
    as [Hret Happ].
  split; [done |]. split; [by apply appends_appended |]. split.
  { apply Forall2_fmap_r, Forall_Forall2_diag, Forall_forall.
    intros link _. apply strip_trimmed. }
  split; [apply (keep_links_filter zone (find_all html) []) |].
  split; [intros core; apply endswith_spec |].
  intros link core Hlink Hcore. apply trimmed_strip in Hcore as <-.
  rewrite keep_links_elem, <- endswith_spec. split.
  - intros [?%elem_of_nil | (l & _ & -> & He)]; done.
  - intros He. right. by exists link.
Qed.

Lemma discovery_suffix_filter_witness :
  Scenario.listing (Main.page_url "com" 1) = Main.Response 200 "listing" /\
  Scenario.listing_links "listing"
    = [" widgetshop.com" +:+ Py.chr 10;
       Py.chr 160 +:+ "shop.com" +:+ Py.chr 8195;
       "shop.com.uk"; "Shop.COM"; "shop.com"] /\
  exists page_domains cores,
    fst (Main.scrape "20240501_100000" Scenario.page_clock Scenario.listing
           Scenario.listing_links "com" 1) = Main.Returns page_domains /\
    cores = ["widgetshop.com"; "shop.com"; "shop.com.uk"; "Shop.COM";
             "shop.com"] /\
    Forall2 Spec.trimmed (Scenario.listing_links "listing") cores /\
    page_domains = ["widgetshop.com"; "shop.com"; "shop.com"] /\
    Files.appended (Main.output_filename "20240501_100000")
      (snd (Main.scrape "20240501_100000" Scenario.page_clock
              Scenario.listing Scenario.listing_links "com" 1))
      = map (fun d => [Files.Int 1; Files.Str d;
                       Files.Str (Scenario.page_clock 1)]) page_domains /\
    ("shop.com.uk" ∈ page_domains <->
     exists pre, "shop.com.uk" = pre +:+ ("." +:+ "com")).
Proof.
  split; [reflexivity |]. split; [reflexivity |].
  destruct (discovery_suffix_filter "20240501_100000" Scenario.page_clock
              Scenario.listing Scenario.listing_links "com" 1 "listing"
              eq_refl)
    as (page_domains & cores & Hret & Hrows & Hcores & Hkept & _ & Hiff).
  assert (cores = map Py.strip (Scenario.listing_links "listing")) as Hstrip.
  { clear - Hcores. revert cores Hcores.
    induction (Scenario.listing_links "listing") as [|link links IH];
      intros cores H; inversion H as [|? core ? cores' Hc Hcs]; subst;
      [done |].
    apply trimmed_strip in Hc as <-. simpl. f_equal. by apply IH. }
  assert (cores = ["widgetshop.com"; "shop.com"; "shop.com.uk"; "Shop.COM";
                   "shop.com"]) as Hnames
    by (rewrite Hstrip; reflexivity).
  exists page_domains, cores.
  split; [exact Hret |]. split; [exact Hnames |]. split; [exact Hcores |].
  split; [rewrite Hkept, Hnames; reflexivity |]. split; [exact Hrows |].
  apply (Hiff "shop.com.uk" "shop.com.uk"); [right; right; left |].
  apply trimmed_strip. reflexivity.
Defined.

Example scrape_page_two :
  fst (Main.scrape "20240501_100000" Scenario.page_clock Scenario.directory
         Scenario.links "com" 2)
  = Main.Returns ["widgetshop.com"; "shop.com"].
Proof. reflexivity. Qed.

(** ** The claims on the request of a domain *)

(** C8 (the code departs from the claim). The claim prepends [https://]
    exactly to the strings without a scheme. Both scripts test
    [startswith('http')], so [httpbin.org], which has no scheme, is
    requested as it stands. *)
Theorem ensure_https_misses_scheme :
  Main2.ensure_https "httpbin.org" = "httpbin.org" /\
  Script.ensure_https "httpbin.org" = "httpbin.org" /\
  Py.contains "httpbin.org" "://" = false.
Proof. repeat split; reflexivity. Qed.

Lemma ensure_https_cases (domain : string) :
  Main2.ensure_https domain =
    (if Py.startswith domain "http" then domain else "https://" +:+ domain)
  /\ Script.ensure_https domain = Main2.ensure_https domain.
Proof.
  unfold Main2.ensure_https, Script.ensure_https.
  by destruct (Py.startswith domain "http").
Qed.

(** ** The claims on the widget extractor *)

(** C3. The widget is detected exactly when the body has a piece that
    reads as one of the four markers once the case of its letters is
    disregarded; it is not detected exactly when the body has no such
    piece. *)
Theorem widget_detected_iff_marker (html_content : string) :
  let marked :=
    exists marker,
      marker ∈ ["verifypass.com"; "verifypass.js"; "verifypass-shopify";
                "data-verifypass"] /\
      Spec.holds_in_any_case html_content marker in
  (Main2.has_verifypass html_content = true <-> marked) /\
  (Main2.has_verifypass html_content = false <-> ~ marked).
Proof.
  assert (Main2.has_verifypass html_content = true <->
          exists marker,
            marker ∈ Main2.verifypass_indicators /\
            Spec.holds_in_any_case html_content marker)
    as Hiff.
  { unfold Main2.has_verifypass. rewrite existsb_exists.
    assert (forall m, m ∈ Main2.verifypass_indicators -> Py.lower m = m)
      as Hlow.
    { intros m Hm. unfold Main2.verifypass_indicators in Hm.
      repeat (apply elem_of_cons in Hm as [-> | Hm]; [reflexivity |]).
      by apply elem_of_nil in Hm. }
    split.
    - intros (m & Hm & Hc). apply list_elem_of_In in Hm.
      exists m. split; [done |]. by apply contains_any_case; [apply Hlow |].
    - intros (m & Hm & Hc). exists m. rewrite <- list_elem_of_In.
      split; [done |]. by apply contains_any_case; [apply Hlow |]. }
  simpl. split; [exact Hiff |].
  rewrite <- Hiff. by destruct (Main2.has_verifypass html_content).
Qed.

Lemma widget_detected_iff_marker_witness :
  Spec.holds_in_any_case "<div DATA-VerifyPass='1'>" "data-verifypass" /\
  Main2.has_verifypass "<div DATA-VerifyPass='1'>" = true /\
  Main2.has_verifypass "<div data-verify-pass='1'>" = false /\
  ~ Spec.holds_in_any_case "<div data-verify-pass='1'>" "data-verifypass".
Proof.
  assert (Spec.holds_in_any_case "<div DATA-VerifyPass='1'>"
            "data-verifypass") as Hpiece.
  { exists "<div ", "DATA-VerifyPass", "='1'>". split; reflexivity. }
  split; [exact Hpiece |].
  destruct (widget_detected_iff_marker "<div DATA-VerifyPass='1'>")
    as [Hyes _].
  destruct (widget_detected_iff_marker "<div data-verify-pass='1'>")
    as [_ Hno].
  split.
  { apply Hyes. exists "data-verifypass". split; [| exact Hpiece].
    do 3 right. left. }
  split; [reflexivity |].
  intros Hin. apply (proj1 Hno eq_refl).
  exists "data-verifypass". split; [do 3 right; left | exact Hin].
Defined.

(** ** script.py: the indicator list *)

Section ScriptFacts.
Import Files Probe.
Context (re_search : Script.pattern -> string -> option string).
Context (BeautifulSoup : string -> option (string -> list Script.tag)).
Context (json_loads : string -> Script.loaded).
Context (upper : string -> string).

Local Abbreviation extract_shopify_data :=
  (Script.extract_shopify_data re_search BeautifulSoup json_loads upper).
Local Abbreviation extract_body :=
  (Script.extract_body re_search BeautifulSoup json_loads upper).
Local Abbreviation fired :=
  (Script.fired re_search BeautifulSoup json_loads upper).
Local Abbreviation scripts_loop := (Script.scripts_loop re_search json_loads).
Local Abbreviation script_raises := (Script.script_raises re_search json_loads).
Local Abbreviation scripts_read := (Script.scripts_read re_search json_loads).
Local Abbreviation shop_country_fires :=
  (Script.shop_country_fires re_search json_loads).

Lemma check_locale_indicators html d :
  Script.indicators (Script.check_locale re_search upper html d) =
  Script.indicators d ++
  (if Script.locale_fires re_search upper html then ["Shopify locale: IN"] else []).
Proof.
  unfold Script.check_locale, Script.locale_fires.
  destruct (re_search _ html) as [g|]; [| by rewrite app_nil_r].
  destruct (Py.contains _ "IN"); [done | by rewrite app_nil_r].
Qed.

(** The step over a [meta] element adds an entry for the locale and none
    for the shop identifier. *)
Lemma meta_step_indicators d meta :
  Script.indicators (Script.meta_step upper d meta) =
  Script.indicators d ++
  (if Script.og_locale_fires upper meta then ["Meta locale: IN"] else []).
Proof.
  unfold Script.meta_step, Script.og_locale_fires.
  destruct (bool_decide (_ = Some "og:locale")); simpl;
    [destruct (Py.contains (upper _) "IN") |];
    destruct (bool_decide (_ = Some "shopify-digital-wallet"));
    try destruct (Py.contains _ "/shop/"); simpl;
    by rewrite ?app_nil_r.
Qed.

(** The step over a [script] element: it ends the function when
    [json.loads] raises, and else adds an entry and sets the country code
    when the object names IN. *)
Lemma script_step_flow d script :
  if script_raises script
  then Script.script_step re_search json_loads d script = Script.Raised d
  else exists d',
    Script.script_step re_search json_loads d script = Script.Done d' /\
    Script.indicators d' =
      Script.indicators d ++
      (if shop_country_fires script
       then ["Shopify.shop country: IN"] else []) /\
    Script.country_code d' =
      (if shop_country_fires script then Some "IN"
       else Script.country_code d) /\
    Script.shop_id d' = Script.shop_id d.
Proof.
  unfold Script.script_step, Script.script_raises, Script.shop_country_fires,
    Script.shop_object.
  destruct (Py.contains _ "Shopify.shop"); simpl;
    [| exists d; by rewrite app_nil_r].
  destruct (re_search _ _) as [g|]; simpl; [| exists d; by rewrite app_nil_r].
  destruct (json_loads g) as [shop_data| |];
    [| exists d; by rewrite app_nil_r | done].
  destruct (bool_decide _); eexists; (split; [done |]);
    [done | by rewrite app_nil_r].
Qed.

(** The loop over the [script] elements adds the entries of the elements it
    gets through, and ends the function exactly when one of them makes
    [json.loads] raise. *)
Lemma scripts_loop_flow scripts : forall d,
  exists d',
    scripts_loop scripts d
      = (if existsb script_raises scripts
         then Script.Raised d' else Script.Done d') /\
    Script.indicators d' =
      Script.indicators d ++
      flat_map (fun script => if shop_country_fires script
                              then ["Shopify.shop country: IN"] else [])
        (scripts_read scripts) /\
    Script.country_code d' =
      (if existsb shop_country_fires (scripts_read scripts) then Some "IN"
       else Script.country_code d) /\
    Script.shop_id d' = Script.shop_id d.
Proof.
  induction scripts as [|script scripts IH]; intros d; simpl.
  - exists d. by rewrite app_nil_r.
  - pose proof (script_step_flow d script) as Hstep.
    destruct (script_raises script); simpl.
    + rewrite Hstep. exists d. by rewrite app_nil_r.
    + destruct Hstep as (d1 & -> & H1 & C1 & S1). simpl.
      destruct (IH d1) as (d' & -> & H' & C' & S'). exists d'.
      split; [done |]. split; [by rewrite H', H1, <- (assoc_L (++)) |].
      split; [| congruence].
      rewrite C', C1.
      by destruct (shop_country_fires script),
           (existsb shop_country_fires (scripts_read scripts)).
Qed.

Lemma check_currency_indicators html d : forall patterns,
  Script.indicators (Script.check_currency re_search patterns html d) =
  Script.indicators d ++
  (if existsb (fun p => bool_decide (is_Some (re_search p html))) patterns
   then ["Currency: INR"] else []).
Proof.
  induction patterns as [|p patterns IH]; simpl; [by rewrite app_nil_r |].
  destruct (re_search p html) as [g|] eqn:E.
  - by rewrite bool_decide_eq_true_2.
  - rewrite bool_decide_eq_false_2 by (by intros [? ?]). apply IH.
Qed.

Lemma address_step_indicators html d indicator :
  Script.indicators (Script.address_step html d indicator) =
  Script.indicators d ++
  (if Script.address_fires html indicator
   then ["Indian address format: " +:+ indicator] else []).
Proof.
  unfold Script.address_step, Script.address_fires.
  destruct (Py.contains _ indicator); [done | by rewrite app_nil_r].
Qed.

(** A loop whose step adds the entries [f x] adds them for every [x]. *)
Lemma foldl_indicators {X} (step : Script.data -> X -> Script.data)
    (f : X -> list string) :
  (forall d x, Script.indicators (step d x) = Script.indicators d ++ f x) ->
  forall xs d,
    Script.indicators (foldl step d xs) = Script.indicators d ++ flat_map f xs.
Proof.
  intros Hstep xs. induction xs as [|x xs IH]; intros d; simpl.
  - by rewrite app_nil_r.
  - by rewrite IH, Hstep, <- (assoc_L (++)).
Qed.

(** The loop gets through every element when none makes [json.loads]
    raise, and through those before the first that does. *)
Lemma no_script_raises scripts :
  existsb script_raises scripts = false <->
  forall script, script ∈ scripts ->
    Script.shop_object re_search json_loads script <> Some Script.Raises.
Proof.
  induction scripts as [|s scripts IH]; simpl.
  - split; [intros _ script []%elem_of_nil | done].
  - rewrite orb_false_iff, IH. unfold Script.script_raises at 1.
    split.
    + intros [Hs Hrest] script [-> | Hin]%elem_of_cons; [| by apply Hrest].
      intros E. by rewrite E in Hs.
    + intros H. split.
      * specialize (H s (list_elem_of_here _ _)).
        by destruct (Script.shop_object _ _ s) as [[]|].
      * intros script Hin. apply H. by right.
Qed.

Lemma scripts_read_all scripts :
  (forall script, script ∈ scripts ->
     Script.shop_object re_search json_loads script <> Some Script.Raises) ->
  scripts_read scripts = scripts.
Proof.
  induction scripts as [|s scripts IH]; intros H; simpl; [done |].
  assert (script_raises s = false) as ->.
  { specialize (H s (list_elem_of_here _ _)). unfold Script.script_raises.
    by destruct (Script.shop_object _ _ s) as [[]|]. }
  f_equal. apply IH. intros script Hin. apply H. by right.
Qed.

Lemma scripts_read_until before script after :
  (forall s, s ∈ before ->
     Script.shop_object re_search json_loads s <> Some Script.Raises) ->
  Script.shop_object re_search json_loads script = Some Script.Raises ->
  scripts_read (before ++ script :: after) = before.
Proof.
  intros Hbefore Hraises.
  induction before as [|s before IH]; simpl.
  - unfold Script.script_raises. by rewrite Hraises.
  - assert (script_raises s = false) as ->.
    { specialize (Hbefore s (list_elem_of_here _ _)).
      unfold Script.script_raises.
      by destruct (Script.shop_object _ _ s) as [[]|]. }
    f_equal. apply IH. intros s' Hin. apply Hbefore. by right.
Qed.

Lemma some_script_raises before script after :
  Script.shop_object re_search json_loads script = Some Script.Raises ->
  existsb script_raises (before ++ script :: after) = true.
Proof.
  intros Hraises. rewrite existsb_app. simpl.
  unfold Script.script_raises at 2. rewrite Hraises.
  by rewrite orb_true_r.
Qed.

Lemma script_raises_object script :
  script_raises script = true <->
  Script.shop_object re_search json_loads script = Some Script.Raises.
Proof.
  unfold Script.script_raises.
  destruct (Script.shop_object _ _ script) as [[]|]; split; done.
Qed.

Lemma fires_not_raises script :
  shop_country_fires script = true -> script_raises script = false.
Proof.
  unfold Script.shop_country_fires, Script.script_raises.
  by destruct (Script.shop_object _ _ script) as [[]|].
Qed.

(** An element the loop gets through fires exactly when an element of the
    document fires with no element before it making [json.loads] raise. *)
Lemma fires_before_raise scripts :
  existsb shop_country_fires (scripts_read scripts) = true <->
  exists before script after,
    scripts = before ++ script :: after /\
    (forall s, s ∈ before ->
       Script.shop_object re_search json_loads s <> Some Script.Raises) /\
    shop_country_fires script = true.
Proof.
  induction scripts as [|s scripts IH]; simpl.
  - split; [done |]. intros (before & script & after & H & _).
    by destruct before.
  - destruct (script_raises s) eqn:Hs; simpl.
    + split; [done |]. intros (before & script & after & H & Hb & Hf).
      destruct before as [|s' before]; simplify_eq/=.
      * apply fires_not_raises in Hf. congruence.
      * apply script_raises_object in Hs.
        by destruct (Hb s' (list_elem_of_here _ _)).
    + rewrite orb_true_iff, IH. split.
      * intros [Hf | (before & script & after & -> & Hb & Hf)].
        -- exists [], s, scripts. split; [done |]. split; [| done].
           by intros ? ?%elem_of_nil.
        -- exists (s :: before), script, after. split; [done |].
           split; [| done]. intros s' [-> | Hin]%elem_of_cons; [| by apply Hb].
           intros E%script_raises_object. congruence.
      * intros (before & script & after & H & Hb & Hf).
        destruct before as [|s' before]; simplify_eq/=; [by left |].
        right. exists before, script, after. split; [done |].
        split; [| done]. intros s0 Hin. apply Hb. by right.
Qed.

(** The indicator list of a body is [fired]. *)
Lemma extract_indicators html :
  Script.indicators (extract_shopify_data html) = fired html.
Proof.
  unfold Script.extract_shopify_data, Script.extract_body, Script.fired.
  destruct (BeautifulSoup html) as [soup|]; cbv zeta.
  - destruct (scripts_loop_flow (soup "script")
                (foldl (Script.meta_step upper)
                   (Script.check_locale re_search upper html
                      {| Script.country_code := None; Script.shop_id := None;
                         Script.indicators := [] |}) (soup "meta")))
      as (d' & -> & Hd' & _ & _).
    rewrite (foldl_indicators _ _ meta_step_indicators) in Hd'.
    rewrite check_locale_indicators in Hd'. simpl in Hd'.
    destruct (existsb _ (soup "script"));
      cbn [Script.and_then Script.data_of].
    + by rewrite Hd', app_nil_r, <- !(assoc_L (++)).
    + rewrite (foldl_indicators _ _ (address_step_indicators html)).
      rewrite check_currency_indicators, Hd'.
      by rewrite <- !(assoc_L (++)).
  - cbn [Script.data_of]. by rewrite check_locale_indicators, app_nil_r.
Qed.

Lemma confidence_monotone d1 d2 :
  (length (Script.indicators d1) <= length (Script.indicators d2))%nat ->
  Script.confidence d1 <= Script.confidence d2.
Proof. unfold Script.confidence. lia. Qed.

End ScriptFacts.

(** ** The claims on the locale extractor *)

(** C2, as the specification words it, fails: a body with the same
    [og:locale] element twice has one distinct indicator, for which the
    specification gives 25, and [check_domain] computes 50 from the two
    entries of the list. *)
Lemma confidence_counts_repeated_entries :
  let shopify_data :=
    Script.extract_shopify_data Scenario.no_match Scenario.parse_twice_locale
      Scenario.no_json Scenario.upper Scenario.twice_locale in
  Script.indicators shopify_data = ["Meta locale: IN"; "Meta locale: IN"] /\
  Script.confidence shopify_data = 50 /\
  Script.spec_confidence (Script.indicators shopify_data) = 25.
Proof. by vm_compute. Qed.

Example confidence_two_postal_formats :
  let shopify_data :=
    Script.extract_shopify_data Scenario.no_match Scenario.no_tags
      Scenario.no_json Scenario.upper Scenario.two_pincodes in
  Script.indicators shopify_data
    = ["Indian address format: pin-code"; "Indian address format: pincode"] /\
  Script.confidence shopify_data = 50.
Proof. by vm_compute. Qed.

Example wallet_names_shop :
  Script.meta_step Scenario.upper Scenario.no_data Scenario.wallet
  = {| Script.country_code := None; Script.shop_id := Some "12345";
       Script.indicators := [] |}.
Proof. by vm_compute. Qed.

(** A [script] element on which [json.loads] raises [RecursionError] ends
    the function: the element after it and the postal format of the page
    leave no entry. With the two elements in the other order the first
    leaves its entry. *)
Example extraction_ends_at_deep_object :
  Script.extract_shopify_data Scenario.match_shop Scenario.parse_two_shops
    Scenario.load_shops Scenario.upper Scenario.two_shops
  = {| Script.country_code := None; Script.shop_id := None;
       Script.indicators := [] |} /\
  Script.extract_shopify_data Scenario.match_shop
    Scenario.parse_shops_reversed Scenario.load_shops Scenario.upper
    Scenario.shops_reversed
  = {| Script.country_code := Some "IN"; Script.shop_id := None;
       Script.indicators := ["Shopify.shop country: IN"] |} /\
  Script.address_fires Scenario.two_shops "pincode" = true.
Proof. by vm_compute. Qed.

(** C2, amended. The confidence is 25 for every entry of the indicator
    list, capped at 100. The function runs its checks in order and returns
    what it has collected when the parser raises (after check 1) or
    [json.loads] raises another exception than [JSONDecodeError] (inside
    check 4). When it runs through, the list holds at most one entry from
    check 1 and at most one from check 5, one entry for every [og:locale]
    element that names IN (check 2), one for every script whose shop object
    has country IN (check 4) and one for every postal format found
    (check 6). When the parser raises, the list holds the entry of check 1
    at most; when [json.loads] raises, the entries of checks 1 and 2 and
    those of the scripts before the one at which it raised. The step over
    an element that is not an [og:locale] one, the shop identifier among
    them, adds nothing; more entries never give less confidence. *)
Theorem confidence_counts_entries
    (re_search : Script.pattern -> string -> option string)
    (BeautifulSoup : string -> option (string -> list Script.tag))
    (json_loads : string -> Script.loaded)
    (upper : string -> string)
    (html_content : string) :
  let shopify_data :=
    Script.extract_shopify_data re_search BeautifulSoup json_loads upper
      html_content in
  let entries := Script.indicators shopify_data in
  let once (fires : bool) (label : string) :=
    if fires then [label] else [] in
  let check1 :=
    once (Script.locale_fires re_search upper html_content)
      "Shopify locale: IN" in
  let check2 (soup : string -> list Script.tag) :=
    flat_map (fun meta => once (Script.og_locale_fires upper meta)
                            "Meta locale: IN") (soup "meta") in
  let check4 (scripts : list Script.tag) :=
    flat_map (fun script =>
                once (Script.shop_country_fires re_search json_loads script)
                  "Shopify.shop country: IN") scripts in
  let check5 :=
    once (Script.currency_fires re_search html_content) "Currency: INR" in
  let check6 :=
    flat_map (fun indicator =>
                once (Script.address_fires html_content indicator)
                  ("Indian address format: " +:+ indicator))
      ["pin-code"; "pincode"; "postal-code-in"; "india-zip"; "india-post"] in
  Script.confidence shopify_data
    = Z.min 100 (25 * Z.of_nat (length entries)) /\
  (BeautifulSoup html_content = None -> entries = check1) /\
  (forall soup,
     BeautifulSoup html_content = Some soup ->
     (forall script, script ∈ soup "script" ->
        Script.shop_object re_search json_loads script
          <> Some Script.Raises) ->
     entries
       = check1 ++ check2 soup ++ check4 (soup "script") ++ check5
           ++ check6) /\
  (forall soup before script after,
     BeautifulSoup html_content = Some soup ->
     soup "script" = before ++ script :: after ->
     (forall s, s ∈ before ->
        Script.shop_object re_search json_loads s <> Some Script.Raises) ->
     Script.shop_object re_search json_loads script = Some Script.Raises ->
     entries = check1 ++ check2 soup ++ check4 before) /\
  (forall d meta,
     Script.attrs meta !! "property" <> Some "og:locale" ->
     Script.indicators (Script.meta_step upper d meta)
       = Script.indicators d) /\
  (forall d1 d2,
     (length (Script.indicators d1) <= length (Script.indicators d2))%nat ->
     Script.confidence d1 <= Script.confidence d2).
Proof.
  cbv zeta. rewrite extract_indicators.
  split; [unfold Script.confidence; rewrite extract_indicators; lia |].
  split; [intros Hsoup; unfold Script.fired; rewrite Hsoup; apply app_nil_r |].
  split.
  { intros soup Hsoup Hnone. unfold Script.fired. rewrite Hsoup.
    rewrite (scripts_read_all re_search json_loads (soup "script")) by done.
    rewrite (proj2 (no_script_raises re_search json_loads (soup "script")))
      by done.
    done. }
  split.
  { intros soup before script after Hsoup Hscripts Hnone Hraises.
    unfold Script.fired. rewrite Hsoup, Hscripts.
    rewrite (scripts_read_until re_search json_loads before script after)
      by done.
    rewrite (some_script_raises re_search json_loads before script after)
      by done.
    by rewrite app_nil_r. }
  split; [| apply confidence_monotone].
  intros d meta Hne. rewrite meta_step_indicators.
  unfold Script.og_locale_fires.
  rewrite bool_decide_eq_false_2 by done. apply app_nil_r.
Qed.

Lemma confidence_counts_entries_witness :
  Script.indicators
    (Script.extract_shopify_data Scenario.no_match Scenario.parse_twice_locale
       Scenario.no_json Scenario.upper Scenario.twice_locale)
    = ["Meta locale: IN"; "Meta locale: IN"] /\
  Script.confidence
    (Script.extract_shopify_data Scenario.no_match Scenario.parse_twice_locale
       Scenario.no_json Scenario.upper Scenario.twice_locale) = 50 /\
  Script.indicators
    (Script.extract_shopify_data Scenario.match_shop
       Scenario.parse_shops_reversed Scenario.load_shops Scenario.upper
       Scenario.shops_reversed)
    = ["Shopify.shop country: IN"] /\
  Script.indicators
    (Script.extract_shopify_data Scenario.match_shop Scenario.parser_raises
       Scenario.load_shops Scenario.upper Scenario.two_shops) = [] /\
  Script.indicators (Script.meta_step Scenario.upper Scenario.no_data
                       Scenario.wallet)
    = Script.indicators Scenario.no_data /\
  Script.confidence Scenario.no_data
    <= Script.confidence (Script.append_indicator "Currency: INR"
                            Scenario.no_data).
Proof.
  destruct (confidence_counts_entries Scenario.no_match
              Scenario.parse_twice_locale Scenario.no_json Scenario.upper
              Scenario.twice_locale)
    as (Hconf & _ & Hthrough & _ & Hmeta & Hmono).
  destruct (confidence_counts_entries Scenario.match_shop
              Scenario.parse_shops_reversed Scenario.load_shops Scenario.upper
              Scenario.shops_reversed) as (_ & _ & _ & Hends & _).
  destruct (confidence_counts_entries Scenario.match_shop
              Scenario.parser_raises Scenario.load_shops Scenario.upper
              Scenario.two_shops) as (_ & Hparser & _).
  assert (Script.indicators
            (Script.extract_shopify_data Scenario.no_match
               Scenario.parse_twice_locale Scenario.no_json Scenario.upper
               Scenario.twice_locale)
          = ["Meta locale: IN"; "Meta locale: IN"]) as Hentries.
  { rewrite (Hthrough _ eq_refl); [by vm_compute |].
    intros script Hin. by vm_compute in Hin; apply elem_of_nil in Hin. }
  split; [exact Hentries |].
  split; [rewrite Hconf, Hentries; reflexivity |].
  split.
  { rewrite (Hends _ [Scenario.indian_shop] Scenario.deep_shop [] eq_refl);
      [by vm_compute | reflexivity | | by vm_compute].
    intros s ->%list_elem_of_singleton. by vm_compute. }
  split; [rewrite (Hparser eq_refl); by vm_compute |].
  split; [apply Hmeta; by vm_compute | apply Hmono; simpl; lia].
Defined.

(** ** script.py: the run *)

Section ScriptRun.
Import Files Probe.
Context (TIMESTAMP : string) (now : nat -> string).
Context (session_get : nat -> string -> fetched).
Context (DictReader : string -> option (list (gmap string (option string)))).
Context (re_search : Script.pattern -> string -> option string).
Context (BeautifulSoup : string -> option (string -> list Script.tag)).
Context (json_loads : string -> Script.loaded).
Context (upper : string -> string).

Local Abbreviation INDIAN_DOMAINS_FILE := (Script.INDIAN_DOMAINS_FILE TIMESTAMP).
Local Abbreviation check_domain :=
  (Script.check_domain TIMESTAMP now session_get re_search BeautifulSoup
     json_loads upper).
Local Abbreviation batch_loop :=
  (Script.batch_loop TIMESTAMP now session_get re_search BeautifulSoup
     json_loads upper).
Local Abbreviation program :=
  (Script.program TIMESTAMP now session_get DictReader re_search
     BeautifulSoup json_loads upper).
Local Abbreviation load_domains_from_csv :=
  (Script.load_domains_from_csv DictReader).
Local Abbreviation accepts_batch :=
  (fun (b : list unit) s => Asyncio.accepts b [] s = true).
Local Abbreviation saved u :=
  (appended INDIAN_DOMAINS_FILE (snd (check_domain u))).

(** The effect of a unit: nothing, or one row that starts with its URL. *)
Lemma script_check_domain_cases i cell :
  snd (check_domain (i, cell)) = id \/
  exists dom rest,
    cell = Some dom /\
    snd (check_domain (i, cell)) =
    append INDIAN_DOMAINS_FILE [Str (Script.ensure_https dom) :: rest].
Proof.
  unfold Script.check_domain. destruct cell as [dom|]; [| by left].
  destruct (session_get i _) as [| e | status html]; [by left | by left |].
  destruct (negb (status =? 200)); [by left |].
  destruct (_ || _); [| by left].
  destruct (25 <=? _); [| by left].
  right. unfold Script.save_indian_domain. by eexists _, _.
Qed.

Lemma script_check_domain_appends u :
  appends_to INDIAN_DOMAINS_FILE (snd (check_domain u)) (saved u).
Proof.
  destruct u as [i cell].
  destruct (script_check_domain_cases i cell) as [-> | (dom & rest & _ & ->)].
  - eapply appends_self, appends_id.
  - eapply appends_self, appends_append.
Qed.



Lemma script_batch_loop_inv domains starts : forall scheds st st',
  batch_loop domains starts scheds st = Some st' ->
  let batches :=
    map (fun i => Py.slice domains i (i + Script.batch_size)) starts in
  Forall2 accepts_batch batches scheds /\
  Script.trace st' = Script.trace st ++ concat scheds /\
  Script.files st' =
    foldl (fun d u => snd (check_domain u) d) (Script.files st)
      (concat (map Asyncio.returned scheds)).
Proof.
  induction starts as [|i starts IH]; intros scheds st st' H; simpl in H.
  - destruct scheds; [| done]. injection H as <-. simpl.
    by rewrite !app_nil_r.
  - destruct scheds as [|sched scheds]; [done |].
    unfold Script.process_domains in H.
    destruct (Asyncio.gather _ _ sched _) as [[rs d']|] eqn:G; [| done].
    apply gather_Some in G as (Hacc & -> & ->). simpl in H.
    apply IH in H as (HF & Htr & Hfiles). simpl in *.
    split; [by constructor |].
    rewrite Htr, Hfiles, foldl_app, <- !(assoc_L (++)). done.
Qed.

Lemma script_batch_loop_runs domains starts st :
  is_Some (batch_loop domains starts
    (map (fun i => Asyncio.in_turn
                     (Py.slice domains i (i + Script.batch_size))) starts) st).
Proof.
  revert st. induction starts as [|i starts IH]; intros st; simpl; [done |].
  unfold Script.process_domains, Asyncio.gather.
  rewrite accepts_in_turn. simpl. apply IH.
Qed.

(** How a run of the script ends and what it leaves. *)
Lemma script_program_inv argv scheds d o st :
  program argv scheds d = Some (o, st) ->
  (argv !! 1%nat = None /\ o = Exit 1 usage /\
   st = {| Script.files := Script.module_load TIMESTAMP d;
           Script.trace := [] |}) \/
  (exists csv_file, argv !! 1%nat = Some csv_file /\
     load_domains_from_csv csv_file = None /\ o = Uncaught /\
     st = {| Script.files := Script.module_load TIMESTAMP d;
             Script.trace := [] |}) \/
  (exists csv_file domains order,
     argv !! 1%nat = Some csv_file /\
     load_domains_from_csv csv_file = Some domains /\ o = Finished /\
     Forall2 accepts_batch (batches (enumerate domains) Script.batch_size)
       scheds /\
     order = concat (map Asyncio.returned scheds) /\
     order ≡ₚ enumerate domains /\
     Script.trace st = concat scheds /\
     Script.files st =
       foldl (fun d u => snd (check_domain u) d)
         (Script.module_load TIMESTAMP d) order).
Proof.
  unfold Script.program, Script.main.
  destruct (argv !! 1%nat) as [csv_file|]; [| intros [= <- <-]; by left].
  destruct (load_domains_from_csv csv_file) as [domains|] eqn:L;
    [| intros [= <- <-]; right; left; by exists csv_file].
  destruct (batch_loop _ _ scheds _) as [st0|] eqn:B; [| done].
  simpl. intros [= <- <-]. right. right.
  apply script_batch_loop_inv in B as (HF & Htr & Hfiles). simpl in *.
  assert (map (fun i => Py.slice (enumerate domains) i (i + Script.batch_size))
            (Py.range_step (length domains) Script.batch_size)
          = batches (enumerate domains) Script.batch_size) as Hb.
  { unfold batches, enumerate. by rewrite length_imap. }
  rewrite Hb in *. clear Hb.
  exists csv_file, domains, (concat (map Asyncio.returned scheds)).
  repeat split; try done.
  rewrite <- (batches_concat (enumerate domains) Script.batch_size)
    by (unfold Script.batch_size; lia).
  by apply returned_groups.
Qed.

Lemma script_program_runs argv d csv_file domains :
  argv !! 1%nat = Some csv_file ->
  load_domains_from_csv csv_file = Some domains ->
  exists scheds st, program argv scheds d = Some (Finished, st).
Proof.
  intros Harg Hload.
  destruct (script_batch_loop_runs (enumerate domains)
              (Py.range_step (length domains) Script.batch_size)
              {| Script.files := Script.module_load TIMESTAMP d;
                 Script.trace := [] |}) as [st Hst].
  eexists _, _. unfold Script.program, Script.main.
  rewrite Harg, Hload, Hst. done.
Qed.

(** The output file after the units in [order] returned. *)
Lemma script_sink d (order : list unit) :
  foldl (fun d u => snd (check_domain u) d) (Script.module_load TIMESTAMP d)
    order !! INDIAN_DOMAINS_FILE
  = Some (Script.indian_header :: flat_map (fun u => saved u) order).
Proof.
  destruct (appends_foldl INDIAN_DOMAINS_FILE (fun u => snd (check_domain u))
              (fun u => saved u) script_check_domain_appends order
              (Script.module_load TIMESTAMP d) [Script.indian_header])
    as [Hsink _]; [apply write_lookup | done].
Qed.

End ScriptRun.

(** ** The claims on the output files *)

Lemma verifypass_not_results (TIMESTAMP save_time : string) :
  Main2.VERIFYPASS_FILE TIMESTAMP
  <> "domain_check_results_" +:+ save_time +:+ ".csv".
Proof. unfold Main2.VERIFYPASS_FILE. intros H. sapp. discriminate. Qed.



(** C10. In both probing scripts the output file and its header are
    written by the statements run at import, before [main] looks at the
    arguments: every run that ends leaves the file with the header first,
    and a run without an input path ends with status 1 and the usage
    message and leaves nothing but the header. *)
Theorem header_written_before_arguments
    (TIMESTAMP : string) (now : nat -> string) (save_time : string)
    (session_get : nat -> string -> Probe.fetched)
    (DictReader : string -> option (list (gmap string (option string))))
    (re_search : Script.pattern -> string -> option string)
    (BeautifulSoup : string -> option (string -> list Script.tag))
    (json_loads : string -> Script.loaded)
    (upper : string -> string)
    (argv : list string)
    (scheds : list (list (Asyncio.event Probe.unit))) (d : Files.fs) :
  let widget :=
    Main2.program TIMESTAMP now save_time session_get DictReader argv scheds d in
  let locale :=
    Script.program TIMESTAMP now session_get DictReader re_search
      BeautifulSoup json_loads upper argv scheds d in
  (forall o st, widget = Some (o, st) ->
     exists rows, Main2.files st !! Main2.VERIFYPASS_FILE TIMESTAMP
                  = Some (Main2.verifypass_header :: rows)) /\
  (forall o st, locale = Some (o, st) ->
     exists rows, Script.files st !! Script.INDIAN_DOMAINS_FILE TIMESTAMP
                  = Some (Script.indian_header :: rows)) /\
  ((length argv < 2)%nat ->
     (exists st, widget = Some (Probe.Exit 1 Probe.usage, st) /\
        Main2.files st = Main2.module_load TIMESTAMP d /\
        Main2.files st !! Main2.VERIFYPASS_FILE TIMESTAMP
        = Some [Main2.verifypass_header]) /\
     (exists st, locale = Some (Probe.Exit 1 Probe.usage, st) /\
        Script.files st = Script.module_load TIMESTAMP d /\
        Script.files st !! Script.INDIAN_DOMAINS_FILE TIMESTAMP
        = Some [Script.indian_header])).
Proof.
  simpl. split; [| split].
  - intros o st Hrun.
    apply main2_program_inv in Hrun
      as [(_ & _ & ->) | [(f & _ & _ & _ & ->) |
          (f & domains & order & _ & _ & _ & _ & _ & _ & _ & _ & ->)]]; simpl.
    + exists []. apply write_lookup.
    + exists []. apply write_lookup.
    + eexists. unfold Main2.save_results.
      rewrite write_lookup_ne by apply verifypass_not_results.
      apply main2_sink.
  - intros o st Hrun.
    apply script_program_inv in Hrun
      as [(_ & _ & ->) | [(f & _ & _ & _ & ->) |
          (f & domains & order & _ & _ & _ & _ & _ & _ & _ & ->)]]; simpl.
    + exists []. apply write_lookup.
    + exists []. apply write_lookup.
    + eexists. apply script_sink.
  - intros Hlen. assert (argv !! 1%nat = None) as Hargv
      by (apply lookup_ge_None_2; lia).
    unfold Main2.program, Main2.main, Script.program, Script.main.
    rewrite Hargv. split; eexists; (split; [done |]); simpl;
      (split; [done | apply write_lookup]).
Qed.

Lemma header_written_before_arguments_witness :
  exists st2 st3,
    Main2.program "20240501_100000" Scenario.clock "20240501_100005"
      Scenario.widget_site (Scenario.reader ["a.com"; "b.com"])
      ["main2.py"] [] ∅ = Some (Probe.Exit 1 Probe.usage, st2) /\
    Main2.files st2 !! "verifypass_domains_20240501_100000.csv"
      = Some [Main2.verifypass_header] /\
    Script.program "20240501_100000" Scenario.clock Scenario.widget_site
      (Scenario.reader ["a.com"; "b.com"]) Scenario.no_match Scenario.no_tags
      Scenario.no_json Scenario.upper ["main2.py"] [] ∅
      = Some (Probe.Exit 1 Probe.usage, st3) /\
    Script.files st3 !! "indian_shopify_domains_20240501_100000.csv"
      = Some [Script.indian_header].
Proof.
  destruct (header_written_before_arguments "20240501_100000" Scenario.clock
              "20240501_100005" Scenario.widget_site
              (Scenario.reader ["a.com"; "b.com"]) Scenario.no_match
              Scenario.no_tags Scenario.no_json Scenario.upper ["main2.py"] [] ∅)
    as (_ & _ & Husage).
  destruct Husage as [(st2 & H2 & _ & F2) (st3 & H3 & _ & F3)];
    [simpl; lia |].
  by exists st2, st3.
Defined.





(** ** The claims on the batches *)

(** Schedules that are runs of the batches, one after the other, give a
    trace in which the batches follow one another. *)
Lemma sequenced_of_run (domains : list (option string))
    (scheds : list (list (Asyncio.event Probe.unit)))
    (trace : list (Asyncio.event Probe.unit)) :
  Forall2 (fun b s => Asyncio.accepts b [] s = true)
    (Probe.batches (Probe.enumerate domains) 50) scheds ->
  trace = concat scheds ->
  Probe.sequenced domains trace.
Proof.
  intros HF ->.
  assert (concat (Probe.batches (Probe.enumerate domains) 50)
          = Probe.enumerate domains) as Hcat by (apply batches_concat; lia).
  split.
  { intros b Hb. apply list_elem_of_lookup in Hb as [n Hb].
    by apply batches_50_shape in Hb as [? _]. }
  split; [done |]. split; [apply batches_lookup |].
  split; [exists scheds; split; [done | by apply segments_of_run] |].
  intros n b b' u v pre post Hb Hb' Hu Hv Htr.
  eapply (batches_in_sequence _ scheds n b b' u v pre post HF); try done.
  rewrite Hcat. apply enumerate_NoDup.
Qed.

(** C7. A run of a probing script that ends processes the rows of the
    input in batches of at most 50, none empty, that together are the input
    in its order: its trace is made of one segment for every batch, in
    which the units of the batch begin in the order of the input and
    return. At the moment a unit of a batch begins every unit of the batch
    before it has returned. Inside a batch the schedule is any run of the
    group. *)
Theorem batches_run_in_sequence
    (TIMESTAMP : string) (now : nat -> string) (save_time : string)
    (session_get : nat -> string -> Probe.fetched)
    (DictReader : string -> option (list (gmap string (option string))))
    (re_search : Script.pattern -> string -> option string)
    (BeautifulSoup : string -> option (string -> list Script.tag))
    (json_loads : string -> Script.loaded)
    (upper : string -> string)
    (argv : list string)
    (scheds : list (list (Asyncio.event Probe.unit))) (d : Files.fs) :
  (forall st,
     Main2.program TIMESTAMP now save_time session_get DictReader argv scheds d
       = Some (Probe.Finished, st) ->
     exists csv_file domains,
       argv !! 1%nat = Some csv_file /\
       Main2.load_domains_from_csv DictReader csv_file = Some domains /\
       Probe.sequenced domains (Main2.trace st)) /\
  (forall st,
     Script.program TIMESTAMP now session_get DictReader re_search
       BeautifulSoup json_loads upper argv scheds d
       = Some (Probe.Finished, st) ->
     exists csv_file domains,
       argv !! 1%nat = Some csv_file /\
       Script.load_domains_from_csv DictReader csv_file = Some domains /\
       Probe.sequenced domains (Script.trace st)).
Proof.
  split; intros st Hrun.
  - apply main2_program_inv in Hrun
      as [(_ & [=] & _) | [(f & _ & _ & [=] & _) |
          (f & domains & order & Harg & Hload & _ & HF & _ & _ & Htr & _)]].
    exists f, domains. split; [done |]. split; [done |].
    by apply (sequenced_of_run domains scheds).
  - apply script_program_inv in Hrun
      as [(_ & [=] & _) | [(f & _ & _ & [=] & _) |
          (f & domains & order & Harg & Hload & _ & HF & _ & _ & Htr & _)]].
    exists f, domains. split; [done |]. split; [done |].
    by apply (sequenced_of_run domains scheds).
Qed.

Lemma batches_run_in_sequence_witness :
  exists st2 st3,
    Main2.program "20240501_100000" Scenario.clock "20240501_100005"
      Scenario.widget_site (Scenario.reader Scenario.many_domains)
      ["probe.py"; "domains.csv"] Scenario.many_in_turn ∅
    = Some (Probe.Finished, st2) /\
    Script.program "20240501_100000" Scenario.clock Scenario.widget_site
      (Scenario.reader Scenario.many_domains) Scenario.no_match
      Scenario.no_tags Scenario.no_json Scenario.upper
      ["probe.py"; "domains.csv"] Scenario.many_in_turn ∅
    = Some (Probe.Finished, st3) /\
    length (Probe.batches
              (Probe.enumerate (Some <$> Scenario.many_domains)) 50)
      = 2%nat /\
    Probe.sequenced (Some <$> Scenario.many_domains) (Main2.trace st2) /\
    Probe.sequenced (Some <$> Scenario.many_domains) (Script.trace st3) /\
    Asyncio.Began (50%nat, Some "a.com") ∈ Main2.trace st2 /\
    Asyncio.Began (50%nat, Some "a.com") ∈ Script.trace st3 /\
    (forall pre post,
       Main2.trace st2
         = pre ++ Asyncio.Began (50%nat, Some "a.com") :: post ->
       Asyncio.Returned (49%nat, Some "a.com") ∈ pre) /\
    (forall pre post,
       Script.trace st3
         = pre ++ Asyncio.Began (50%nat, Some "a.com") :: post ->
       Asyncio.Returned (49%nat, Some "a.com") ∈ pre).
Proof.
  assert ((fun run => '(o, st) ← run; Some (o, Main2.trace st))
            (Main2.program "20240501_100000" Scenario.clock
               "20240501_100005" Scenario.widget_site
               (Scenario.reader Scenario.many_domains)
               ["probe.py"; "domains.csv"] Scenario.many_in_turn ∅)
          = Some (Probe.Finished, concat Scenario.many_in_turn)) as Hout2
    by (by vm_compute).
  assert ((fun run => '(o, st) ← run; Some (o, Script.trace st))
            (Script.program "20240501_100000" Scenario.clock
               Scenario.widget_site (Scenario.reader Scenario.many_domains)
               Scenario.no_match Scenario.no_tags Scenario.no_json Scenario.upper
               ["probe.py"; "domains.csv"] Scenario.many_in_turn ∅)
          = Some (Probe.Finished, concat Scenario.many_in_turn)) as Hout3
    by (by vm_compute).
  cbv beta in Hout2, Hout3.
  destruct (batches_run_in_sequence "20240501_100000" Scenario.clock
              "20240501_100005" Scenario.widget_site
              (Scenario.reader Scenario.many_domains) Scenario.no_match
              Scenario.no_tags Scenario.no_json Scenario.upper
              ["probe.py"; "domains.csv"]
              Scenario.many_in_turn ∅) as [Hwidget Hlocale].
  destruct (Main2.program _ _ _ _ _ _ _ _) as [[o2 st2]|]; [| done].
  destruct (Script.program _ _ _ _ _ _ _ _ _ _ _) as [[o3 st3]|]; [| done].
  simpl in Hout2, Hout3.
  injection Hout2 as -> Htr2. injection Hout3 as -> Htr3.
  destruct (Hwidget _ eq_refl) as (f2 & doms2 & _ & Hload2 & Hseq2).
  destruct (Hlocale _ eq_refl) as (f3 & doms3 & _ & Hload3 & Hseq3).
  assert (doms2 = Some <$> Scenario.many_domains) as ->
    by (vm_compute in Hload2; by injection Hload2).
  assert (doms3 = Some <$> Scenario.many_domains) as ->
    by (vm_compute in Hload3; by injection Hload3).
  exists st2, st3.
  split; [done |]. split; [done |]. split; [by vm_compute |].
  split; [exact Hseq2 |]. split; [exact Hseq3 |].
  assert (Asyncio.Began (50%nat, Some "a.com")
            ∈ concat Scenario.many_in_turn) as Hbegan
    by (apply list_elem_of_lookup; exists 100%nat; by vm_compute).
  split; [by rewrite Htr2 |]. split; [by rewrite Htr3 |].
  destruct Hseq2 as (_ & _ & _ & _ & Hseq2).
  destruct Hseq3 as (_ & _ & _ & _ & Hseq3).
  assert (Probe.batches (Probe.enumerate (Some <$> Scenario.many_domains)) 50
            !! 0%nat
          = Some (take 50 (Probe.enumerate (Some <$> Scenario.many_domains))))
    as Hb0 by (by vm_compute).
  assert (Probe.batches (Probe.enumerate (Some <$> Scenario.many_domains)) 50
            !! 1%nat
          = Some (drop 50 (Probe.enumerate (Some <$> Scenario.many_domains))))
    as Hb1 by (by vm_compute).
  assert ((49%nat, Some "a.com")
            ∈ take 50 (Probe.enumerate (Some <$> Scenario.many_domains)))
    as Hu by (apply list_elem_of_lookup; exists 49%nat; by vm_compute).
  assert ((50%nat, Some "a.com")
            ∈ drop 50 (Probe.enumerate (Some <$> Scenario.many_domains)))
    as Hv by (apply list_elem_of_lookup; exists 0%nat; by vm_compute).
  split; intros pre post Htr.
  - exact (Hseq2 0%nat _ _ _ _ pre post Hb0 Hb1 Hu Hv Htr).
  - exact (Hseq3 0%nat _ _ _ _ pre post Hb0 Hb1 Hu Hv Htr).
Defined.

(** ** The claims on the records of a run *)

Lemma filter_eq_absent {X} `{EqDecision X} (x : X) (l : list X) :
  x ∉ l -> filter (fun y => y = x) l = [].
Proof.
  induction l as [|y l IH]; intros Hx; [done |].
  apply not_elem_of_cons in Hx as [Hne Hx].
  rewrite filter_cons_False by congruence. by apply IH.
Qed.

Lemma NoDup_filter_eq {X} `{EqDecision X} (x : X) (l : list X) :
  NoDup l -> (length (filter (fun y => y = x) l) <= 1)%nat.
Proof.
  induction 1 as [|y l Hy Hnd IH]; [simpl; lia |].
  rewrite filter_cons. destruct (decide (y = x)) as [-> | Hne]; [| done].
  rewrite (filter_eq_absent x l Hy). simpl. lia.
Qed.





(** A row of the input without a [Domain] cell has its task like any
    other: [check_domain] raises before a request is made, whatever the
    site would answer; the widget script records the failure, and neither
    script leaves a row in its sink. *)
Example row_without_domain_makes_no_request
    (session_get : nat -> string -> Probe.fetched)
    (re_search : Script.pattern -> string -> option string)
    (BeautifulSoup : string -> option (string -> list Script.tag))
    (json_loads : string -> Script.loaded) (upper : string -> string) :
  Main2.check_domain "20240501_100000" Scenario.clock session_get
    (1%nat, None)
  = ({| Main2.domain := None; Main2.valid := false; Main2.status := None;
        Main2.verifypass := false;
        Main2.error :=
          Some "'NoneType' object has no attribute 'startswith'" |}, id) /\
  Script.check_domain "20240501_100000" Scenario.clock session_get re_search
    BeautifulSoup json_loads upper (1%nat, None) = ((), id).
Proof. split; reflexivity. Qed.



(** ** The claims on failing units *)

Lemma elem_of_flat_map {X Y} (f : X -> list Y) (l : list X) (y : Y) :
  y ∈ flat_map f l <-> exists x, x ∈ l /\ y ∈ f x.
Proof.
  rewrite list_elem_of_In, in_flat_map. split.
  - intros (x & Hx & Hy). exists x. by rewrite !list_elem_of_In.
  - intros (x & Hx & Hy). exists x. by rewrite <- !list_elem_of_In.
Qed.



(** * Further properties of the code *)

(** ** main.py: what a crawl returns and saves *)

Section CrawlFacts.
Import Files.
Context (timestamp : string) (now : Z -> string).
Context (session_get : string -> Main.response).
Context (find_all : string -> list string).

Local Abbreviation output_filename := (Main.output_filename timestamp).
Local Abbreviation scrape := (Main.scrape timestamp now session_get find_all).
Local Abbreviation fetch := (Main.fetch timestamp now session_get find_all).

(** The list a page hands to [fetch]: empty unless [scrape] returned one. *)
Local Abbreviation listed zone page :=
  (match fst (scrape zone page) with
   | Main.Returns page_domains => page_domains
   | _ => []
   end).

Lemma extend_lists_flat results : forall acc,
  Main.extend_lists results acc =
  acc ++ flat_map (fun r => match r with
                            | Main.Returns ds => ds
                            | _ => []
                            end) results.
Proof.
  induction results as [|r results IH]; intros acc; simpl.
  - by rewrite app_nil_r.
  - destruct r; rewrite IH; simpl; [done | done |].
    by rewrite <- (assoc_L (++)).
Qed.

(** The rows a page appends are the rows of the list it returns. *)
Lemma scrape_saved zone page :
  appended output_filename (snd (scrape zone page)) =
  map (fun d => [Int page; Str d; Str (now page)]) (listed zone page).
Proof.
  unfold Main.scrape.
  destruct (session_get _) as [| status html]; simpl;
    [apply (appends_appended _ _ _ (appends_id _)) |].
  destruct (status =? 200); simpl;
    [| apply (appends_appended _ _ _ (appends_id _))].
  destruct (Main.keep_links zone (find_all html) []) as [|d ds] eqn:E.
  - apply (appends_appended _ _ _ (appends_id _)).
  - unfold Main.save_to_csv.
    apply (appends_appended _ _ _ (appends_append _ _)).
Qed.

Lemma flat_map_map_length {X Y Z'} (f : X -> list Y) (g : X -> Y -> Z')
    (l : list X) :
  length (flat_map (fun x => map (g x) (f x)) l) = length (flat_map f l).
Proof.
  induction l as [|x l IH]; simpl; [done |].
  by rewrite !length_app, length_map, IH.
Qed.

Lemma flat_map_fmap {X Y Z'} (f : X -> Y) (g : Y -> list Z') (l : list X) :
  flat_map g (map f l) = flat_map (fun x => g (f x)) l.
Proof. induction l as [|x l IH]; simpl; [done | by rewrite IH]. Qed.

(** What [fetch] returns and leaves, for a schedule that is a run. *)
Lemma fetch_inv zone last_page sched d all_domains d' :
  fetch zone last_page sched d = Some (all_domains, d') ->
  Asyncio.accepts (Main.tasks last_page) [] sched = true /\
  all_domains = flat_map (fun page => listed zone page) (Main.tasks last_page) /\
  d' = foldl (fun d page => snd (scrape zone page) d) d
         (Asyncio.returned sched).
Proof.
  unfold Main.fetch.
  destruct (Asyncio.gather _ _ sched d) as [[results d0]|] eqn:G; [| done].
  apply gather_Some in G as (Hacc & -> & ->). simpl. intros [= <- <-].
  split; [done |]. split; [| done].
  by rewrite extend_lists_flat, flat_map_fmap.
Qed.

End CrawlFacts.

Section CrawlOutput.
Import Files.
Context (timestamp : string) (now : Z -> string).
Context (session_get : string -> Main.response).
Context (find_all : string -> list string).

Local Abbreviation output_filename := (Main.output_filename timestamp).
Local Abbreviation scrape := (Main.scrape timestamp now session_get find_all).
Local Abbreviation fetch := (Main.fetch timestamp now session_get find_all).
Local Abbreviation listed zone page :=
  (match fst (scrape zone page) with
   | Main.Returns page_domains => page_domains
   | _ => []
   end).

(** What a run of [fetch] leaves in the output file. *)
Lemma fetch_output zone last_page sched d old all_domains d' :
  fetch zone last_page sched d = Some (all_domains, d') ->
  d !! output_filename = Some old ->
  exists rows,
    d' !! output_filename = Some (old ++ rows) /\
    rows = flat_map (fun page =>
             map (fun dom => [Int page; Str dom; Str (now page)])
               (listed zone page)) (Asyncio.returned sched) /\
    Asyncio.returned sched ≡ₚ Main.tasks last_page /\
    rows ≡ₚ flat_map (fun page =>
               map (fun dom => [Int page; Str dom; Str (now page)])
                 (listed zone page)) (Main.tasks last_page) /\
    length rows = length all_domains /\
    forall other, other <> output_filename -> d' !! other = d !! other.
Proof.
  intros Hfetch Hd.
  apply fetch_inv in Hfetch as (Hacc & -> & ->).
  destruct (appends_foldl output_filename
              (fun page => snd (scrape zone page)) _
              (scrape_appends timestamp now session_get find_all zone)
              (Asyncio.returned sched) d old Hd) as [Hout Hother].
  eexists. split; [exact Hout |].
  split; [apply flat_map_ext, scrape_saved |].
  split; [by rewrite (accepts_returned _ _ _ Hacc) |].
  assert (flat_map (fun page => appended output_filename
                                  (snd (scrape zone page)))
            (Asyncio.returned sched)
          ≡ₚ flat_map (fun page =>
                map (fun dom => [Int page; Str dom; Str (now page)])
                  (listed zone page)) (Main.tasks last_page)) as Hperm.
  { rewrite (accepts_returned _ _ _ Hacc). simpl.
    rewrite (flat_map_ext _ _ (scrape_saved timestamp now session_get
                                 find_all zone)).
    done. }
  split; [exact Hperm |]. split; [| exact Hother].
  rewrite Hperm.
  apply (flat_map_map_length (fun page => listed zone page)
           (fun page dom => [Int page; Str dom; Str (now page)])).
Qed.

End CrawlOutput.

(** X1. [fetch] hands back the lists of the pages in the order of the pages,
    whatever the order in which the pages were answered, and the output
    file grows by one row for every domain handed back: the rows of the
    pages, in the order in which the pages returned, every page returning
    once. No other file changes. *)
Theorem crawl_result_in_page_order
    (timestamp : string) (now : Z -> string)
    (session_get : string -> Main.response) (find_all : string -> list string)
    (zone : string) (last_page : Z) (sched : list (Asyncio.event Z))
    (d d' : Files.fs) (old : Files.file) (all_domains : list string) :
  Main.fetch timestamp now session_get find_all zone last_page sched d
    = Some (all_domains, d') ->
  d !! Main.output_filename timestamp = Some old ->
  let listed page :=
    match fst (Main.scrape timestamp now session_get find_all zone page) with
    | Main.Returns page_domains => page_domains
    | _ => []
    end in
  let page_rows page :=
    map (fun dom => [Files.Int page; Files.Str dom; Files.Str (now page)])
      (listed page) in
  all_domains = flat_map listed (Main.tasks last_page) /\
  exists rows,
    d' !! Main.output_filename timestamp = Some (old ++ rows) /\
    rows = flat_map page_rows (Asyncio.returned sched) /\
    Asyncio.returned sched ≡ₚ Main.tasks last_page /\
    rows ≡ₚ flat_map page_rows (Main.tasks last_page) /\
    length rows = length all_domains /\
    forall other, other <> Main.output_filename timestamp ->
                  d' !! other = d !! other.
Proof.
  intros Hfetch Hd. simpl. split.
  - by apply fetch_inv in Hfetch as (_ & -> & _).
  - by apply (fetch_output timestamp now session_get find_all zone last_page
                sched d old all_domains d').
Qed.

Lemma crawl_result_in_page_order_witness :
  exists (all_domains : list string) (d' : Files.fs) (rows : Files.file),
    Main.fetch "20240501_100000" Scenario.page_clock Scenario.answered
      Scenario.answered_links "com" 3 Scenario.second_page_first
      (Main.module_load "20240501_100000" ∅) = Some (all_domains, d') /\
    all_domains = ["one.com"; "two.com"] /\
    d' !! Main.output_filename "20240501_100000"
      = Some ([Main.header] ++ rows) /\
    rows = [[Files.Int 2; Files.Str "two.com";
             Files.Str "2024-05-01 10:00:00"];
            [Files.Int 1; Files.Str "one.com";
             Files.Str "2024-05-01 10:00:00"]].
Proof.
  assert (fst <$> Main.fetch "20240501_100000" Scenario.page_clock
            Scenario.answered Scenario.answered_links "com" 3
            Scenario.second_page_first
            (Main.module_load "20240501_100000" ∅)
          = Some ["one.com"; "two.com"]) as Hlist by (by vm_compute).
  destruct (Main.fetch _ _ _ _ _ _ _ _)
    as [[all_domains d']|] eqn:Hfetch; [| done].
  injection Hlist as ->.
  destruct (crawl_result_in_page_order _ _ _ _ _ _ _ _ _ [Main.header] _
              Hfetch) as (_ & rows & Hout & Hrows & _);
    [by vm_compute |].
  exists ["one.com"; "two.com"], d', rows.
  split; [done |]. split; [done |]. split; [exact Hout |].
  rewrite Hrows. by vm_compute.
Defined.

(** X2. When no page is answered with status 200, [fetch] hands back the empty
    list and leaves the file system as it was. *)
Theorem crawl_without_answers
    (timestamp : string) (now : Z -> string)
    (session_get : string -> Main.response) (find_all : string -> list string)
    (zone : string) (last_page : Z) (sched : list (Asyncio.event Z))
    (d d' : Files.fs) (all_domains : list string) :
  (forall page status html,
     page ∈ Main.tasks last_page ->
     session_get (Main.page_url zone page) = Main.Response status html ->
     status <> 200) ->
  Main.fetch timestamp now session_get find_all zone last_page sched d
    = Some (all_domains, d') ->
  all_domains = [] /\ d' = d.
Proof.
  intros Hno Hfetch.
  assert (forall page, page ∈ Main.tasks last_page ->
            Main.scrape timestamp now session_get find_all zone page
            = (Main.Exception, id) \/
            Main.scrape timestamp now session_get find_all zone page
            = (Main.ReturnsNone, id)) as Hscrape.
  { intros page Hpage. unfold Main.scrape.
    destruct (session_get _) as [| status html] eqn:E; [by left |].
    destruct (status =? 200) eqn:Hs; [| by right].
    apply Z.eqb_eq in Hs. by destruct (Hno page status html Hpage E). }
  apply fetch_inv in Hfetch as (Hacc & -> & ->). split.
  - induction (Main.tasks last_page) as [|page pages IH] in Hscrape |- *;
      [done |]. simpl.
    rewrite IH by (intros p Hp; apply Hscrape; by right).
    by destruct (Hscrape page) as [-> | ->]; [left | |].
  - assert (forall page, page ∈ Asyncio.returned sched ->
              page ∈ Main.tasks last_page) as Hsub
      by (intros page; by rewrite (accepts_returned _ _ _ Hacc)).
    induction (Asyncio.returned sched) as [|page pages IH] in d, Hsub |- *;
      [done |]. simpl.
    destruct (Hscrape page) as [-> | ->]; [apply Hsub; left | |]; simpl;
      apply IH; intros p Hp; apply Hsub; by right.
Qed.

Lemma crawl_without_answers_witness :
  (forall page status html,
     page ∈ Main.tasks 3 ->
     Scenario.directory (Main.page_url "org" page)
       = Main.Response status html -> status <> 200) /\
  Main.fetch "20240501_100000" Scenario.page_clock Scenario.directory
    Scenario.links "org" 3 Scenario.failure_first ∅ = Some ([], ∅).
Proof.
  assert (forall page status html,
            page ∈ Main.tasks 3 ->
            Scenario.directory (Main.page_url "org" page)
              = Main.Response status html -> status <> 200) as Hno.
  { intros page status html Hpage.
    apply tasks_elem in Hpage.
    assert (page = 1 \/ page = 2) as [-> | ->] by lia;
      vm_compute; by intros [= <- _]. }
  split; [exact Hno |].
  assert (fst <$> Main.fetch "20240501_100000" Scenario.page_clock
            Scenario.directory Scenario.links "org" 3 Scenario.failure_first ∅
          = Some []) as Hlist by (by vm_compute).
  destruct (Main.fetch _ _ _ _ _ _ _ _)
    as [[all_domains d']|] eqn:Hfetch; [| done].
  by destruct (crawl_without_answers _ _ _ _ _ _ _ _ _ _ Hno Hfetch)
    as [-> ->].
Defined.

(** X3. Every domain [fetch] hands back is trimmed (stripping it again changes
    nothing) and ends with a dot followed by the zone. *)
Theorem crawl_domains_are_trimmed
    (timestamp : string) (now : Z -> string)
    (session_get : string -> Main.response) (find_all : string -> list string)
    (zone : string) (last_page : Z) (sched : list (Asyncio.event Z))
    (d d' : Files.fs) (all_domains : list string) (dom : string) :
  Main.fetch timestamp now session_get find_all zone last_page sched d
    = Some (all_domains, d') ->
  dom ∈ all_domains ->
  Py.strip dom = dom /\ exists pre, dom = pre +:+ ("." +:+ zone).
Proof.
  intros Hfetch Hdom.
  apply fetch_inv in Hfetch as (_ & -> & _).
  apply elem_of_flat_map in Hdom as (page & _ & Hdom).
  unfold Main.scrape in Hdom.
  destruct (session_get _) as [| status html]; simpl in Hdom;
    [by apply elem_of_nil in Hdom |].
  destruct (status =? 200); simpl in Hdom; [| by apply elem_of_nil in Hdom].
  apply keep_links_elem in Hdom as [?%elem_of_nil | (link & _ & -> & He)];
    [done |].
  split; [apply strip_idemp | by apply endswith_spec].
Qed.

Lemma crawl_domains_are_trimmed_witness :
  exists (all_domains : list string) (d' : Files.fs),
    Main.fetch "20240501_100000" Scenario.page_clock Scenario.directory
      Scenario.links "com" 3 Scenario.failure_first ∅
      = Some (all_domains, d') /\
    "widgetshop.com" ∈ all_domains /\
    Py.strip "widgetshop.com" = "widgetshop.com" /\
    exists pre, "widgetshop.com" = pre +:+ ("." +:+ "com").
Proof.
  assert (fst <$> Main.fetch "20240501_100000" Scenario.page_clock
            Scenario.directory Scenario.links "com" 3 Scenario.failure_first ∅
          = Some ["widgetshop.com"; "shop.com"]) as Hlist by (by vm_compute).
  destruct (Main.fetch _ _ _ _ _ _ _ _)
    as [[all_domains d']|] eqn:Hfetch; [| done].
  injection Hlist as ->.
  assert ("widgetshop.com" ∈ ["widgetshop.com"; "shop.com"]) as Hin by left.
  exists ["widgetshop.com"; "shop.com"], d'.
  split; [done |]. split; [exact Hin |].
  exact (crawl_domains_are_trimmed _ _ _ _ _ _ _ _ _ _ _ Hfetch Hin).
Defined.

(** ** main.py: the run *)

Section CrawlRun.
Import Files.
Context (timestamp : string) (now : Z -> string).
Context (session_get : string -> Main.response).
Context (find_all : string -> list string).
Context (landing : string -> option (Z * Main.pagination)).
Context (int : string -> option Z).

Local Abbreviation program :=
  (Main.program timestamp now session_get find_all landing int).
Local Abbreviation fetch := (Main.fetch timestamp now session_get find_all).

(** A run either raises before any page is asked for, or is a [fetch]. *)
Lemma main_program_inv argv sched d o d' :
  program argv sched d = Some (o, d') ->
  (exists e, o = Main.Raised e /\ d' = Main.module_load timestamp d) \/
  (exists last_page all_domains,
     o = Main.Completed all_domains /\
     fetch (default "com" (argv !! 1%nat)) last_page sched
       (Main.module_load timestamp d) = Some (all_domains, d')).
Proof.
  unfold Main.program, Main.main. cbv zeta.
  destruct (argv !! 2%nat) as [arg|].
  - destruct (int arg) as [last_page|]; [| intros [= <- <-]; left; eauto].
    destruct (last_page <? 0); [intros [= <- <-]; left; eauto |].
    destruct (fetch _ last_page sched _) as [[all_domains d0]|] eqn:F;
      [| done].
    simpl. intros [= <- <-]. right. by exists last_page, all_domains.
  - destruct (Main.last_page_finder _ _ _) as [[last_page|]|e];
      [| intros [= <- <-]; left; eauto | intros [= <- <-]; left; eauto].
    destruct (fetch _ last_page sched _) as [[all_domains d0]|] eqn:F;
      [| done].
    simpl. intros [= <- <-]. right. by exists last_page, all_domains.
Qed.

End CrawlRun.

(** X4. Every run of the crawl that ends leaves the output file with the header
    [Page,Domain,Timestamp] first. A run that raises leaves nothing else
    in it; a run that completes leaves one row for every domain it
    reports. *)
Theorem crawl_output_starts_with_header
    (timestamp : string) (now : Z -> string)
    (session_get : string -> Main.response) (find_all : string -> list string)
    (landing : string -> option (Z * Main.pagination))
    (int : string -> option Z)
    (argv : list string) (sched : list (Asyncio.event Z))
    (d d' : Files.fs) (o : Main.outcome) :
  Main.program timestamp now session_get find_all landing int argv sched d
    = Some (o, d') ->
  exists rows,
    d' !! Main.output_filename timestamp
      = Some ([Files.Str "Page"; Files.Str "Domain"; Files.Str "Timestamp"]
                :: rows) /\
    match o with
    | Main.Raised _ => rows = []
    | Main.Completed all_domains => length rows = length all_domains
    end.
Proof.
  intros Hrun.
  apply main_program_inv in Hrun
    as [(e & -> & ->) | (last_page & all_domains & -> & Hfetch)].
  - exists []. split; [apply write_lookup | done].
  - destruct (fetch_output timestamp now session_get find_all _ _ _ _
                [Main.header] _ _ Hfetch (write_lookup _ _ _))
      as (rows & Hout & _ & _ & _ & Hlen & _).
    by exists rows.
Qed.

Lemma crawl_output_starts_with_header_witness :
  exists (d' : Files.fs) (rows : Files.file),
    Main.program "20240501_100000" Scenario.page_clock Scenario.directory
      Scenario.links Scenario.landing_pages Scenario.int_of_numeral
      ["main.py"; "com"] Scenario.failure_first ∅
    = Some (Main.Completed ["widgetshop.com"; "shop.com"], d') /\
    d' !! Main.output_filename "20240501_100000"
      = Some ([Files.Str "Page"; Files.Str "Domain"; Files.Str "Timestamp"]
                :: rows) /\
    length rows = 2%nat.
Proof.
  assert (fst <$> Main.program "20240501_100000" Scenario.page_clock
            Scenario.directory Scenario.links Scenario.landing_pages
            Scenario.int_of_numeral ["main.py"; "com"]
            Scenario.failure_first ∅
          = Some (Main.Completed ["widgetshop.com"; "shop.com"])) as Hout
    by (by vm_compute).
  destruct (Main.program _ _ _ _ _ _ _ _ _) as [[o d']|] eqn:Hrun; [| done].
  injection Hout as ->.
  destruct (crawl_output_starts_with_header _ _ _ _ _ _ _ _ _ _ _ Hrun)
    as (rows & Hfile & Hlen).
  by exists d', rows.
Defined.



(** ** main.py: the pages asked for *)

Lemma str_inj (a b : Z) : Py.str a = Py.str b -> a = b.
Proof.
  unfold Py.str. intros Hstr.
  assert (forall n, NilZero.int_of_string (NilZero.string_of_int (Z.to_int n))
                    = Some (Z.to_int n)) as Hisi.
  { intros n.
    pose proof (DecimalZ.to_of (Z.to_int n)) as Hnorm.
    rewrite DecimalZ.of_to in Hnorm.
    apply NilZero.isi; intros E; rewrite E in Hnorm; discriminate Hnorm. }
  apply DecimalZ.to_int_inj.
  pose proof (Hisi a) as Ha. rewrite Hstr, Hisi in Ha. by injection Ha.
Qed.

Lemma app_inv_head_s (p a b : string) : p +:+ a = p +:+ b -> a = b.
Proof.
  induction p as [|c p IH]; sapp; [done |]. intros [= H]. by apply IH.
Qed.

Lemma page_url_inj (zone : string) (p q : Z) :
  Main.page_url zone p = Main.page_url zone q -> p = q.
Proof.
  unfold Main.page_url. intros H.
  by apply app_inv_head_s, app_inv_head_s, app_inv_head_s, str_inj in H.
Qed.

(** X6. [fetch] asks for every URL once: the pages it creates a task for have
    different URLs, those of the pages from 1 to below [last_page]. *)
Theorem pages_have_distinct_urls (zone : string) (last_page : Z) :
  NoDup (map (Main.page_url zone) (Main.tasks last_page)) /\
  forall url,
    url ∈ map (Main.page_url zone) (Main.tasks last_page) <->
    exists page, 1 <= page < last_page /\ url = Main.page_url zone page.
Proof.
  split.
  - assert (Inj (=) (=) (Main.page_url zone)) as Hinj
      by (intros p q; apply page_url_inj).
    apply (NoDup_fmap_2 (Main.page_url zone)), tasks_NoDup.
  - intros url. split.
    + intros (page & -> & Hpage)%list_elem_of_fmap.
      exists page. by apply tasks_elem in Hpage.
    + intros (page & Hpage & ->).
      apply (list_elem_of_fmap_2 (Main.page_url zone)). by apply tasks_elem.
Qed.

(** X7. With a last page of 1 or less [fetch] creates no task: it returns the
    empty list, asks for nothing and leaves the files as they are. *)
Theorem crawl_of_no_page
    (timestamp : string) (now : Z -> string)
    (session_get : string -> Main.response) (find_all : string -> list string)
    (zone : string) (last_page : Z) (sched : list (Asyncio.event Z))
    (d d' : Files.fs) (all_domains : list string) :
  last_page <= 1 ->
  Main.fetch timestamp now session_get find_all zone last_page sched d
    = Some (all_domains, d') ->
  Main.tasks last_page = [] /\ sched = [] /\ all_domains = [] /\ d' = d.
Proof.
  intros Hlast Hfetch.
  assert (Main.tasks last_page = []) as Htasks.
  { unfold Main.tasks, Py.range.
    by replace (Z.to_nat (last_page - 1)) with 0%nat by lia. }
  apply fetch_inv in Hfetch as (Hacc & -> & ->).
  rewrite Htasks in *.
  destruct sched as [|[u|u] sched]; [done | done | done].
Qed.

Lemma crawl_of_no_page_witness :
  exists d' : Files.fs,
    Main.fetch "20240501_100000" Scenario.page_clock Scenario.directory
      Scenario.links "com" 1 [] ∅ = Some ([], d') /\
    d' = ∅.
Proof.
  assert (fst <$> Main.fetch "20240501_100000" Scenario.page_clock
            Scenario.directory Scenario.links "com" 1 [] ∅ = Some [])
    as Hlist by (by vm_compute).
  destruct (Main.fetch _ _ _ _ _ _ _ _)
    as [[all_domains d']|] eqn:Hfetch; [| done].
  injection Hlist as ->.
  assert (1 <= 1) as Hlast by lia.
  destruct (crawl_of_no_page _ _ _ _ _ _ _ _ _ _ Hlast Hfetch)
    as (_ & _ & _ & Hd).
  by exists d'.
Defined.

(** X8. A run of the crawl that completes is one [fetch] over the zone of the
    first argument, [com] when there is none, up to the last page of the
    second argument, which is then not negative; only without a second
    argument is the last page the number in the last entry of the
    pagination of the landing page, answered with status 200. *)
Theorem crawl_last_page_source
    (timestamp : string) (now : Z -> string)
    (session_get : string -> Main.response) (find_all : string -> list string)
    (landing : string -> option (Z * Main.pagination))
    (int : string -> option Z)
    (argv : list string) (sched : list (Asyncio.event Z))
    (d d' : Files.fs) (all_domains : list string) :
  Main.program timestamp now session_get find_all landing int argv sched d
    = Some (Main.Completed all_domains, d') ->
  let zone := default "com" (argv !! 1%nat) in
  exists last_page,
    Main.fetch timestamp now session_get find_all zone last_page sched
      (Main.module_load timestamp d) = Some (all_domains, d') /\
    match argv !! 2%nat with
    | Some arg => int arg = Some last_page /\ 0 <= last_page
    | None =>
        exists lis text,
          landing zone = Some (200, Main.Pagination lis) /\
          last lis = Some text /\ int text = Some last_page
    end.
Proof.
  unfold Main.program, Main.main. cbv zeta.
  destruct (argv !! 2%nat) as [arg|] eqn:Harg.
  - destruct (int arg) as [n|] eqn:Hint; [| done].
    destruct (n <? 0) eqn:Hn; [done |]. apply Z.ltb_ge in Hn.
    destruct (Main.fetch _ _ _ _ _ n sched _) as [[l d0]|] eqn:F; [| done].
    simpl. intros [= <- <-]. by exists n.
  - unfold Main.last_page_finder.
    destruct (landing _) as [[status pagination]|] eqn:Hland; [| done].
    destruct (status =? 200) eqn:Hs; [| done].
    apply Z.eqb_eq in Hs as ->.
    destruct pagination as [| |lis]; [done | done |].
    destruct (last lis) as [text|] eqn:Hlast; [| done].
    destruct (int text) as [n|] eqn:Hint; [| done].
    destruct (Main.fetch _ _ _ _ _ n sched _) as [[l d0]|] eqn:F; [| done].
    simpl. intros [= <- <-]. exists n. split; [done |]. by exists lis, text.
Qed.

Lemma crawl_last_page_source_witness :
  exists (d' : Files.fs) (last_page : Z),
    Main.program "20240501_100000" Scenario.page_clock Scenario.directory
      Scenario.links Scenario.landing_pages Scenario.int_of_numeral
      ["main.py"; "com"] Scenario.failure_first ∅
    = Some (Main.Completed ["widgetshop.com"; "shop.com"], d') /\
    Main.fetch "20240501_100000" Scenario.page_clock Scenario.directory
      Scenario.links "com" last_page Scenario.failure_first
      (Main.module_load "20240501_100000" ∅)
    = Some (["widgetshop.com"; "shop.com"], d') /\
    exists lis,
      Scenario.landing_pages "com" = Some (200, Main.Pagination lis) /\
      last lis = Some "3" /\
      Scenario.int_of_numeral "3" = Some last_page.
Proof.
  assert (fst <$> Main.program "20240501_100000" Scenario.page_clock
            Scenario.directory Scenario.links Scenario.landing_pages
            Scenario.int_of_numeral ["main.py"; "com"]
            Scenario.failure_first ∅
          = Some (Main.Completed ["widgetshop.com"; "shop.com"])) as Hout
    by (by vm_compute).
  destruct (Main.program _ _ _ _ _ _ _ _ _) as [[o d']|] eqn:Hrun; [| done].
  injection Hout as ->.
  destruct (crawl_last_page_source _ _ _ _ _ _ _ _ _ _ _ Hrun)
    as (last_page & Hfetch & lis & text & Hland & Hlast & Hint).
  exists d', last_page. split; [done |]. split; [exact Hfetch |].
  exists lis. split; [exact Hland |].
  assert (lis = ["1"; "2"; "3"]) as -> by (by injection Hland).
  assert (text = "3") as -> by (by injection Hlast).
  by split.
Defined.

(** ** The probing scripts: the request and the record *)

Lemma ensure_https_prefix (domain : string) :
  Py.startswith (Main2.ensure_https domain) "http" = true.
Proof.
  unfold Main2.ensure_https. by destruct (Py.startswith domain "http") eqn:E.
Qed.

(** X9. The first statement of [check_domain] does nothing the second time,
    and what it hands to [session.get] always starts with [http]. *)
Theorem ensure_https_idempotent (domain : string) :
  Main2.ensure_https (Main2.ensure_https domain) = Main2.ensure_https domain /\
  Py.startswith (Main2.ensure_https domain) "http" = true /\
  Script.ensure_https (Script.ensure_https domain)
    = Script.ensure_https domain /\
  Py.startswith (Script.ensure_https domain) "http" = true.
Proof.
  pose proof (ensure_https_prefix domain) as Hpre.
  assert (Main2.ensure_https (Main2.ensure_https domain)
          = Main2.ensure_https domain) as Hidem.
  { unfold Main2.ensure_https at 1. by rewrite Hpre. }
  exact (conj Hidem (conj Hpre (conj Hidem Hpre))).
Qed.

(** X10. The widget is found or not whatever the case of the letters of the
    body: two bodies that differ only in the case of their letters A to Z
    are detected alike. *)
Theorem widget_detection_ignores_case (html_content other : string) :
  Spec.same_text html_content other = true ->
  Main2.has_verifypass html_content = Main2.has_verifypass other.
Proof.
  intros Hsame. apply same_text_lower in Hsame.
  unfold Main2.has_verifypass. by rewrite Hsame.
Qed.

Lemma widget_detection_ignores_case_witness :
  Spec.same_text "<DIV Data-VerifyPass='1'>" "<div data-verifypass='1'>"
    = true /\
  Main2.has_verifypass "<div data-verifypass='1'>" = true /\
  Main2.has_verifypass "<DIV Data-VerifyPass='1'>" = true.
Proof.
  assert (Spec.same_text "<DIV Data-VerifyPass='1'>"
            "<div data-verifypass='1'>" = true) as Hsame by reflexivity.
  split; [exact Hsame |]. split; [reflexivity |].
  by rewrite (widget_detection_ignores_case _ _ Hsame).
Defined.

Section WidgetRecords.
Import Files Probe.
Context (TIMESTAMP : string) (now : nat -> string) (save_time : string).
Context (session_get : nat -> string -> fetched).
Context (DictReader : string -> option (list (gmap string (option string)))).

Local Abbreviation VERIFYPASS_FILE := (Main2.VERIFYPASS_FILE TIMESTAMP).
Local Abbreviation check_domain := (Main2.check_domain TIMESTAMP now session_get).



End WidgetRecords.

(** ** The probing scripts: the order of the tasks *)



(** ** main2.py: the records of a run *)

(** The record of a unit: the request succeeded exactly when the status is
    200, exactly when there is no error text; the widget is reported only
    for such a unit; and the URL is the one asked for. The record of a unit
    without a cell has no URL and the text of the [AttributeError]. *)
Lemma main2_record_shape TIMESTAMP now session_get (u : Probe.unit) :
  let r := fst (Main2.check_domain TIMESTAMP now session_get u) in
  (Main2.valid r = true <-> Main2.status r = Some 200) /\
  (Main2.valid r = true <-> Main2.error r = None) /\
  (Main2.verifypass r = true -> Main2.valid r = true) /\
  Main2.domain r = Main2.ensure_https <$> snd u /\
  (snd u = None ->
   r = {| Main2.domain := None; Main2.valid := false; Main2.status := None;
          Main2.verifypass := false;
          Main2.error := Some Probe.no_startswith |}).
Proof.
  destruct u as [i [dom|]]; unfold Main2.check_domain; simpl; [| done].
  destruct (session_get i _) as [| e | status html]; simpl; [done | done |].
  destruct (status =? 200) eqn:Hs; simpl.
  - by apply Z.eqb_eq in Hs as ->.
  - apply Z.eqb_neq in Hs. split; [| done].
    split; [done | intros [= ->]; done].
Qed.

(** X12. The records of a run of the widget script that ends are those of
    the rows of the input, in their order, and every one is consistent:
    [valid] holds exactly when the status is 200 and exactly when the error
    is [None], and the widget is reported only for a valid record. The
    record of a row with a [Domain] cell has the URL asked for, which
    starts with [http]; the record of a row without one has no URL, is not
    valid, and has the text of the [AttributeError] as its error. *)
Theorem widget_records_are_consistent
    (TIMESTAMP : string) (now : nat -> string) (save_time : string)
    (session_get : nat -> string -> Probe.fetched)
    (DictReader : string -> option (list (gmap string (option string))))
    (argv : list string)
    (scheds : list (list (Asyncio.event Probe.unit))) (d : Files.fs)
    (st : Main2.state) :
  Main2.program TIMESTAMP now save_time session_get DictReader argv scheds d
    = Some (Probe.Finished, st) ->
  exists csv_file domains,
    argv !! 1%nat = Some csv_file /\
    Main2.load_domains_from_csv DictReader csv_file = Some domains /\
    Forall2 (fun cell r =>
               (Main2.valid r = true <-> Main2.status r = Some 200) /\
               (Main2.valid r = true <-> Main2.error r = None) /\
               (Main2.verifypass r = true -> Main2.valid r = true) /\
               match cell with
               | Some domain =>
                   exists url,
                     Main2.domain r = Some url /\
                     url = Main2.ensure_https domain /\
                     Py.startswith url "http" = true
               | None =>
                   r = {| Main2.domain := None; Main2.valid := false;
                          Main2.status := None; Main2.verifypass := false;
                          Main2.error :=
                            Some "'NoneType' object has no attribute 'startswith'" |}
               end)
      domains (Main2.results st).
Proof.
  intros Hrun.
  apply main2_program_inv in Hrun
    as [(_ & [=] & _) | [(f & _ & _ & [=] & _) |
        (f & domains & order & Harg & Hload & _ & _ & _ & _ & _ & Hres & _)]].
  exists f, domains. split; [done |]. split; [done |].
  rewrite Hres. rewrite <- (enumerate_snd domains) at 1.
  apply Forall2_fmap, Forall_Forall2_diag, Forall_forall.
  intros u _.
  destruct (main2_record_shape TIMESTAMP now session_get u)
    as (H1 & H2 & H3 & H4 & H5).
  split; [done |]. split; [done |]. split; [done |].
  destruct (snd u) as [domain|] eqn:Hu; [| by apply H5].
  exists (Main2.ensure_https domain). split; [done |]. split; [done |].
  apply ensure_https_prefix.
Qed.

Lemma widget_records_are_consistent_witness :
  exists st,
    Main2.program "20240501_100000" Scenario.clock "20240501_100005"
      Scenario.widget_site Scenario.reader_short_row
      ["main2.py"; "domains.csv"] [Scenario.short_row_in_turn] ∅
    = Some (Probe.Finished, st) /\
    Main2.load_domains_from_csv Scenario.reader_short_row "domains.csv"
      = Some [Some "a.com"; None] /\
    Main2.results st
    = [{| Main2.domain := Some "https://a.com"; Main2.valid := true;
          Main2.status := Some 200; Main2.verifypass := true;
          Main2.error := None |};
       {| Main2.domain := None; Main2.valid := false;
          Main2.status := None; Main2.verifypass := false;
          Main2.error :=
            Some "'NoneType' object has no attribute 'startswith'" |}] /\
    length (Main2.results st) = 2%nat.
Proof.
  assert ((fun run => '(o, st) ← run; Some (o, Main2.results st))
            (Main2.program "20240501_100000" Scenario.clock
               "20240501_100005" Scenario.widget_site
               Scenario.reader_short_row
               ["main2.py"; "domains.csv"] [Scenario.short_row_in_turn] ∅)
          = Some (Probe.Finished,
                  [{| Main2.domain := Some "https://a.com";
                      Main2.valid := true; Main2.status := Some 200;
                      Main2.verifypass := true; Main2.error := None |};
                   {| Main2.domain := None; Main2.valid := false;
                      Main2.status := None; Main2.verifypass := false;
                      Main2.error :=
                        Some "'NoneType' object has no attribute 'startswith'"
                   |}])) as Hout by (by vm_compute).
  cbv beta in Hout.
  destruct (Main2.program _ _ _ _ _ _ _ _) as [[o st]|] eqn:Hrun; [| done].
  simpl in Hout. injection Hout as -> Hres.
  exists st. split; [done |].
  destruct (widget_records_are_consistent _ _ _ _ _ _ _ _ _ Hrun)
    as (f & domains & Harg & Hload & Hrecords).
  injection Harg as <-.
  assert (domains = [Some "a.com"; None]) as ->
    by (vm_compute in Hload; by injection Hload).
  split; [exact Hload |]. split; [exact Hres |].
  by rewrite <- (Forall2_length _ _ _ Hrecords).
Defined.

Section WidgetFile.
Import Files Probe.
Context (TIMESTAMP : string) (now : nat -> string) (save_time : string).
Context (session_get : nat -> string -> fetched).
Context (DictReader : string -> option (list (gmap string (option string)))).

Local Abbreviation VERIFYPASS_FILE := (Main2.VERIFYPASS_FILE TIMESTAMP).
Local Abbreviation check_domain := (Main2.check_domain TIMESTAMP now session_get).
Local Abbreviation program :=
  (Main2.program TIMESTAMP now save_time session_get DictReader).


End WidgetFile.



(** ** The probing scripts: the input and the batches *)

Lemma load_domains_None
    (DictReader : string -> option (list (gmap string (option string))))
    (csv_file : string) :
  (DictReader csv_file = None \/
   exists rows row, DictReader csv_file = Some rows /\ row ∈ rows /\
                    row !! "Domain" = None) ->
  Main2.load_domains_from_csv DictReader csv_file = None.
Proof.
  unfold Main2.load_domains_from_csv.
  intros [-> | (rows & row & -> & Hrow & Hnone)]; [done |]. simpl.
  destruct (mapM _ rows) as [domains|] eqn:E; [| done].
  assert (is_Some (mapM (fun row : gmap string (option string) =>
                           row !! "Domain") rows))
    as Hsome by (by rewrite E).
  apply mapM_is_Some in Hsome.
  rewrite Forall_forall in Hsome. specialize (Hsome row Hrow). simpl in Hsome.
  rewrite Hnone in Hsome. by destruct Hsome.
Qed.

(** A row that ends before its [Domain] cell has the key with the value
    [None]: the file is read, and the run goes on with a unit without a
    cell. *)
Example short_row_is_loaded :
  Main2.load_domains_from_csv Scenario.reader_short_row "domains.csv"
    = Some [Some "a.com"; None] /\
  Script.load_domains_from_csv Scenario.reader_short_row "domains.csv"
    = Some [Some "a.com"; None].
Proof. split; by vm_compute. Qed.

(** X14. When the input file cannot be read, or has rows and no [Domain]
    column, so that a row lacks the key, a probing script ends with the
    exception of [load_domains_from_csv]: whatever the schedules, no task
    has begun and the files are as the import left them. *)
Theorem run_stops_on_unreadable_input
    (TIMESTAMP : string) (now : nat -> string) (save_time : string)
    (session_get : nat -> string -> Probe.fetched)
    (DictReader : string -> option (list (gmap string (option string))))
    (re_search : Script.pattern -> string -> option string)
    (BeautifulSoup : string -> option (string -> list Script.tag))
    (json_loads : string -> Script.loaded)
    (upper : string -> string)
    (argv : list string) (csv_file : string)
    (scheds : list (list (Asyncio.event Probe.unit))) (d : Files.fs) :
  argv !! 1%nat = Some csv_file ->
  (DictReader csv_file = None \/
   exists rows row, DictReader csv_file = Some rows /\ row ∈ rows /\
                    row !! "Domain" = None) ->
  Main2.program TIMESTAMP now save_time session_get DictReader argv scheds d
    = Some (Probe.Uncaught,
            {| Main2.results := [];
               Main2.files := Main2.module_load TIMESTAMP d;
               Main2.trace := [] |}) /\
  Script.program TIMESTAMP now session_get DictReader re_search BeautifulSoup
    json_loads upper argv scheds d
    = Some (Probe.Uncaught,
            {| Script.files := Script.module_load TIMESTAMP d;
               Script.trace := [] |}).
Proof.
  intros Harg Hbad. apply load_domains_None in Hbad.
  unfold Main2.program, Main2.main, Script.program, Script.main.
  rewrite Harg.
  change (Script.load_domains_from_csv DictReader csv_file)
    with (Main2.load_domains_from_csv DictReader csv_file).
  by rewrite Hbad.
Qed.

Lemma run_stops_on_unreadable_input_witness :
  Scenario.reader_without_column "domains.csv"
    = Some [{["Name" := Some "a.com"]}; {["Name" := Some "b.com"]}] /\
  (exists rows row,
     Scenario.reader_without_column "domains.csv" = Some rows /\
     row ∈ rows /\ row !! "Domain" = None) /\
  fst <$> Main2.program "20240501_100000" Scenario.clock "20240501_100005"
            Scenario.widget_site Scenario.reader_without_column
            ["main2.py"; "domains.csv"] Scenario.many_in_turn ∅
    = Some Probe.Uncaught /\
  fst <$> Script.program "20240501_100000" Scenario.clock
            Scenario.widget_site Scenario.reader_without_column
            Scenario.no_match Scenario.no_tags Scenario.no_json Scenario.upper
            ["script.py"; "domains.csv"] Scenario.many_in_turn ∅
    = Some Probe.Uncaught.
Proof.
  split; [reflexivity |].
  assert (exists rows row,
            Scenario.reader_without_column "domains.csv" = Some rows /\
            row ∈ rows /\ row !! "Domain" = None) as Hbad.
  { eexists _, {["Name" := Some "a.com"]}. split; [done |].
    split; [left | by vm_compute]. }
  split; [exact Hbad |].
  destruct (run_stops_on_unreadable_input "20240501_100000" Scenario.clock
              "20240501_100005" Scenario.widget_site
              Scenario.reader_without_column Scenario.no_match
              Scenario.no_tags Scenario.no_json Scenario.upper
              ["main2.py"; "domains.csv"]
              "domains.csv" Scenario.many_in_turn ∅ eq_refl
              (or_intror Hbad)) as [Hwidget Hlocale].
  split; [by rewrite Hwidget |].
  exact (f_equal (fmap fst) Hlocale).
Defined.

(** X15. A run of a probing script that ends has awaited [process_domains] once
    for every 50 rows of the input, rounded up: never for an empty batch,
    and for a batch of fewer than 50 rows only as the last. *)
Theorem batches_are_full_but_the_last
    (TIMESTAMP : string) (now : nat -> string) (save_time : string)
    (session_get : nat -> string -> Probe.fetched)
    (DictReader : string -> option (list (gmap string (option string))))
    (re_search : Script.pattern -> string -> option string)
    (BeautifulSoup : string -> option (string -> list Script.tag))
    (json_loads : string -> Script.loaded)
    (upper : string -> string)
    (argv : list string)
    (scheds : list (list (Asyncio.event Probe.unit))) (d : Files.fs) :
  let shape (domains : list (option string)) :=
    length scheds = ((length domains + 49) / 50)%nat /\
    forall (n : nat) sched, scheds !! n = Some sched ->
      exists batch,
        Probe.batches (Probe.enumerate domains) 50 !! n = Some batch /\
        Asyncio.began sched = batch /\
        (1 <= length batch <= 50)%nat /\
        ((S n < length scheds)%nat -> length batch = 50%nat) in
  (forall st,
     Main2.program TIMESTAMP now save_time session_get DictReader argv scheds d
       = Some (Probe.Finished, st) ->
     exists csv_file domains,
       argv !! 1%nat = Some csv_file /\
       Main2.load_domains_from_csv DictReader csv_file = Some domains /\
       shape domains) /\
  (forall st,
     Script.program TIMESTAMP now session_get DictReader re_search
       BeautifulSoup json_loads upper argv scheds d
       = Some (Probe.Finished, st) ->
     exists csv_file domains,
       argv !! 1%nat = Some csv_file /\
       Script.load_domains_from_csv DictReader csv_file = Some domains /\
       shape domains).
Proof.
  assert (forall domains : list (option string),
            Forall2 (fun b s => Asyncio.accepts b [] s = true)
              (Probe.batches (Probe.enumerate domains) 50) scheds ->
            length scheds = ((length domains + 49) / 50)%nat /\
            forall (n : nat) sched, scheds !! n = Some sched ->
              exists batch,
                Probe.batches (Probe.enumerate domains) 50 !! n = Some batch /\
                Asyncio.began sched = batch /\
                (1 <= length batch <= 50)%nat /\
                ((S n < length scheds)%nat -> length batch = 50%nat)) as Hshape.
  { intros domains HF.
    assert (length scheds
            = length (Probe.batches (Probe.enumerate domains) 50)) as Hlen
      by (symmetry; by eapply Forall2_length).
    split.
    - rewrite Hlen. unfold Probe.batches.
      rewrite length_map, range_step_50_length. unfold Probe.enumerate.
      by rewrite length_imap.
    - intros n sched Hs.
      destruct (Forall2_lookup_r _ _ _ _ _ HF Hs) as (batch & Hb & Hacc).
      exists batch. split; [done |].
      split; [by apply accepts_began_order in Hacc |].
      rewrite Hlen. by apply batches_50_shape. }
  simpl. split; intros st Hst.
  - apply main2_program_inv in Hst
      as [(_ & [=] & _) | [(f & _ & _ & [=] & _) |
          (f & domains & order & Harg & Hload & _ & HF & _)]].
    exists f, domains. split; [done |]. split; [done |]. by apply Hshape.
  - apply script_program_inv in Hst
      as [(_ & [=] & _) | [(f & _ & _ & [=] & _) |
          (f & domains & order & Harg & Hload & _ & HF & _)]].
    exists f, domains. split; [done |]. split; [done |]. by apply Hshape.
Qed.

Lemma batches_are_full_but_the_last_witness :
  exists st2 st3,
    Main2.program "20240501_100000" Scenario.clock "20240501_100005"
      Scenario.widget_site (Scenario.reader Scenario.many_domains)
      ["probe.py"; "domains.csv"] Scenario.many_in_turn ∅
    = Some (Probe.Finished, st2) /\
    Script.program "20240501_100000" Scenario.clock Scenario.widget_site
      (Scenario.reader Scenario.many_domains) Scenario.no_match
      Scenario.no_tags Scenario.no_json Scenario.upper
      ["probe.py"; "domains.csv"] Scenario.many_in_turn ∅
    = Some (Probe.Finished, st3) /\
    length Scenario.many_in_turn = ((51 + 49) / 50)%nat.
Proof.
  assert (fst <$> Main2.program "20240501_100000" Scenario.clock
            "20240501_100005" Scenario.widget_site
            (Scenario.reader Scenario.many_domains)
            ["probe.py"; "domains.csv"] Scenario.many_in_turn ∅
          = Some Probe.Finished) as Hout2 by (by vm_compute).
  assert (fst <$> Script.program "20240501_100000" Scenario.clock
            Scenario.widget_site (Scenario.reader Scenario.many_domains)
            Scenario.no_match Scenario.no_tags Scenario.no_json Scenario.upper
            ["probe.py"; "domains.csv"] Scenario.many_in_turn ∅
          = Some Probe.Finished) as Hout3 by (by vm_compute).
  destruct (batches_are_full_but_the_last "20240501_100000" Scenario.clock
              "20240501_100005" Scenario.widget_site
              (Scenario.reader Scenario.many_domains) Scenario.no_match
              Scenario.no_tags Scenario.no_json Scenario.upper
              ["probe.py"; "domains.csv"]
              Scenario.many_in_turn ∅) as [Hwidget Hlocale].
  destruct (Main2.program _ _ _ _ _ _ _ _) as [[o2 st2]|] eqn:Hrun2; [| done].
  destruct (Script.program _ _ _ _ _ _ _ _ _ _ _) as [[o3 st3]|] eqn:Hrun3;
    [| done].
  injection Hout2 as ->. injection Hout3 as ->.
  destruct (Hwidget _ eq_refl) as (f2 & doms2 & _ & Hload2 & Hlen2 & _).
  assert (doms2 = Some <$> Scenario.many_domains) as ->
    by (vm_compute in Hload2; by injection Hload2).
  exists st2, st3. split; [done |]. split; [done |]. exact Hlen2.
Defined.

(** ** The probing scripts: the schedule *)

Lemma flat_map_perm {X Y} (f : X -> list Y) (l l' : list X) :
  l ≡ₚ l' -> flat_map f l ≡ₚ flat_map f l'.
Proof.
  induction 1 as [| x l l' _ IH | x y l | l l' l'' _ IH1 _ IH2]; simpl.
  - done.
  - by rewrite IH.
  - rewrite !(assoc_L (++)). f_equiv. apply (comm (++)).
  - by rewrite IH1.
Qed.

(** X16. Two runs of a probing script over the same input and the same answers
    differ by their schedules only in the order of the rows of the sink:
    the widget script returns the same records and writes the same results
    file, and the sinks of both scripts hold the same rows up to their
    order, each unit reading the same time in both runs. *)
Theorem schedule_only_orders_the_sink
    (TIMESTAMP : string) (now : nat -> string) (save_time : string)
    (session_get : nat -> string -> Probe.fetched)
    (DictReader : string -> option (list (gmap string (option string))))
    (re_search : Script.pattern -> string -> option string)
    (BeautifulSoup : string -> option (string -> list Script.tag))
    (json_loads : string -> Script.loaded)
    (upper : string -> string)
    (argv : list string)
    (scheds scheds' : list (list (Asyncio.event Probe.unit)))
    (d : Files.fs) :
  (forall st st',
     Main2.program TIMESTAMP now save_time session_get DictReader argv scheds d
       = Some (Probe.Finished, st) ->
     Main2.program TIMESTAMP now save_time session_get DictReader argv scheds' d
       = Some (Probe.Finished, st') ->
     Main2.results st = Main2.results st' /\
     Main2.files st !! ("domain_check_results_" +:+ save_time +:+ ".csv")
       = Main2.files st' !! ("domain_check_results_" +:+ save_time +:+ ".csv")
     /\
     exists rows rows',
       Main2.files st !! Main2.VERIFYPASS_FILE TIMESTAMP
         = Some (Main2.verifypass_header :: rows) /\
       Main2.files st' !! Main2.VERIFYPASS_FILE TIMESTAMP
         = Some (Main2.verifypass_header :: rows') /\
       rows ≡ₚ rows') /\
  (forall st st',
     Script.program TIMESTAMP now session_get DictReader re_search
       BeautifulSoup json_loads upper argv scheds d
       = Some (Probe.Finished, st) ->
     Script.program TIMESTAMP now session_get DictReader re_search
       BeautifulSoup json_loads upper argv scheds' d
       = Some (Probe.Finished, st') ->
     exists rows rows',
       Script.files st !! Script.INDIAN_DOMAINS_FILE TIMESTAMP
         = Some (Script.indian_header :: rows) /\
       Script.files st' !! Script.INDIAN_DOMAINS_FILE TIMESTAMP
         = Some (Script.indian_header :: rows') /\
       rows ≡ₚ rows').
Proof.
  split; intros st st' Hrun Hrun'.
  - apply main2_program_inv in Hrun
      as [(_ & [=] & _) | [(f & _ & _ & [=] & _) |
          (f & domains & order & Harg & Hload & _ & _ & _ & Hperm & _ & Hres
             & Hfiles)]].
    apply main2_program_inv in Hrun'
      as [(_ & [=] & _) | [(f' & _ & _ & [=] & _) |
          (f' & domains' & order' & Harg' & Hload' & _ & _ & _ & Hperm' & _
             & Hres' & Hfiles')]].
    assert (f' = f) as -> by congruence.
    assert (domains' = domains) as -> by congruence.
    assert (Main2.results st = Main2.results st') as Hsame by congruence.
    split; [done |]. split.
    { rewrite Hfiles, Hfiles', Hsame. unfold Main2.save_results.
      by rewrite !write_lookup. }
    eexists _, _. split; [| split].
    + rewrite Hfiles. unfold Main2.save_results.
      rewrite write_lookup_ne by apply verifypass_not_results.
      apply main2_sink.
    + rewrite Hfiles'. unfold Main2.save_results.
      rewrite write_lookup_ne by apply verifypass_not_results.
      apply main2_sink.
    + apply flat_map_perm. by rewrite Hperm, Hperm'.
  - apply script_program_inv in Hrun
      as [(_ & [=] & _) | [(f & _ & _ & [=] & _) |
          (f & domains & order & Harg & Hload & _ & _ & _ & Hperm & _
             & Hfiles)]].
    apply script_program_inv in Hrun'
      as [(_ & [=] & _) | [(f' & _ & _ & [=] & _) |
          (f' & domains' & order' & Harg' & Hload' & _ & _ & _ & Hperm' & _
             & Hfiles')]].
    assert (f' = f) as -> by congruence.
    assert (domains' = domains) as -> by congruence.
    eexists _, _. split; [| split].
    + rewrite Hfiles. apply script_sink.
    + rewrite Hfiles'. apply script_sink.
    + apply flat_map_perm. by rewrite Hperm, Hperm'.
Qed.

Lemma schedule_only_orders_the_sink_witness :
  exists st st',
    Main2.program "20240501_100000" Scenario.clock "20240501_100005"
      Scenario.widget_site (Scenario.reader ["a.com"; "b.com"])
      ["main2.py"; "domains.csv"] [Scenario.timeout_first] ∅
    = Some (Probe.Finished, st) /\
    Main2.program "20240501_100000" Scenario.clock "20240501_100005"
      Scenario.widget_site (Scenario.reader ["a.com"; "b.com"])
      ["main2.py"; "domains.csv"]
      [Asyncio.in_turn (Probe.enumerate [Some "a.com"; Some "b.com"])] ∅
    = Some (Probe.Finished, st') /\
    Main2.results st = Main2.results st'.
Proof.
  assert (fst <$> Main2.program "20240501_100000" Scenario.clock
            "20240501_100005" Scenario.widget_site
            (Scenario.reader ["a.com"; "b.com"])
            ["main2.py"; "domains.csv"] [Scenario.timeout_first] ∅
          = Some Probe.Finished) as Hout by (by vm_compute).
  assert (fst <$> Main2.program "20240501_100000" Scenario.clock
            "20240501_100005" Scenario.widget_site
            (Scenario.reader ["a.com"; "b.com"])
            ["main2.py"; "domains.csv"]
            [Asyncio.in_turn (Probe.enumerate [Some "a.com"; Some "b.com"])] ∅
          = Some Probe.Finished) as Hout' by (by vm_compute).
  destruct (schedule_only_orders_the_sink "20240501_100000" Scenario.clock
              "20240501_100005" Scenario.widget_site
              (Scenario.reader ["a.com"; "b.com"]) Scenario.no_match
              Scenario.no_tags Scenario.no_json Scenario.upper
              ["main2.py"; "domains.csv"] [Scenario.timeout_first]
              [Asyncio.in_turn (Probe.enumerate [Some "a.com"; Some "b.com"])] ∅)
    as [Hwidget _].
  destruct (Main2.program _ _ _ _ _ _ [Scenario.timeout_first] _)
    as [[o st]|] eqn:Hrun; [| done].
  destruct (Main2.program _ _ _ _ _ _ [Asyncio.in_turn _] _)
    as [[o' st']|] eqn:Hrun'; [| done].
  injection Hout as ->. injection Hout' as ->.
  destruct (Hwidget _ _ eq_refl eq_refl) as (Hsame & _).
  by exists st, st'.
Defined.

(** ** script.py: the country code, the shop identifier and the rows *)

Lemma foldl_inv_elem {X D} (P : D -> Prop) (step : D -> X -> D) (xs : list X) :
  (forall d x, x ∈ xs -> P d -> P (step d x)) ->
  forall d, P d -> P (foldl step d xs).
Proof.
  induction xs as [|x xs IH]; intros Hstep d Hd; simpl; [done |].
  apply IH.
  - intros d' x' Hx'. apply Hstep. by right.
  - apply Hstep; [left | done].
Qed.

Lemma split_from_slash (c : ascii) (s cur : string) :
  Py.split_from "/" (String c s) 0 cur =
  if Ascii.eqb "/" c then cur :: Py.split_from "/" s 0 ""
  else Py.split_from "/" s 0 (cur +:+ String c "").
Proof.
  change (Py.split_from "/" (String c s) 0 cur)
    with (if Ascii.eqb "/" c && true
          then cur :: Py.split_from "/" s 0 ""
          else Py.split_from "/" s 0 (cur +:+ String c "")).
  by rewrite andb_true_r.
Qed.

Lemma contains_slash (c : ascii) (s : string) :
  Py.contains (String c s) "/" = Ascii.eqb "/" c || Py.contains s "/".
Proof.
  change (Py.contains (String c s) "/")
    with (Ascii.eqb "/" c && true || Py.contains s "/").
  by rewrite andb_true_r.
Qed.

(** The piece before the first slash holds no slash. *)
Lemma split_slash_head (s : string) : forall cur,
  exists p, head (Py.split_from "/" s 0 cur) = Some (cur +:+ p) /\
            Py.contains p "/" = false.
Proof.
  induction s as [|c s IH]; intros cur.
  - exists "". split; [simpl; by rewrite app_empty_r | reflexivity].
  - rewrite split_from_slash. destruct (Ascii.eqb "/" c) eqn:E.
    + exists "". split; [simpl; by rewrite app_empty_r | reflexivity].
    + destruct (IH (cur +:+ String c "")) as (p & Hhead & Hp).
      exists (String c p). split.
      * by rewrite Hhead, app_assoc_s, app_cons, app_nil.
      * by rewrite contains_slash, E, Hp.
Qed.

Lemma split_slash_clean (s : string) :
  Py.contains (default "" (head (Py.split s "/"))) "/" = false.
Proof.
  unfold Py.split. destruct (split_slash_head s "") as (p & -> & Hp).
  simpl. by rewrite app_nil.
Qed.

Section LocaleData.
Context (re_search : Script.pattern -> string -> option string).
Context (BeautifulSoup : string -> option (string -> list Script.tag)).
Context (json_loads : string -> Script.loaded).
Context (upper : string -> string).

Local Abbreviation extract_shopify_data :=
  (Script.extract_shopify_data re_search BeautifulSoup json_loads upper).
Local Abbreviation no_data :=
  {| Script.country_code := None; Script.shop_id := None;
     Script.indicators := [] |}.

Lemma check_locale_country html d :
  Script.country_code (Script.check_locale re_search upper html d) =
  if Script.locale_fires re_search upper html then Some "IN"
  else Script.country_code d.
Proof.
  unfold Script.check_locale, Script.locale_fires.
  destruct (re_search _ _) as [group1|]; [| done].
  by destruct (Py.contains _ _).
Qed.

Lemma check_locale_shop_id html d :
  Script.shop_id (Script.check_locale re_search upper html d)
  = Script.shop_id d.
Proof.
  unfold Script.check_locale.
  destruct (re_search _ _) as [group1|]; [| done].
  by destruct (Py.contains _ _).
Qed.

Lemma meta_step_country d meta :
  Script.country_code (Script.meta_step upper d meta) =
  if Script.og_locale_fires upper meta then Some "IN"
  else Script.country_code d.
Proof.
  unfold Script.meta_step, Script.og_locale_fires.
  destruct (bool_decide (_ = Some "og:locale")); simpl;
    [destruct (Py.contains (upper _) "IN"); simpl |];
    (destruct (bool_decide (_ = Some "shopify-digital-wallet")); [| done];
     by destruct (Py.contains _ "/shop/")).
Qed.

Lemma check_currency_keeps html d : forall patterns,
  Script.country_code (Script.check_currency re_search patterns html d)
    = Script.country_code d /\
  Script.shop_id (Script.check_currency re_search patterns html d)
    = Script.shop_id d.
Proof.
  induction patterns as [|p patterns IH]; simpl; [done |].
  by destruct (re_search p html).
Qed.

Lemma address_step_keeps html d indicator :
  Script.country_code (Script.address_step html d indicator)
    = Script.country_code d /\
  Script.shop_id (Script.address_step html d indicator) = Script.shop_id d.
Proof.
  unfold Script.address_step. by destruct (Py.contains _ _).
Qed.

Lemma foldl_country {X} (step : Script.data -> X -> Script.data)
    (fires : X -> bool) :
  (forall d x, Script.country_code (step d x)
               = if fires x then Some "IN" else Script.country_code d) ->
  forall xs d,
    Script.country_code (foldl step d xs)
    = if existsb fires xs then Some "IN" else Script.country_code d.
Proof.
  intros Hstep. induction xs as [|x xs IH]; intros d; simpl; [done |].
  rewrite IH, Hstep. by destruct (fires x), (existsb fires xs).
Qed.

Lemma foldl_address_keeps html : forall indicators d,
  Script.country_code (foldl (Script.address_step html) d indicators)
    = Script.country_code d /\
  Script.shop_id (foldl (Script.address_step html) d indicators)
    = Script.shop_id d.
Proof.
  induction indicators as [|x xs IH]; intros d; simpl; [done |].
  destruct (IH (Script.address_step html d x)) as [-> ->].
  apply address_step_keeps.
Qed.

(** What the function returns, as far as the country code and the shop
    identifier go, is what the loop over the [script] elements left. *)
Lemma extract_after_scripts html soup :
  BeautifulSoup html = Some soup ->
  exists d',
    Script.country_code (extract_shopify_data html) = Script.country_code d' /\
    Script.shop_id (extract_shopify_data html) = Script.shop_id d' /\
    Script.country_code d' =
      (if existsb (Script.shop_country_fires re_search json_loads)
            (Script.scripts_read re_search json_loads (soup "script"))
       then Some "IN"
       else Script.country_code
              (foldl (Script.meta_step upper)
                 (Script.check_locale re_search upper html no_data)
                 (soup "meta"))) /\
    Script.shop_id d' =
      Script.shop_id (foldl (Script.meta_step upper)
                        (Script.check_locale re_search upper html no_data)
                        (soup "meta")).
Proof.
  intros Hsoup.
  unfold Script.extract_shopify_data, Script.extract_body.
  rewrite Hsoup. cbv zeta.
  destruct (scripts_loop_flow re_search json_loads (soup "script")
              (foldl (Script.meta_step upper)
                 (Script.check_locale re_search upper html no_data)
                 (soup "meta")))
    as (d' & -> & _ & Hc & Hs).
  exists d'.
  destruct (existsb _ (soup "script")); cbn [Script.and_then Script.data_of].
  - done.
  - destruct (foldl_address_keeps html Script.address_indicators
                (Script.check_currency re_search Script.currency_patterns
                   html d')) as [-> ->].
    by destruct (check_currency_keeps html d' Script.currency_patterns)
      as [-> ->].
Qed.

(** The country code [extract_shopify_data] ends with. *)
Lemma extract_country html :
  Script.country_code (extract_shopify_data html) =
  if Script.locale_fires re_search upper html
     || match BeautifulSoup html with
        | Some soup =>
            existsb (Script.og_locale_fires upper) (soup "meta")
            || existsb (Script.shop_country_fires re_search json_loads)
                 (Script.scripts_read re_search json_loads (soup "script"))
        | None => false
        end
  then Some "IN" else None.
Proof.
  destruct (BeautifulSoup html) as [soup|] eqn:Hsoup.
  - destruct (extract_after_scripts html soup Hsoup)
      as (d' & -> & _ & -> & _).
    rewrite (foldl_country _ _ meta_step_country), check_locale_country.
    simpl.
    by destruct (Script.locale_fires re_search upper html),
         (existsb (Script.og_locale_fires upper) (soup "meta")),
         (existsb _ (Script.scripts_read _ _ _)).
  - unfold Script.extract_shopify_data, Script.extract_body.
    rewrite Hsoup. cbn [Script.data_of].
    rewrite check_locale_country, orb_false_r. done.
Qed.

Lemma flat_map_fires {X} (fires : X -> bool) (label : X -> string)
    (xs : list X) :
  existsb fires xs = true ->
  flat_map (fun x => if fires x then [label x] else []) xs <> [].
Proof.
  induction xs as [|x xs IH]; simpl; [done |].
  destruct (fires x); simpl; [done |]. exact IH.
Qed.

(** A country code comes with an indicator. *)
Lemma extract_country_indicators html :
  Script.country_code (extract_shopify_data html) = Some "IN" ->
  Script.indicators (extract_shopify_data html) <> [].
Proof.
  rewrite extract_country, extract_indicators. unfold Script.fired.
  destruct (Script.locale_fires re_search upper html); simpl; [done |].
  destruct (BeautifulSoup html) as [soup|]; [| done].
  destruct (existsb (Script.og_locale_fires upper) (soup "meta")) eqn:Hm;
    simpl.
  { intros _ Hnil. apply app_eq_nil in Hnil as [Hnil _].
    by apply (flat_map_fires (Script.og_locale_fires upper)
                (fun _ => "Meta locale: IN")) in Hm. }
  destruct (existsb _ (Script.scripts_read _ _ _)) eqn:Hs; [| done].
  intros _ Hnil. apply app_eq_nil in Hnil as [_ Hnil].
  apply app_eq_nil in Hnil as [Hnil _].
  by apply (flat_map_fires (Script.shop_country_fires re_search json_loads)
              (fun _ => "Shopify.shop country: IN")) in Hs.
Qed.

(** Only the loop over the [meta] elements sets the shop identifier. *)
Lemma extract_shop_id html :
  Script.shop_id (extract_shopify_data html)
  = match BeautifulSoup html with
    | Some soup =>
        Script.shop_id (foldl (Script.meta_step upper) no_data (soup "meta"))
    | None => None
    end.
Proof.
  destruct (BeautifulSoup html) as [soup|] eqn:Hsoup.
  - destruct (extract_after_scripts html soup Hsoup)
      as (d' & _ & -> & _ & ->).
    assert (forall metas d d',
              Script.shop_id d = Script.shop_id d' ->
              Script.shop_id (foldl (Script.meta_step upper) d metas)
              = Script.shop_id (foldl (Script.meta_step upper) d' metas))
      as Hmetas.
    { induction metas as [|x xs IH]; intros d d0 Hd; simpl; [done |].
      apply IH. unfold Script.meta_step.
      destruct (bool_decide (_ = Some "og:locale")); simpl;
        [destruct (Py.contains (upper _) "IN"); simpl |];
        (destruct (bool_decide (_ = Some "shopify-digital-wallet"));
         [| done]; by destruct (Py.contains _ "/shop/")). }
    apply Hmetas, check_locale_shop_id.
  - unfold Script.extract_shopify_data, Script.extract_body.
    rewrite Hsoup. cbn [Script.data_of]. apply check_locale_shop_id.
Qed.

End LocaleData.

(** X17. The country code [extract_shopify_data] returns is [IN] when the
    [Shopify.locale] check fired, or the parser accepted the page and an
    [og:locale] element fired or a [Shopify.shop] object fired with no
    [script] element before it on which [json.loads] raised; it is [None]
    otherwise: the currency and the postal formats never set it. A country
    code comes with an indicator, so the test [country_code == 'IN'] of
    [check_domain] adds nothing to the test of the indicator list. *)
Theorem country_code_set_by_three_checks
    (re_search : Script.pattern -> string -> option string)
    (BeautifulSoup : string -> option (string -> list Script.tag))
    (json_loads : string -> Script.loaded)
    (upper : string -> string)
    (html_content : string) :
  let shopify_data :=
    Script.extract_shopify_data re_search BeautifulSoup json_loads upper
      html_content in
  let fires_in (soup : string -> list Script.tag) :=
    (exists meta,
       meta ∈ soup "meta" /\ Script.og_locale_fires upper meta = true) \/
    (exists before script after,
       soup "script" = before ++ script :: after /\
       (forall s, s ∈ before ->
          Script.shop_object re_search json_loads s
            <> Some Script.Raises) /\
       Script.shop_country_fires re_search json_loads script = true) in
  (Script.country_code shopify_data = Some "IN" <->
   Script.locale_fires re_search upper html_content = true \/
   exists soup, BeautifulSoup html_content = Some soup /\ fires_in soup) /\
  (Script.country_code shopify_data = Some "IN" \/
   Script.country_code shopify_data = None) /\
  bool_decide (Script.country_code shopify_data = Some "IN")
    || negb (bool_decide (Script.indicators shopify_data = []))
  = negb (bool_decide (Script.indicators shopify_data = [])).
Proof.
  cbv zeta. split; [| split].
  - rewrite extract_country.
    destruct (Script.locale_fires re_search upper html_content); simpl;
      [split; [by left | done] |].
    destruct (BeautifulSoup html_content) as [soup|].
    + destruct (existsb (Script.og_locale_fires upper) (soup "meta"))
        eqn:Hm; simpl.
      * split; [| done]. intros _. right. exists soup. split; [done |].
        left. apply existsb_exists in Hm as (meta & Hin & Hf).
        exists meta. by rewrite list_elem_of_In.
      * destruct (existsb _ (Script.scripts_read _ _ _)) eqn:Hs.
        -- split; [| done]. intros _. right. exists soup. split; [done |].
           right. by apply fires_before_raise.
        -- split; [done |].
           intros [? | (soup' & [= <-] & [(meta & Hin & Hf) | Hf])];
             [done | |].
           ++ assert (existsb (Script.og_locale_fires upper) (soup "meta")
                      = true) as Hm'
                by (apply existsb_exists; exists meta;
                    by rewrite <- list_elem_of_In).
              by rewrite Hm' in Hm.
           ++ apply fires_before_raise in Hf. by rewrite Hf in Hs.
    + split; [done |]. by intros [? | (soup & ? & _)].
  - rewrite extract_country. destruct (_ || _); [by left | by right].
  - destruct (decide (Script.country_code
                        (Script.extract_shopify_data re_search BeautifulSoup
                           json_loads upper html_content) = Some "IN"))
      as [Hc | Hc].
    + apply extract_country_indicators in Hc.
      by rewrite (bool_decide_eq_false_2 _ Hc), orb_true_r.
    + by rewrite (bool_decide_eq_false_2 _ Hc).
Qed.

Lemma country_code_set_by_three_checks_witness :
  Script.country_code
    (Script.extract_shopify_data Scenario.match_shop
       Scenario.parse_shops_reversed Scenario.load_shops Scenario.upper
       Scenario.shops_reversed) = Some "IN" /\
  Script.country_code
    (Script.extract_shopify_data Scenario.match_shop
       Scenario.parse_two_shops Scenario.load_shops Scenario.upper
       Scenario.two_shops) = None.
Proof.
  destruct (country_code_set_by_three_checks Scenario.match_shop
              Scenario.parse_shops_reversed Scenario.load_shops Scenario.upper
              Scenario.shops_reversed) as (Hin & _).
  destruct (country_code_set_by_three_checks Scenario.match_shop
              Scenario.parse_two_shops Scenario.load_shops Scenario.upper
              Scenario.two_shops) as (_ & Hcases & _).
  split.
  - apply Hin. right. eexists. split; [reflexivity |]. right.
    exists [], Scenario.indian_shop, [Scenario.deep_shop].
    split; [by vm_compute |]. split; [| by vm_compute].
    by intros s ?%elem_of_nil.
  - by vm_compute.
Defined.

(** X18. A shop identifier holds no slash, and there is one only when a [meta]
    element named [shopify-digital-wallet] has [/shop/] in its content. *)
Theorem shop_id_has_no_slash
    (re_search : Script.pattern -> string -> option string)
    (BeautifulSoup : string -> option (string -> list Script.tag))
    (json_loads : string -> Script.loaded)
    (upper : string -> string)
    (html_content shop_id : string) :
  Script.shop_id
    (Script.extract_shopify_data re_search BeautifulSoup json_loads upper
       html_content)
    = Some shop_id ->
  Py.contains shop_id "/" = false /\
  exists soup meta,
    BeautifulSoup html_content = Some soup /\
    meta ∈ soup "meta" /\
    Script.attrs meta !! "name" = Some "shopify-digital-wallet" /\
    Py.contains (default "" (Script.attrs meta !! "content")) "/shop/" = true.
Proof.
  rewrite extract_shop_id.
  destruct (BeautifulSoup html_content) as [soup|]; [| done].
  intros Hid.
  assert (Py.contains shop_id "/" = false /\
          exists meta,
            meta ∈ soup "meta" /\
            Script.attrs meta !! "name" = Some "shopify-digital-wallet" /\
            Py.contains (default "" (Script.attrs meta !! "content"))
              "/shop/" = true) as [Hclean (meta & Hmeta)];
    [| split; [done | by exists soup, meta]].
  revert Hid.
  apply (foldl_inv_elem
           (fun d => Script.shop_id d = Some shop_id ->
              Py.contains shop_id "/" = false /\
              exists meta,
                meta ∈ soup "meta" /\
                Script.attrs meta !! "name" = Some "shopify-digital-wallet" /\
                Py.contains (default "" (Script.attrs meta !! "content"))
                  "/shop/" = true)
           (Script.meta_step upper) (soup "meta")); [| done].
  intros d meta Hmeta IH. unfold Script.meta_step.
  destruct (bool_decide (Script.attrs meta !! "name"
                         = Some "shopify-digital-wallet")) eqn:Hname.
  - apply bool_decide_eq_true in Hname.
    destruct (Py.contains (default "" (Script.attrs meta !! "content"))
                "/shop/") eqn:Hshop.
    + simpl. intros [= <-]. split; [apply split_slash_clean |].
      by exists meta.
    + destruct (bool_decide (_ = Some "og:locale")); [| done].
      by destruct (Py.contains (upper _) "IN").
  - destruct (bool_decide (_ = Some "og:locale")); [| done].
    by destruct (Py.contains (upper _) "IN").
Qed.

Lemma shop_id_has_no_slash_witness :
  Script.shop_id
    (Script.extract_shopify_data Scenario.no_match Scenario.parse_wallet
       Scenario.no_json Scenario.upper Scenario.wallet_page) = Some "12345" /\
  Py.contains "12345" "/" = false /\
  Scenario.parse_wallet Scenario.wallet_page
    = Some (fun name =>
              if String.eqb name "meta"
                 && String.eqb Scenario.wallet_page Scenario.wallet_page
              then [Scenario.wallet] else []) /\
  Script.attrs Scenario.wallet !! "content"
    = Some "/wallets/shop/12345/digital_wallets".
Proof.
  assert (Script.shop_id
            (Script.extract_shopify_data Scenario.no_match
               Scenario.parse_wallet Scenario.no_json Scenario.upper
               Scenario.wallet_page)
          = Some "12345") as Hid by (by vm_compute).
  split; [exact Hid |].
  destruct (shop_id_has_no_slash _ _ _ _ _ _ Hid) as [Hclean _].
  split; [exact Hclean |]. split; [reflexivity | by vm_compute].
Defined.

Section LocaleRows.
Import Files Probe.
Context (TIMESTAMP : string) (now : nat -> string).
Context (session_get : nat -> string -> fetched).
Context (re_search : Script.pattern -> string -> option string).
Context (BeautifulSoup : string -> option (string -> list Script.tag)).
Context (json_loads : string -> Script.loaded).
Context (upper : string -> string).

Local Abbreviation INDIAN_DOMAINS_FILE := (Script.INDIAN_DOMAINS_FILE TIMESTAMP).
Local Abbreviation check_domain :=
  (Script.check_domain TIMESTAMP now session_get re_search BeautifulSoup
     json_loads upper).
Local Abbreviation extract_shopify_data :=
  (Script.extract_shopify_data re_search BeautifulSoup json_loads upper).

(** The row of a page, as [check_domain] hands it to [save_indian_domain]. *)
Local Abbreviation locale_row i url shopify_data :=
  [Str url; Int (Script.confidence shopify_data);
   Str (Py.join ", " (Script.indicators shopify_data));
   of_opt_str (Script.country_code shopify_data);
   of_opt_str (Script.shop_id shopify_data); Str (now i)].

Lemma confidence_floor d :
  Script.indicators d <> [] -> 25 <= Script.confidence d.
Proof.
  unfold Script.confidence. destruct (Script.indicators d); [done |].
  simpl length. lia.
Qed.

(** What a unit appends: the row of its page when the page is answered
    with status 200 and has an indicator, and nothing otherwise. *)
Lemma script_unit_saved i cell :
  appended INDIAN_DOMAINS_FILE (snd (check_domain (i, cell))) =
  match cell with
  | Some dom =>
      match session_get i (Script.ensure_https dom) with
      | Response status html =>
          if (status =? 200)
             && negb (bool_decide
                        (Script.indicators (extract_shopify_data html) = []))
          then [locale_row i (Script.ensure_https dom)
                  (extract_shopify_data html)]
          else []
      | _ => []
      end
  | None => []
  end.
Proof.
  unfold Script.check_domain. destruct cell as [dom|];
    [| apply (appends_appended _ _ _ (appends_id _))].
  destruct (session_get i _) as [| e | status html];
    try apply (appends_appended _ _ _ (appends_id _)).
  destruct (status =? 200); simpl;
    [| apply (appends_appended _ _ _ (appends_id _))].
  destruct (decide (Script.country_code (extract_shopify_data html)
                    = Some "IN")) as [Hc | Hc].
  - pose proof (extract_country_indicators _ _ _ _ _ Hc) as Hi.
    rewrite (bool_decide_eq_true_2 _ Hc), (bool_decide_eq_false_2 _ Hi).
    simpl. apply confidence_floor in Hi. apply Z.leb_le in Hi. rewrite Hi.
    unfold Script.save_indian_domain.
    apply (appends_appended _ _ _ (appends_append _ _)).
  - rewrite (bool_decide_eq_false_2 _ Hc). simpl.
    destruct (decide (Script.indicators (extract_shopify_data html) = []))
      as [Hi | Hi].
    + rewrite (bool_decide_eq_true_2 _ Hi). simpl.
      apply (appends_appended _ _ _ (appends_id _)).
    + rewrite (bool_decide_eq_false_2 _ Hi). simpl.
      apply confidence_floor in Hi. apply Z.leb_le in Hi. rewrite Hi.
      unfold Script.save_indian_domain.
      apply (appends_appended _ _ _ (appends_append _ _)).
Qed.

End LocaleRows.

Lemma confidence_values (d : Script.data) :
  Script.indicators d <> [] ->
  Script.confidence d ∈ [25; 50; 75; 100].
Proof.
  unfold Script.confidence.
  destruct (Script.indicators d) as [|a [|b [|c l]]]; [done | | |].
  - intros _. left.
  - intros _. right. left.
  - intros _. destruct l as [|e l].
    + right. right. left.
    + right. right. right.
      replace (Z.min _ 100) with 100 by (simpl length; lia). left.
Qed.

(** X19. A unit of the locale script whose page is answered with status 200
    appends one row exactly when the page has an indicator; its confidence
    is then 25, 50, 75 or 100. *)
Theorem locale_record_written_iff_indicator
    (TIMESTAMP : string) (now : nat -> string)
    (session_get : nat -> string -> Probe.fetched)
    (re_search : Script.pattern -> string -> option string)
    (BeautifulSoup : string -> option (string -> list Script.tag))
    (json_loads : string -> Script.loaded)
    (upper : string -> string)
    (i : nat) (domain html_content : string) :
  session_get i (Script.ensure_https domain)
    = Probe.Response 200 html_content ->
  let shopify_data :=
    Script.extract_shopify_data re_search BeautifulSoup json_loads upper
      html_content in
  let rows :=
    Files.appended (Script.INDIAN_DOMAINS_FILE TIMESTAMP)
      (snd (Script.check_domain TIMESTAMP now session_get re_search
              BeautifulSoup json_loads upper (i, Some domain))) in
  (Script.indicators shopify_data = [] -> rows = []) /\
  (Script.indicators shopify_data <> [] ->
   rows = [[Files.Str (Script.ensure_https domain);
            Files.Int (Script.confidence shopify_data);
            Files.Str (Py.join ", " (Script.indicators shopify_data));
            Files.of_opt_str (Script.country_code shopify_data);
            Files.of_opt_str (Script.shop_id shopify_data);
            Files.Str (now i)]] /\
   Script.confidence shopify_data ∈ [25; 50; 75; 100]).
Proof.
  intros Hget. cbv zeta. rewrite script_unit_saved, Hget. simpl. split.
  - intros Hi. by rewrite (bool_decide_eq_true_2 _ Hi).
  - intros Hi. rewrite (bool_decide_eq_false_2 _ Hi). simpl.
    split; [done | by apply confidence_values].
Qed.

Lemma locale_record_written_iff_indicator_witness :
  Scenario.locale_site 0%nat (Script.ensure_https "a.com")
    = Probe.Response 200 Scenario.twice_locale /\
  Files.appended (Script.INDIAN_DOMAINS_FILE "20240501_100000")
    (snd (Script.check_domain "20240501_100000" Scenario.clock
            Scenario.locale_site Scenario.no_match
            Scenario.parse_twice_locale Scenario.no_json Scenario.upper
            (0%nat, Some "a.com")))
  = [[Files.Str "https://a.com"; Files.Int 50;
      Files.Str "Meta locale: IN, Meta locale: IN"; Files.Str "IN";
      Files.NoneCell; Files.Str "2024-05-01 10:00:00"]].
Proof.
  assert (Scenario.locale_site 0%nat (Script.ensure_https "a.com")
          = Probe.Response 200 Scenario.twice_locale) as Hget by done.
  split; [exact Hget |].
  destruct (locale_record_written_iff_indicator "20240501_100000"
              Scenario.clock Scenario.locale_site Scenario.no_match
              Scenario.parse_twice_locale Scenario.no_json Scenario.upper
              0%nat "a.com" Scenario.twice_locale Hget) as [_ Hrow].
  destruct Hrow as [-> _]; [by vm_compute | by vm_compute].
Defined.

(** X20. Every row under the header of the sink of a run of the locale script
    is the row of a unit of the input whose page was answered with status
    200: the URL asked for, a confidence of 25, 50, 75 or 100, the
    indicators of the page, of which there is at least one, and a country
    code that is empty or [IN]. *)
Theorem locale_rows_are_well_formed
    (TIMESTAMP : string) (now : nat -> string)
    (session_get : nat -> string -> Probe.fetched)
    (DictReader : string -> option (list (gmap string (option string))))
    (re_search : Script.pattern -> string -> option string)
    (BeautifulSoup : string -> option (string -> list Script.tag))
    (json_loads : string -> Script.loaded)
    (upper : string -> string)
    (argv : list string)
    (scheds : list (list (Asyncio.event Probe.unit))) (d : Files.fs)
    (st : Script.state) :
  Script.program TIMESTAMP now session_get DictReader re_search BeautifulSoup
    json_loads upper argv scheds d = Some (Probe.Finished, st) ->
  exists csv_file domains rows,
    argv !! 1%nat = Some csv_file /\
    Script.load_domains_from_csv DictReader csv_file = Some domains /\
    Script.files st !! Script.INDIAN_DOMAINS_FILE TIMESTAMP
      = Some (Script.indian_header :: rows) /\
    forall row, row ∈ rows ->
      exists (i : nat) domain html_content,
        domains !! i = Some (Some domain) /\
        session_get i (Script.ensure_https domain)
          = Probe.Response 200 html_content /\
        let shopify_data :=
          Script.extract_shopify_data re_search BeautifulSoup json_loads
            upper html_content in
        row = [Files.Str (Script.ensure_https domain);
               Files.Int (Script.confidence shopify_data);
               Files.Str (Py.join ", " (Script.indicators shopify_data));
               Files.of_opt_str (Script.country_code shopify_data);
               Files.of_opt_str (Script.shop_id shopify_data);
               Files.Str (now i)] /\
        Script.indicators shopify_data <> [] /\
        Script.confidence shopify_data ∈ [25; 50; 75; 100] /\
        (Script.country_code shopify_data = None \/
         Script.country_code shopify_data = Some "IN").
Proof.
  intros Hrun.
  apply script_program_inv in Hrun
    as [(_ & [=] & _) | [(f & _ & _ & [=] & _) |
        (f & domains & order & Harg & Hload & _ & _ & _ & Hperm & _
           & Hfiles)]].
  eexists f, domains, _. split; [done |]. split; [done |].
  split; [rewrite Hfiles; apply script_sink |].
  intros row Hrow.
  apply elem_of_flat_map in Hrow as ([i cell] & Hu & Hrow).
  rewrite Hperm in Hu. unfold Probe.enumerate in Hu.
  apply list_elem_of_lookup in Hu as [k Hu].
  rewrite list_lookup_imap in Hu.
  destruct (domains !! k) as [cell'|] eqn:Hk; [| done].
  injection Hu as <- <-.
  rewrite script_unit_saved in Hrow.
  destruct cell' as [dom'|]; [| by apply elem_of_nil in Hrow].
  destruct (session_get k _) as [| e | status html] eqn:Hget;
    [by apply elem_of_nil in Hrow | by apply elem_of_nil in Hrow |].
  destruct (status =? 200) eqn:Hs; [| by apply elem_of_nil in Hrow].
  apply Z.eqb_eq in Hs as ->. simpl in Hrow.
  destruct (decide (Script.indicators
                      (Script.extract_shopify_data re_search BeautifulSoup
                         json_loads upper html) = [])) as [Hi | Hi].
  { rewrite (bool_decide_eq_true_2 _ Hi) in Hrow.
    by apply elem_of_nil in Hrow. }
  rewrite (bool_decide_eq_false_2 _ Hi) in Hrow. simpl in Hrow.
  apply list_elem_of_singleton in Hrow as ->.
  exists k, dom', html. split; [done |]. split; [done |]. simpl.
  split; [done |]. split; [done |].
  split; [by apply confidence_values |].
  rewrite extract_country. destruct (_ || _); [by right | by left].
Qed.

Lemma locale_rows_are_well_formed_witness :
  exists st (rows : Files.file),
    Script.program "20240501_100000" Scenario.clock Scenario.locale_site
      (Scenario.reader ["a.com"; "b.com"]) Scenario.no_match
      Scenario.parse_twice_locale Scenario.no_json Scenario.upper
      ["script.py"; "domains.csv"] [Scenario.timeout_first] ∅
    = Some (Probe.Finished, st) /\
    Script.files st !! Script.INDIAN_DOMAINS_FILE "20240501_100000"
      = Some (Script.indian_header :: rows) /\
    forall row, row ∈ rows -> exists url joined country shop time,
      row = [Files.Str url; Files.Int 50; Files.Str joined; country; shop;
             Files.Str time].
Proof.
  assert (fst <$> Script.program "20240501_100000" Scenario.clock
            Scenario.locale_site (Scenario.reader ["a.com"; "b.com"])
            Scenario.no_match Scenario.parse_twice_locale Scenario.no_json
            Scenario.upper
            ["script.py"; "domains.csv"] [Scenario.timeout_first] ∅
          = Some Probe.Finished) as Hout by (by vm_compute).
  destruct (Script.program _ _ _ _ _ _ _ _ _ _ _) as [[o st]|] eqn:Hrun;
    [| done].
  injection Hout as ->.
  destruct (locale_rows_are_well_formed _ _ _ _ _ _ _ _ _ _ _ _ Hrun)
    as (f & domains & rows & _ & _ & Hfile & Hrows).
  exists st, rows. split; [done |]. split; [done |].
  intros row Hrow.
  destruct (Hrows row Hrow) as (i & dom & html & _ & Hget & -> & _).
  assert (html = Scenario.twice_locale) as -> by (by injection Hget).
  assert (Script.confidence
            (Script.extract_shopify_data Scenario.no_match
               Scenario.parse_twice_locale Scenario.no_json Scenario.upper
               Scenario.twice_locale) = 50) as -> by (by vm_compute).
  by eexists _, _, _, _, _.
Defined.

